(** * Asset Localizer and Branding Rewriter: a shallow embedding

    The two scripts [tools/mirror_webflow.py] and [tools/remove_branding.py]
    are embedded function by function.  Python [str] values are Rocq strings
    whose characters stand for the code points U+0000..U+00FF; documents are
    modelled by their decoded text.  The tree below the site root is a finite
    map from the parts of a path to the text of the regular file found there;
    the network is an oracle answering each request. *)

From Stdlib Require Import ZArith Ascii String List Lia Bool.
From stdpp Require Import base tactics option list sorting strings gmap.

(* ===================================================================== *)
(** * Python strings *)
(* ===================================================================== *)

Module Py.

(** Code point of a character. *)
Definition ord (c : ascii) : Z := Z.of_N (N_of_ascii c).

Definition chr (z : Z) : ascii := ascii_of_N (Z.to_N z).

Definition in_range (lo hi : Z) (c : ascii) : bool :=
  (lo <=? ord c)%Z && (ord c <=? hi)%Z.

Definition is_upper_az (c : ascii) : bool := in_range 65 90 c.
Definition is_lower_az (c : ascii) : bool := in_range 97 122 c.
Definition is_digit (c : ascii) : bool := in_range 48 57 c.
Definition is_ascii_alpha (c : ascii) : bool := is_upper_az c || is_lower_az c.

(** [str.isspace] and the regular-expression class [\s] on code points below
    256: TAB..CR, FS..US, SPACE, NEL and NBSP. *)
Definition is_space (c : ascii) : bool :=
  in_range 9 13 c || in_range 28 32 c || (ord c =? 133)%Z || (ord c =? 160)%Z.

(** [str.lower] on one code point below 256: A-Z, and the Latin-1 capitals
    U+00C0..U+00DE except the multiplication sign U+00D7. *)
Definition lower_char (c : ascii) : ascii :=
  if is_upper_az c || (in_range 192 222 c && negb (ord c =? 215)%Z)
  then chr (ord c + 32) else c.

Fixpoint map_chars (f : ascii -> ascii) (s : string) : string :=
  match s with
  | EmptyString => EmptyString
  | String c r => String (f c) (map_chars f r)
  end.

Definition lower (s : string) : string := map_chars lower_char s.

Fixpoint forallb_chars (p : ascii -> bool) (s : string) : bool :=
  match s with
  | EmptyString => true
  | String c r => p c && forallb_chars p r
  end.

Fixpoint mem_char (c : ascii) (s : string) : bool :=
  match s with
  | EmptyString => false
  | String d r => Ascii.eqb c d || mem_char c r
  end.

Definition is_empty (s : string) : bool :=
  match s with EmptyString => true | _ => false end.

(** [s[:n]] and [s[n:]] for [n >= 0]. *)
Fixpoint take (n : nat) (s : string) : string :=
  match n, s with
  | S k, String c r => String c (take k r)
  | _, _ => EmptyString
  end.

Fixpoint drop (n : nat) (s : string) : string :=
  match n, s with
  | S k, String _ r => drop k r
  | _, _ => s
  end.

(** [s.startswith(p)]. *)
Fixpoint startswith (p s : string) : bool :=
  match p, s with
  | EmptyString, _ => true
  | String a p', String b s' => Ascii.eqb a b && startswith p' s'
  | String _ _, EmptyString => false
  end.

(** [s.endswith(p)]. *)
Definition endswith (p s : string) : bool :=
  Nat.leb (String.length p) (String.length s) &&
  String.eqb (drop (String.length s - String.length p) s) p.

(** [s.find(p)]: the least index at which [p] occurs, [None] for -1. *)
Fixpoint find (p s : string) : option nat :=
  if startswith p s then Some 0
  else match s with
       | EmptyString => None
       | String _ r => option_map S (find p r)
       end.

(** [p in s]. *)
Definition contains (p s : string) : bool :=
  match find p s with Some _ => true | None => false end.

(** [s.rfind(c)] for a single character [c]. *)
Fixpoint rfind_char (c : ascii) (s : string) : option nat :=
  match s with
  | EmptyString => None
  | String d r =>
      match rfind_char c r with
      | Some i => Some (S i)
      | None => if Ascii.eqb c d then Some 0 else None
      end
  end.

Definition find_char (c : ascii) (s : string) : option nat :=
  find (String c EmptyString) s.

(** [s.lstrip(chars)] and [s.strip()] (white space). *)
Fixpoint lstrip_by (p : ascii -> bool) (s : string) : string :=
  match s with
  | String c r => if p c then lstrip_by p r else s
  | EmptyString => EmptyString
  end.

Fixpoint rstrip_by (p : ascii -> bool) (s : string) : string :=
  match s with
  | EmptyString => EmptyString
  | String c r =>
      match rstrip_by p r with
      | EmptyString => if p c then EmptyString else String c EmptyString
      | r' => String c r'
      end
  end.

Definition strip (s : string) : string := rstrip_by is_space (lstrip_by is_space s).

Fixpoint filter_chars (p : ascii -> bool) (s : string) : string :=
  match s with
  | EmptyString => EmptyString
  | String c r => if p c then String c (filter_chars p r) else filter_chars p r
  end.

(** [s.replace(old, new)] for a non-empty [old]: occurrences are found from
    the left and do not overlap.  [skip] counts the characters of a matched
    occurrence that are still to be passed over. *)
Fixpoint replace_from (old new : string) (skip : nat) (s : string) : string :=
  match s with
  | EmptyString => EmptyString
  | String c r =>
      match skip with
      | S k => replace_from old new k r
      | O =>
          if startswith old s
          then new +:+ replace_from old new (String.length old - 1) r
          else String c (replace_from old new 0 r)
      end
  end.

(** With an empty [old], Python puts [new] before every character and at
    the end. *)
Fixpoint intersperse_str (new s : string) : string :=
  match s with
  | EmptyString => new
  | String c r => new +:+ String c (intersperse_str new r)
  end.

Definition replace (old new s : string) : string :=
  if is_empty old then intersperse_str new s else replace_from old new 0 s.

(** [s * n]. *)
Fixpoint repeat_str (s : string) (n : nat) : string :=
  match n with
  | O => EmptyString
  | S k => s +:+ repeat_str s k
  end.

(** [s.split(c)] for a single character. *)
Fixpoint split_char (c : ascii) (s : string) : list string :=
  match s with
  | EmptyString => [EmptyString]
  | String d r =>
      if Ascii.eqb c d then EmptyString :: split_char c r
      else match split_char c r with
           | w :: ws => String d w :: ws
           | [] => [String d EmptyString]
           end
  end.

(** [s.partition(c)] and [s.rpartition(c)] for a single character: the
    text before the separator, whether it was found, the text after. *)
Definition partition (c : ascii) (s : string) : string * bool * string :=
  match find_char c s with
  | Some i => (take i s, true, drop (S i) s)
  | None => (s, false, EmptyString)
  end.

Definition rpartition (c : ascii) (s : string) : string * bool * string :=
  match rfind_char c s with
  | Some i => (take i s, true, drop (S i) s)
  | None => (EmptyString, false, s)
  end.

(** The quotation mark, as a one-character string. *)
Definition dquote : string := String "034"%char EmptyString.

(** [html.escape(s, quote=True)]: five replacements, the ampersand first. *)
Definition html_escape (s : string) : string :=
  let s := replace "&" "&amp;" s in
  let s := replace "<" "&lt;" s in
  let s := replace ">" "&gt;" s in
  let s := replace dquote "&quot;" s in
  replace "'" "&#x27;" s.

(** [s.encode("utf-8")] for code points below 256. *)
Fixpoint encode_utf8 (s : string) : list Z :=
  match s with
  | EmptyString => []
  | String c r =>
      let n := ord c in
      if (n <? 128)%Z then n :: encode_utf8 r
      else Z.lor 192 (Z.shiftr n 6) :: Z.lor 128 (Z.land n 63) :: encode_utf8 r
  end.

End Py.


(* ===================================================================== *)
(** * hashlib.sha256 *)
(* ===================================================================== *)

(** SHA-256 (FIPS 180-4) on a list of octets, with 32-bit words carried in
    [Z] and reduced after every addition. *)
Module Sha256.

Local Open Scope Z_scope.

Definition wrap (x : Z) : Z := x mod 4294967296.
Definition add32 (x y : Z) : Z := wrap (x + y).
Definition rotr (n x : Z) : Z :=
  Z.lor (Z.shiftr x n) (wrap (Z.shiftl x (32 - n))).
Definition not32 (x : Z) : Z := 4294967295 - x.

Definition ch (x y z : Z) : Z := Z.lxor (Z.land x y) (Z.land (not32 x) z).
Definition maj (x y z : Z) : Z :=
  Z.lxor (Z.lxor (Z.land x y) (Z.land x z)) (Z.land y z).
Definition big_sigma0 (x : Z) : Z := Z.lxor (Z.lxor (rotr 2 x) (rotr 13 x)) (rotr 22 x).
Definition big_sigma1 (x : Z) : Z := Z.lxor (Z.lxor (rotr 6 x) (rotr 11 x)) (rotr 25 x).
Definition small_sigma0 (x : Z) : Z := Z.lxor (Z.lxor (rotr 7 x) (rotr 18 x)) (Z.shiftr x 3).
Definition small_sigma1 (x : Z) : Z := Z.lxor (Z.lxor (rotr 17 x) (rotr 19 x)) (Z.shiftr x 10).

(** The constants of the standard: the first 32 bits of the fractional
    parts of the square roots of the first eight primes, and of the cube
    roots of the first sixty-four. *)
Definition is_prime (p : Z) : bool :=
  forallb (fun d => negb (p mod d =? 0)) (seqZ 2 (p - 2)).

Definition primes : list Z := List.filter is_prime (seqZ 2 310).

Fixpoint cube_root_bits (bits : nat) (n r : Z) : Z :=
  match bits with
  | O => r
  | S k =>
      let c := r + 2 ^ Z.of_nat k in
      if c * c * c <=? n then cube_root_bits k n c else cube_root_bits k n r
  end.

Definition frac_sqrt (p : Z) : Z := wrap (Z.sqrt (p * 2 ^ 64)).
Definition frac_cbrt (p : Z) : Z := wrap (cube_root_bits 40 (p * 2 ^ 96) 0).

Definition initial_hash : list Z :=
  Eval vm_compute in map frac_sqrt (firstn 8 primes).

Definition round_constants : list Z :=
  Eval vm_compute in map frac_cbrt primes.

(** Padding: one 0x80 octet, zero octets up to 56 modulo 64, then the bit
    length as a 64-bit big-endian number. *)
Definition be_octets (width : nat) (x : Z) : list Z :=
  map (fun i => Z.land (Z.shiftr x (8 * Z.of_nat i)) 255) (rev (seq 0 width)).

Definition pad (msg : list Z) : list Z :=
  let len := Z.of_nat (length msg) in
  let zeros := Z.to_nat ((55 - len) mod 64) in
  msg ++ [128] ++ repeat 0 zeros ++ be_octets 8 (8 * len).

Fixpoint be_words (fuel : nat) (octets : list Z) : list Z :=
  match fuel, octets with
  | S k, a :: b :: c :: d :: r =>
      (Z.shiftl a 24 + Z.shiftl b 16 + Z.shiftl c 8 + d) :: be_words k r
  | _, _ => []
  end.

(** The message schedule, newest word first. *)
Fixpoint extend_schedule (n : nat) (w : list Z) : list Z :=
  match n with
  | O => w
  | S k =>
      let x := add32 (add32 (small_sigma1 (nth 1 w 0)) (nth 6 w 0))
                     (add32 (small_sigma0 (nth 14 w 0)) (nth 15 w 0)) in
      extend_schedule k (x :: w)
  end.

Definition schedule (block : list Z) : list Z :=
  rev (extend_schedule 48 (rev block)).

Definition step (st : list Z) (kw : Z * Z) : list Z :=
  match st with
  | [a; b; c; d; e; f; g; h] =>
      let t1 := add32 (add32 (add32 h (big_sigma1 e)) (add32 (ch e f g) (fst kw))) (snd kw) in
      let t2 := add32 (big_sigma0 a) (maj a b c) in
      [add32 t1 t2; a; b; c; add32 d t1; e; f; g]
  | _ => st
  end.

Definition compress (h : list Z) (block : list Z) : list Z :=
  let out := fold_left step (combine round_constants (schedule block)) h in
  map (fun p => add32 (fst p) (snd p)) (combine h out).

Fixpoint blocks (fuel : nat) (ws : list Z) : list (list Z) :=
  match fuel, ws with
  | S k, _ :: _ => firstn 16 ws :: blocks k (skipn 16 ws)
  | _, _ => []
  end.

Definition digest_words (msg : list Z) : list Z :=
  let octets := pad msg in
  let ws := be_words (length octets) octets in
  fold_left compress (blocks (length ws) ws) initial_hash.

Definition hex_digit (x : Z) : ascii :=
  if x <? 10 then Py.chr (48 + x) else Py.chr (87 + x).

Fixpoint hex_of_octets (l : list Z) : string :=
  match l with
  | [] => EmptyString
  | x :: r => String (hex_digit (Z.shiftr x 4)) (String (hex_digit (Z.land x 15)) (hex_of_octets r))
  end.

(** [hashlib.sha256(data).hexdigest()]: 64 lower-case hexadecimal digits. *)
Definition hexdigest (msg : list Z) : string :=
  hex_of_octets (flat_map (be_octets 4) (digest_words msg)).

End Sha256.

(* ===================================================================== *)
(** * Library functions outside the repository *)
(* ===================================================================== *)

(** Two functions of the Python distribution are used through their
    contract only.  [html_unescape] is [html.unescape]; its table of named
    references is data of the distribution, and all that is relied on is its
    first line, [if '&' not in s: return s].  [ipv6_literal] tells whether
    [ipaddress.ip_address] accepts a text as an IPv6 address, which
    [urlsplit] asks for a bracketed host only. *)
Class Library := {
  html_unescape : string -> string;
  html_unescape_plain :
    forall s, Py.contains "&" s = false -> html_unescape s = s;
  ipv6_literal : string -> bool
}.

(* ===================================================================== *)
(** * urllib.parse.urlparse *)
(* ===================================================================== *)

Module Url.

Record ParseResult := {
  scheme : string;
  netloc : string;
  path : string;
  params : string;
  query : string;
  fragment : string
}.

(** [_WHATWG_C0_CONTROL_OR_SPACE] and [_UNSAFE_URL_BYTES_TO_REMOVE]. *)
Definition c0_control_or_space (c : ascii) : bool := (Py.ord c <=? 32)%Z.
Definition unsafe_char (c : ascii) : bool := Py.mem_char c (String "009" (String "013" (String "010" ""))).

Definition scheme_char (c : ascii) : bool :=
  Py.is_ascii_alpha c || Py.is_digit c || Py.mem_char c "+-.".

Definition uses_params : list string :=
  [""; "ftp"; "hdl"; "prospero"; "http"; "imap"; "https"; "shttp"; "rtsp";
   "rtspu"; "sip"; "sips"; "mms"; "sftp"; "tel"].

(** The scheme is the text before the first colon when that text is not
    empty, begins with an ASCII letter and holds scheme characters only. *)
Definition split_scheme (url : string) : string * string :=
  match Py.find_char ":" url, url with
  | Some (S i), String c0 _ =>
      if Py.is_ascii_alpha c0 && Py.forallb_chars scheme_char (Py.take (S i) url)
      then (Py.lower (Py.take (S i) url), Py.drop (S (S i)) url)
      else ("", url)
  | _, _ => ("", url)
  end.

(** [_splitnetloc(url, 2)]: the text after the two slashes up to the first
    of '/', '?' and '#'. *)
Fixpoint span_until (stop : ascii -> bool) (s : string) : string * string :=
  match s with
  | EmptyString => (EmptyString, EmptyString)
  | String c r =>
      if stop c then (EmptyString, s)
      else let '(a, b) := span_until stop r in (String c a, b)
  end.

Definition _splitnetloc (url : string) : string * string :=
  span_until (fun c => Py.mem_char c "/?#") (Py.drop 2 url).

(** [re.match(r"\Av[a-fA-F0-9]+\..+\Z", hostname)]. *)
Definition is_hex (c : ascii) : bool :=
  Py.is_digit c || Py.in_range 97 102 c || Py.in_range 65 70 c.

Definition not_newline (c : ascii) : bool := negb (Ascii.eqb c "010").

Definition ipvfuture (hostname : string) : bool :=
  match hostname with
  | String "v" r =>
      let '(digits, rest) := span_until (fun c => negb (is_hex c)) r in
      negb (Py.is_empty digits) &&
      match rest with
      | String "." (String c tl) => Py.forallb_chars not_newline (String c tl)
      | _ => false
      end
  | _ => false
  end.

Section WithLibrary.
Context `{Library}.

Definition _check_bracketed_host (hostname : string) : bool :=
  if Py.startswith "v" hostname then ipvfuture hostname else ipv6_literal hostname.

(** [_check_bracketed_netloc]: [false] stands for the [ValueError]. *)
Definition _check_bracketed_netloc (netloc : string) : bool :=
  let hostname_and_port := snd (Py.rpartition "@" netloc) in
  let '(before_bracket, have_open_br, bracketed) := Py.partition "[" hostname_and_port in
  if have_open_br then
    if negb (Py.is_empty before_bracket) then false
    else
      let '(hostname, _, port) := Py.partition "]" bracketed in
      if negb (Py.is_empty port) && negb (Py.startswith ":" port) then false
      else _check_bracketed_host hostname
  else
    let '(hostname, _, _) := Py.partition ":" hostname_and_port in
    _check_bracketed_host hostname.

(** [urlsplit(url)]: [None] stands for the [ValueError] raised on an
    unbalanced or invalid bracketed host.  On code points below 256
    [_checknetloc] never raises: no such character has a compatibility
    decomposition holding one of '/', '?', '#', '@' and ':'. *)
Definition urlsplit (url : string) : option (string * string * string * string * string) :=
  let url := Py.lstrip_by c0_control_or_space url in
  let url := Py.filter_chars (fun c => negb (unsafe_char c)) url in
  let '(scheme, url) := split_scheme url in
  let after_netloc :=
    if Py.startswith "//" url then
      let '(netloc, rest) := _splitnetloc url in
      let has_open := Py.mem_char "[" netloc in
      let has_close := Py.mem_char "]" netloc in
      if (has_open && negb has_close) || (has_close && negb has_open) then None
      else if has_open && has_close && negb (_check_bracketed_netloc netloc) then None
      else Some (netloc, rest)
    else Some ("", url) in
  match after_netloc with
  | None => None
  | Some (netloc, url) =>
      let '(url, fragment) :=
        match Py.partition "#" url with
        | (a, true, b) => (a, b)
        | _ => (url, "")
        end in
      let '(url, query) :=
        match Py.partition "?" url with
        | (a, true, b) => (a, b)
        | _ => (url, "")
        end in
      Some (scheme, netloc, url, query, fragment)
  end.

(** [_splitparams]: the parameters start at the first ';' of the last
    path segment. *)
Definition _splitparams (url : string) : string * string :=
  match Py.rfind_char "/" url with
  | Some j =>
      match Py.find_char ";" (Py.drop j url) with
      | Some k => (Py.take (j + k) url, Py.drop (S (j + k)) url)
      | None => (url, "")
      end
  | None =>
      match Py.find_char ";" url with
      | Some i => (Py.take i url, Py.drop (S i) url)
      | None => (url, "")  (* not reached: urlparse checks for ';' first *)
      end
  end.

Definition urlparse (url : string) : option ParseResult :=
  match urlsplit url with
  | None => None
  | Some (scheme, netloc, url, query, fragment) =>
      let '(url, params) :=
        if bool_decide (scheme ∈ uses_params) && Py.mem_char ";" url
        then _splitparams url else (url, "") in
      Some {| scheme := scheme; netloc := netloc; path := url;
              params := params; query := query; fragment := fragment |}
  end.

End WithLibrary.

(** The [hostname] attribute: [None] when the host part is empty. *)
Definition _hostinfo (netloc : string) : string :=
  let hostinfo := snd (Py.rpartition "@" netloc) in
  let '(_, have_open_br, bracketed) := Py.partition "[" hostinfo in
  if have_open_br then fst (fst (Py.partition "]" bracketed))
  else fst (fst (Py.partition ":" hostinfo)).

Definition hostname (p : ParseResult) : option string :=
  let h := _hostinfo (netloc p) in
  if Py.is_empty h then None
  else
    let '(host, percent, zone) := Py.partition "%" h in
    Some (Py.lower host +:+ (if percent then "%" else "") +:+ zone).

End Url.

(* ===================================================================== *)
(** * pathlib and os.path on POSIX *)
(* ===================================================================== *)

Module PathLib.

(** The parts of a pure POSIX path apart from its root: the components
    between slashes that are neither empty nor a single dot. *)
Definition parts (p : string) : list string :=
  filter (fun x => x ≠ "" ∧ x ≠ ".") (Py.split_char "/" p).

(** [PurePath(p).name]. *)
Definition name (p : string) : string := List.last (parts p) "".

(** [PurePath.suffix] of a final component. *)
Definition suffix_of_name (n : string) : string :=
  match Py.rfind_char "." n with
  | Some i =>
      if (0 <? i) && (i <? String.length n - 1) then Py.drop i n else ""
  | None => ""
  end.

Definition suffix (p : string) : string := suffix_of_name (name p).

(** [PurePath.stem] of a final component. *)
Definition stem_of_name (n : string) : string :=
  match Py.rfind_char "." n with
  | Some i =>
      if (0 <? i) && (i <? String.length n - 1) then Py.take i n else n
  | None => n
  end.

(** [os.path.splitext]: the extension starts at the last dot of the last
    component, provided a character other than a dot comes before it. *)
Definition splitext (p : string) : string * string :=
  let start := match Py.rfind_char "/" p with Some i => S i | None => 0 end in
  match Py.rfind_char "." p with
  | Some d =>
      if (start <=? d) &&
         negb (Py.forallb_chars (Ascii.eqb ".") (Py.take (d - start) (Py.drop start p)))
      then (Py.take d p, Py.drop d p)
      else (p, "")
  | None => (p, "")
  end.

End PathLib.

(* ===================================================================== *)
(** * tools/mirror_webflow.py: constants and pure functions *)
(* ===================================================================== *)

Definition SKIP_HOSTS : list string :=
  ["www.w3.org"; "w3.org"; "www.linkedin.com"].

Definition ASSET_EXTENSIONS : list string :=
  [".css"; ".js"; ".png"; ".jpg"; ".jpeg"; ".gif"; ".svg"; ".webp"; ".ico";
   ".woff"; ".woff2"; ".ttf"; ".otf"; ".eot"; ".mp4"; ".webm"; ".pdf"; ".json"].

Definition SITE_HOST : string := "videa-saversion.webflow.io".

(** ** URL_RE: [https?://] and then one or more characters other than
    the quotation mark, the apostrophe, the angle brackets, white space and
    the closing parenthesis *)

(** The characters the negated class of URL_RE accepts. *)
Definition url_char (c : ascii) : bool :=
  negb (Ascii.eqb c "034" || Ascii.eqb c "'" || Ascii.eqb c "<" || Ascii.eqb c ">"
        || Py.is_space c || Ascii.eqb c ")").

(** The longest prefix made of characters accepted by [p]. *)
Fixpoint take_while (p : ascii -> bool) (s : string) : string :=
  match s with
  | String c r => if p c then String c (take_while p r) else EmptyString
  | EmptyString => EmptyString
  end.

(** A match of URL_RE at the very start of [s]. *)
Definition URL_RE_match (s : string) : option string :=
  let scheme_len :=
    if Py.startswith "https://" s then Some 8
    else if Py.startswith "http://" s then Some 7 else None in
  match scheme_len with
  | Some n =>
      let body := take_while url_char (Py.drop n s) in
      if Py.is_empty body then None else Some (Py.take n s +:+ body)
  | None => None
  end.

(** [URL_RE.findall]: matches from left to right, each search resuming
    where the previous match ended. *)
Fixpoint URL_RE_findall_from (skip : nat) (s : string) : list string :=
  match s with
  | EmptyString => []
  | String _ r =>
      match skip with
      | S k => URL_RE_findall_from k r
      | O =>
          match URL_RE_match s with
          | Some m => m :: URL_RE_findall_from (String.length m - 1) r
          | None => URL_RE_findall_from 0 r
          end
      end
  end.

Definition URL_RE_findall (s : string) : list string := URL_RE_findall_from 0 s.

(** ** CSS_URL_RE: [url(], an optional quote (group q), a lazy run of
    characters other than the line feed (group u), group q again, [)] *)

(** The shortest text without a line feed that is followed by [stop]: the
    text, and the length of text and [stop] together. *)
Fixpoint lazy_until (stop : string) (s : string) : option (string * nat) :=
  if Py.startswith stop s then Some ("", String.length stop)
  else match s with
       | EmptyString => None
       | String c r =>
           if Ascii.eqb c "010" then None
           else match lazy_until stop r with
                | Some (u, n) => Some (String c u, S n)
                | None => None
                end
       end.

(** A match of CSS_URL_RE at the start of [s]: group [u] and the length of
    the match.  The quote is tried first; without its closing partner the
    engine falls back to the empty quote. *)
Definition CSS_URL_RE_match (s : string) : option (string * nat) :=
  if Py.startswith "url(" s then
    let r := Py.drop 4 s in
    let unquoted :=
      match lazy_until ")" r with
      | Some (u, n) => Some (u, 4 + n)
      | None => None
      end in
    match r with
    | String q r' =>
        if Ascii.eqb q "'" || Ascii.eqb q "034" then
          match lazy_until (String q ")") r' with
          | Some (u, n) => Some (u, 5 + n)
          | None => unquoted
          end
        else unquoted
    | EmptyString => unquoted
    end
  else None.

(** Group [u] of every match of [CSS_URL_RE.finditer]. *)
Fixpoint CSS_URL_RE_finditer_from (skip : nat) (s : string) : list string :=
  match s with
  | EmptyString => []
  | String _ r =>
      match skip with
      | S k => CSS_URL_RE_finditer_from k r
      | O =>
          match CSS_URL_RE_match s with
          | Some (u, n) => u :: CSS_URL_RE_finditer_from (n - 1) r
          | None => CSS_URL_RE_finditer_from 0 r
          end
      end
  end.

Definition CSS_URL_RE_finditer (s : string) : list string :=
  CSS_URL_RE_finditer_from 0 s.

(** ** BROKEN_LOCAL_ASSET_RE, compiled with re.IGNORECASE: the scheme and
    the site host with a slash; optionally a greedy run of characters other
    than white space and the two quotes, ended by a slash; a quote, which is
    the entity, the quotation mark or percent-22; group 1, which is
    [assets/] and one or more characters other than the quotation mark, the
    ampersand, the percent sign, the angle brackets, white space and the
    closing parenthesis; a quote again *)

(** [lit] is in lower case; letters of [s] match in either case. *)
Fixpoint startswith_ci (lit s : string) : bool :=
  match lit, s with
  | EmptyString, _ => true
  | String a lit', String b s' => Ascii.eqb a (Py.lower_char b) && startswith_ci lit' s'
  | String _ _, EmptyString => false
  end.

(** The quote alternation: what follows the quote. *)
Definition broken_quote (s : string) : option string :=
  if startswith_ci "&quot;" s then Some (Py.drop 6 s)
  else if Py.startswith Py.dquote s then Some (Py.drop 1 s)
  else if Py.startswith "%22" s then Some (Py.drop 3 s)
  else None.

(** The class of group 1. *)
Definition asset_ref_char (c : ascii) : bool :=
  negb (Ascii.eqb c "034" || Ascii.eqb c "&" || Ascii.eqb c "%" || Ascii.eqb c "<"
        || Ascii.eqb c ">" || Py.is_space c || Ascii.eqb c ")").

(** The class of the optional directory prefix. *)
Definition dir_char (c : ascii) : bool :=
  negb (Py.is_space c || Ascii.eqb c "034" || Ascii.eqb c "'").

(** Quote, group 1, quote: group 1 and what follows the match.  No shorter
    run can be followed by a quote, since the three quotes begin with
    characters the class rejects. *)
Definition broken_tail (s : string) : option (string * string) :=
  match broken_quote s with
  | Some s1 =>
      if startswith_ci "assets/" s1 then
        let run := take_while asset_ref_char (Py.drop 7 s1) in
        if Py.is_empty run then None
        else match broken_quote (Py.drop (7 + String.length run) s1) with
             | Some s3 => Some (Py.take 7 s1 +:+ run, s3)
             | None => None
             end
      else None
  | None => None
  end.

(** The optional directory prefix followed by the tail: the greedy
    star gives way one character at a time, so the longest directory
    prefix after which the tail matches wins. *)
Fixpoint broken_dirs (s : string) : option (string * string) :=
  match s with
  | String c r =>
      if dir_char c then
        match broken_dirs r with
        | Some m => Some m
        | None => if Ascii.eqb c "/" then broken_tail r else None
        end
      else None
  | EmptyString => None
  end.

Definition BROKEN_LOCAL_ASSET_RE_match (s : string) : option (string * string) :=
  let after_host :=
    if startswith_ci "https://videa-saversion.webflow.io/" s then Some (Py.drop 35 s)
    else if startswith_ci "http://videa-saversion.webflow.io/" s then Some (Py.drop 34 s)
    else None in
  match after_host with
  | Some s1 =>
      match broken_dirs s1 with
      | Some m => Some m
      | None => broken_tail s1
      end
  | None => None
  end.

(** [BROKEN_LOCAL_ASSET_RE.sub(r"\1", s)]. *)
Fixpoint BROKEN_LOCAL_ASSET_RE_sub_from (skip : nat) (s : string) : string :=
  match s with
  | EmptyString => EmptyString
  | String c r =>
      match skip with
      | S k => BROKEN_LOCAL_ASSET_RE_sub_from k r
      | O =>
          match BROKEN_LOCAL_ASSET_RE_match s with
          | Some (g1, rest) =>
              g1 +:+ BROKEN_LOCAL_ASSET_RE_sub_from (String.length r - String.length rest) r
          | None => String c (BROKEN_LOCAL_ASSET_RE_sub_from 0 r)
          end
      end
  end.

Definition BROKEN_LOCAL_ASSET_RE_sub (s : string) : string :=
  BROKEN_LOCAL_ASSET_RE_sub_from 0 s.

(** ** Paths, files and the world a run acts on *)

(** A resolved path is the list of its parts below the file-system root. *)
Abbreviation fspath := (list string).

(** [base / name] for a relative [name]. *)
Definition joinpath (base : fspath) (name : string) : fspath :=
  if Py.startswith "/" name then PathLib.parts name else base ++ PathLib.parts name.

(** [p.suffix] of a resolved path. *)
Definition path_suffix (p : fspath) : string :=
  PathLib.suffix_of_name (List.last p "").

(** Order of [PurePath] values: the parts compared from the left, each as a
    string. *)
Fixpoint path_leb (p q : fspath) : bool :=
  match p, q with
  | [], _ => true
  | _ :: _, [] => false
  | a :: p', b :: q' =>
      match String.compare a b with
      | Lt => true
      | Gt => false
      | Eq => path_leb p' q'
      end
  end.

Definition path_le (p q : fspath) : Prop := path_leb p q = true.

#[global] Instance path_le_dec : RelDecision path_le.
Proof. intros p q. unfold path_le. apply _. Defined.

(** [q] lies strictly below the directory [p]. *)
Fixpoint strictly_below (p q : fspath) : bool :=
  match p, q with
  | [], _ :: _ => true
  | a :: p', b :: q' => String.eqb a b && strictly_below p' q'
  | _, _ => false
  end.

(** [q.relative_to(p)]: [None] stands for the [ValueError]. *)
Fixpoint relative_to (p q : fspath) : option fspath :=
  match p, q with
  | [], _ => Some q
  | a :: p', b :: q' => if String.eqb a b then relative_to p' q' else None
  | _ :: _, [] => None
  end.

(** What a path names. *)
Inductive entry := Missing | RegularFile | Directory.

(** What a request meets: a response body, an [HTTPError] with its status
    code, or any other exception (no route, time-out, truncated read). *)
Inductive Response :=
  | Body (data : string)
  | HTTPError (code : Z)
  | OtherError.

(** The surroundings of a run, which the scripts only observe. *)
Record Env := {
  resolve : string -> fspath;         (* Path(arg).resolve() *)
  stat : fspath -> entry;             (* what the site root names *)
  urlopen : nat -> string -> Response (* the answer to the n-th request *)
}.

(** What a run changes: the regular files with their text, the requests
    sent and the pauses taken (latest first). *)
Record World := {
  files : gmap fspath string;
  requests : list string;
  sleeps : list Z
}.

Definition set_files (f : gmap fspath string) (w : World) : World :=
  {| files := f; requests := requests w; sleeps := sleeps w |}.

Definition write_text (p : fspath) (text : string) (w : World) : World :=
  set_files (<[p := text]> (files w)) w.

Definition log_request (url : string) (w : World) : World :=
  {| files := files w; requests := url :: requests w; sleeps := sleeps w |}.

Definition log_sleep (t : Z) (w : World) : World :=
  {| files := files w; requests := requests w; sleeps := t :: sleeps w |}.

(** [dest.exists() and dest.stat().st_size > 0]. *)
Definition exists_nonempty (p : fspath) (w : World) : bool :=
  match files w !! p with
  | Some text => negb (Py.is_empty text)
  | None => false
  end.

(** A Python [dict] keeps its keys in the order of their first insertion. *)
Fixpoint dict_set (k v : string) (d : list (string * string)) : list (string * string) :=
  match d with
  | [] => [(k, v)]
  | (k', v') :: r => if String.eqb k k' then (k, v) :: r else (k', v') :: dict_set k v r
  end.

(** [sorted(set)] of strings. *)
Definition sorted_set (l : list string) : list string :=
  merge_sort String.le (remove_dups l).

(** ** The functions of the script *)

Definition _relative_assets_prefix (site_root html_path : fspath) : option string :=
  match relative_to site_root html_path with
  | Some rel =>
      let depth := Z.max 0 (Z.of_nat (length rel) - 1) in
      Some (Py.repeat_str "../" (Z.to_nat depth) +:+ "assets/")
  | None => None
  end.

(** The thirteen replacements of [_rewrite_nested_local_asset_refs]. *)
Definition nested_fixup (prefix text : string) : string :=
  let q := Py.dquote in
  let updated := Py.replace ("src=" +:+ q +:+ "assets/") ("src=" +:+ q +:+ prefix) text in
  let updated := Py.replace "src='assets/" ("src='" +:+ prefix) updated in
  let updated := Py.replace ("href=" +:+ q +:+ "assets/") ("href=" +:+ q +:+ prefix) updated in
  let updated := Py.replace "href='assets/" ("href='" +:+ prefix) updated in
  let updated := Py.replace ("srcset=" +:+ q +:+ "assets/") ("srcset=" +:+ q +:+ prefix) updated in
  let updated := Py.replace "srcset='assets/" ("srcset='" +:+ prefix) updated in
  let updated := Py.replace "url(assets/" ("url(" +:+ prefix) updated in
  let updated := Py.replace ("url(" +:+ q +:+ "assets/") ("url(" +:+ q +:+ prefix) updated in
  let updated := Py.replace "url('assets/" ("url('" +:+ prefix) updated in
  let updated := Py.replace "src=&quot;assets/" ("src=&quot;" +:+ prefix) updated in
  let updated := Py.replace "href=&quot;assets/" ("href=&quot;" +:+ prefix) updated in
  let updated := Py.replace "srcset=&quot;assets/" ("srcset=&quot;" +:+ prefix) updated in
  Py.replace "url(&quot;assets/" ("url(&quot;" +:+ prefix) updated.

(** [None] stands for an exception that leaves the function. *)
Definition _rewrite_nested_local_asset_refs (site_root html_path : fspath) (w : World)
  : option (bool * World) :=
  prefix ← _relative_assets_prefix site_root html_path;
  if String.eqb prefix "assets/" then Some (false, w)
  else
    original ← files w !! html_path;
    let updated := nested_fixup prefix original in
    if negb (String.eqb updated original)
    then Some (true, write_text html_path updated w)
    else Some (false, w).

(** [rglob] meets every regular file below [root]; those with one of the
    suffixes are kept and sorted. *)
Definition _iter_files (root : fspath) (suffixes : list string) (w : World) : list fspath :=
  merge_sort path_le
    (filter (fun p => strictly_below root p = true ∧ Py.lower (path_suffix p) ∈ suffixes)
            (map fst (map_to_list (files w)))).

Section WithLibrary.
Context `{Library}.

Definition _extract_urls_from_text (text : string) : list string :=
  let decoded := html_unescape text in
  URL_RE_findall decoded.

Definition _is_asset_url (url : string) : bool :=
  match Url.urlparse url with
  | None => false
  | Some parsed =>
      if negb (bool_decide (Url.scheme parsed ∈ ["http"; "https"])) then false
      else
        let host := Py.lower (default "" (Url.hostname parsed)) in
        if Py.is_empty host || bool_decide (host ∈ SKIP_HOSTS) then false
        else if Py.endswith SITE_HOST host then false
        else
          let path := Url.path parsed in
          let ext := Py.lower (PathLib.suffix path) in
          if bool_decide (ext ∈ ASSET_EXTENSIONS) then true
          else false
  end.

(** [re.sub(r"[^A-Za-z0-9._-]", "_", name)]. *)
Definition safe_char (c : ascii) : bool :=
  Py.is_upper_az c || Py.is_lower_az c || Py.is_digit c || Py.mem_char c "._-".

Definition sanitize (name : string) : string :=
  Py.map_chars (fun c => if safe_char c then c else "_"%char) name.

Definition sha256_hex (s : string) : string := Sha256.hexdigest (Py.encode_utf8 s).

(** [None] stands for the [ValueError] of [urlparse]. *)
Definition _safe_filename_from_url (url : string) : option string :=
  parsed ← Url.urlparse url;
  let name := PathLib.name (Url.path parsed) in
  if Py.is_empty name then Some (Py.take 16 (sha256_hex url))
  else
    let name := sanitize name in
    let name :=
      if negb (Py.is_empty (Url.query parsed)) then
        let qhash := Py.take 8 (sha256_hex (Url.query parsed)) in
        let '(stem, ext) := PathLib.splitext name in
        if negb (Py.is_empty ext) then stem +:+ "." +:+ qhash +:+ ext
        else stem +:+ "." +:+ qhash
      else name in
    let name :=
      if 180 <? String.length name then
        let '(base, ext) := PathLib.splitext name in
        Py.take 150 base +:+ ext
      else name in
    Some name.

End WithLibrary.

(** ** Download with retry *)

Definition PERMANENT_CODES : list Z := [400; 401; 403; 404]%Z.

(** The loop [for attempt in range(retries + 1)] of [_download]; a request
    is logged when it is sent, a pause when it is taken. *)
Fixpoint download_attempts (env : Env) (url : string) (dest : fspath) (retries : Z)
    (attempts : list Z) (w : World) : bool * World :=
  match attempts with
  | [] => (false, w)
  | attempt :: later =>
      let answer := urlopen env (length (requests w)) url in
      let w := log_request url w in
      match answer with
      | Body data => (true, write_text dest data w)
      | HTTPError code =>
          if bool_decide (code ∈ PERMANENT_CODES) then (false, w)
          else if (attempt >=? retries)%Z then (false, w)
          else download_attempts env url dest retries later (log_sleep (1 + attempt) w)
      | OtherError =>
          if (attempt >=? retries)%Z then (false, w)
          else download_attempts env url dest retries later (log_sleep (1 + attempt) w)
      end
  end.

Definition _download (env : Env) (url : string) (dest : fspath) (retries : Z) (w : World)
  : bool * World :=
  download_attempts env url dest retries (seqZ 0 (retries + 1)) w.

Definition DEFAULT_RETRIES : Z := 2.

(** ** Rewriting one document *)

(** The body of [_rewrite_in_file] on the text. *)
Fixpoint apply_replacements (replacements : list (string * string)) (text : string) : string :=
  match replacements with
  | [] => text
  | (src, dst) :: r =>
      let updated := Py.replace src dst text in
      let updated := Py.replace (Py.html_escape src) dst updated in
      apply_replacements r updated
  end.

Definition rewrite_text (replacements : list (string * string)) (text : string) : string :=
  BROKEN_LOCAL_ASSET_RE_sub (apply_replacements replacements text).

Definition _rewrite_in_file (path : fspath) (replacements : list (string * string)) (w : World)
  : option (bool * World) :=
  original ← files w !! path;
  let updated := rewrite_text replacements original in
  if negb (String.eqb updated original)
  then Some (true, write_text path updated w)
  else Some (false, w).

(** The three replacements applied to a stylesheet kept in [assets/]. *)
Definition strip_assets_prefix (txt : string) : string :=
  let q := Py.dquote in
  Py.replace "url(assets/" "url("
    (Py.replace "url('assets/" "url('"
      (Py.replace ("url(" +:+ q +:+ "assets/") ("url(" +:+ q) txt)).

(** The references a stylesheet yields in step 4. *)
Definition css_reference (u : string) : list string :=
  let raw := Py.strip u in
  if Py.startswith "data:" raw then []
  else
    let raw := if Py.startswith "//" raw then "https:" +:+ raw else raw in
    if Py.startswith "http://" raw || Py.startswith "https://" raw then [raw] else [].

Definition css_references (txt : string) : list string :=
  flat_map css_reference (CSS_URL_RE_finditer txt).

(** ** main *)

(** The numbers the run prints. *)
Record Report := {
  found : nat;
  downloaded : nat;
  failed : nat;
  rewritten_html : nat;
  discovered : nat;
  rewritten_css : nat;
  rewritten_js : nat
}.

Section WithLibrary.
Context `{Library}.

Variable env : Env.

(** Step 1: the URLs of all pages. *)
Fixpoint gather_urls (paths : list fspath) (w : World) : option (list string) :=
  match paths with
  | [] => Some []
  | f :: r =>
      text ← files w !! f;
      rest ← gather_urls r w;
      Some (_extract_urls_from_text text ++ rest)
  end.

(** Step 2: the state is the dictionary [filename_by_url], the two
    counters and the world. *)
Fixpoint download_assets (assets_dir : fspath) (urls : list string)
    (st : list (string * string) * nat * nat * World)
  : option (list (string * string) * nat * nat * World) :=
  match urls with
  | [] => Some st
  | url :: r =>
      let '(filename_by_url, ndown, nfail, w) := st in
      filename ← _safe_filename_from_url url;
      let dest := joinpath assets_dir filename in
      if exists_nonempty dest w
      then download_assets assets_dir r (dict_set url filename filename_by_url, ndown, nfail, w)
      else
        let '(ok, w) := _download env url dest DEFAULT_RETRIES w in
        if ok
        then download_assets assets_dir r (dict_set url filename filename_by_url, S ndown, nfail, w)
        else download_assets assets_dir r (filename_by_url, ndown, S nfail, w)
  end.

(** Step 3: every page is rewritten, then its nested references fixed. *)
Fixpoint rewrite_html_files (site_root : fspath) (replacements : list (string * string))
    (paths : list fspath) (st : nat * World) : option (nat * World) :=
  match paths with
  | [] => Some st
  | f :: r =>
      let '(count, w) := st in
      '(changed, w) ← _rewrite_in_file f replacements w;
      '(nested, w) ← _rewrite_nested_local_asset_refs site_root f w;
      let changed := nested || changed in
      rewrite_html_files site_root replacements r (if (changed : bool) then S count else count, w)
  end.

(** Step 4: references found in stylesheets and scripts. *)
Fixpoint discover_css (paths : list fspath) (w : World) : option (list string) :=
  match paths with
  | [] => Some []
  | css :: r =>
      txt ← files w !! css;
      rest ← discover_css r w;
      Some (css_references txt ++ rest)
  end.

Fixpoint download_discovered (assets_dir : fspath) (urls : list string)
    (st : list (string * string) * World) : option (list (string * string) * World) :=
  match urls with
  | [] => Some st
  | url :: r =>
      let '(filename_by_url, w) := st in
      filename ← _safe_filename_from_url url;
      let dest := joinpath assets_dir filename in
      if negb (exists_nonempty dest w) then
        let '(ok, w) := _download env url dest DEFAULT_RETRIES w in
        if negb ok then download_discovered assets_dir r (filename_by_url, w)
        else download_discovered assets_dir r (dict_set url filename filename_by_url, w)
      else download_discovered assets_dir r (dict_set url filename filename_by_url, w)
  end.

Definition rewrite_css_file (css : fspath) (replacements : list (string * string)) (w : World)
  : option (bool * World) :=
  '(changed, w) ← _rewrite_in_file css replacements w;
  txt ← files w !! css;
  let fixed := strip_assets_prefix txt in
  if negb (String.eqb fixed txt)
  then Some (true, write_text css fixed w)
  else Some (changed, w).

Fixpoint rewrite_css_files (replacements : list (string * string))
    (paths : list fspath) (st : nat * World) : option (nat * World) :=
  match paths with
  | [] => Some st
  | css :: r =>
      let '(count, w) := st in
      '(changed, w) ← rewrite_css_file css replacements w;
      rewrite_css_files replacements r (if (changed : bool) then S count else count, w)
  end.

Fixpoint rewrite_js_files (replacements : list (string * string))
    (paths : list fspath) (st : nat * World) : option (nat * World) :=
  match paths with
  | [] => Some st
  | js :: r =>
      let '(count, w) := st in
      '(changed, w) ← _rewrite_in_file js replacements w;
      rewrite_js_files replacements r (if (changed : bool) then S count else count, w)
  end.

Definition html_targets (filename_by_url : list (string * string)) : list (string * string) :=
  map (fun p => (fst p, "assets/" +:+ snd p)) filename_by_url.

(** The steps of [main] after the three checks of its arguments. *)
Definition localize (site_root : fspath) (html_files : list fspath) (w : World)
  : option (Report * World) :=
  let assets_dir := site_root ++ ["assets"] in
  urls ← gather_urls html_files w;
  let asset_urls := sorted_set (filter (fun u => _is_asset_url u = true) urls) in
  '(filename_by_url, ndown, nfail, w) ← download_assets assets_dir asset_urls ([], 0, 0, w);
  let replacements_html := html_targets filename_by_url in
  '(nhtml, w) ← rewrite_html_files site_root replacements_html html_files (0, w);
  let css_files := _iter_files assets_dir [".css"] w in
  let js_files := _iter_files assets_dir [".js"] w in
  from_css ← discover_css css_files w;
  from_js ← gather_urls js_files w;
  let discovered_asset_urls :=
    sorted_set (filter (fun u => _is_asset_url u = true) (from_css ++ from_js)) in
  '(filename_by_url, w) ← download_discovered assets_dir discovered_asset_urls (filename_by_url, w);
  let replacements_assets := filename_by_url in
  '(ncss, w) ← rewrite_css_files replacements_assets css_files (0, w);
  '(njs, w) ← rewrite_js_files replacements_assets js_files (0, w);
  Some ({| found := length asset_urls; downloaded := ndown; failed := nfail;
           rewritten_html := nhtml; discovered := length discovered_asset_urls;
           rewritten_css := ncss; rewritten_js := njs |}, w).

(** [main]: [argv] is [sys.argv]; the result is the exit code, the
    numbers printed when the run went through, and the world left behind.
    [None] stands for an exception that leaves [main]. *)
Definition main (argv : list string) (w : World) : option (Z * option Report * World) :=
  match argv with
  | [_; arg] =>
      let site_root := resolve env arg in
      match stat env site_root with
      | Directory =>
          let html_files := _iter_files site_root [".html"] w in
          match html_files with
          | [] => Some (2%Z, None, w)
          | _ :: _ =>
              '(report, w) ← localize site_root html_files w;
              Some (0%Z, Some report, w)
          end
      | _ => Some (2%Z, None, w)
      end
  | _ => Some (2%Z, None, w)
  end.

End WithLibrary.

(* ===================================================================== *)
(** * tools/remove_branding.py *)
(* ===================================================================== *)

Module Branding.

(** A [dict] keyed by paths, in insertion order. *)
Fixpoint plan_set (k v : fspath) (d : list (fspath * fspath)) : list (fspath * fspath) :=
  match d with
  | [] => [(k, v)]
  | (k', v') :: r =>
      if bool_decide (k = k') then (k, v) :: r else (k', v') :: plan_set k v r
  end.

Definition file_exists (p : fspath) (w : World) : bool :=
  bool_decide (is_Some (files w !! p)).

(** [p.with_name(n)]. *)
Definition with_name (p : fspath) (n : string) : fspath := removelast p ++ [n].

(** [re.sub(r"-{2,}", "-", s)]: a run of dashes becomes one dash. *)
Fixpoint squeeze_dashes (s : string) : string :=
  match s with
  | String "-" ((String "-" _) as r) => squeeze_dashes r
  | String c r => String c (squeeze_dashes r)
  | EmptyString => EmptyString
  end.

Definition IMAGE_NAMES : list string :=
  ["63b86b66011d4fd93a44a1a7_videa_insights.jpg";
   "63b86b66011d4fd27044a1c7_videa_detect.jpg";
   "63b86b66011d4fd27044a1c7_videa_detect-p-1080.jpeg"].

Definition image_new_name (old_name : string) : string :=
  Py.replace "videa_" "" (Py.replace "_videa_" "_" old_name).

Definition news_new_name (name : string) : string :=
  let new_name := Py.replace "-with-videahealth-to-" "-to-" name in
  let new_name := Py.replace "-videahealth-" "-" new_name in
  let new_name := Py.replace "videahealth-" "" new_name in
  let new_name := Py.replace "-videahealth" "" new_name in
  squeeze_dashes new_name.

(** The pattern [*videahealth*.html] on a file name. *)
Definition matches_news_pattern (name : string) : bool :=
  Py.endswith ".html" name &&
  Py.contains "videahealth" (Py.take (String.length name - 5) name).

(** The entries of [news.glob(...)]: the regular files directly inside
    [news] whose name matches. *)
Definition news_glob (news : fspath) (w : World) : list fspath :=
  filter (fun p => removelast p = news ∧ p ≠ [] ∧
                   matches_news_pattern (List.last p "") = true)
         (map fst (map_to_list (files w))).

Definition add_if_exists (w : World) (old new : fspath) (m : list (fspath * fspath))
  : list (fspath * fspath) :=
  if file_exists old w then plan_set old new m else m.

Definition build_rename_map (site_root : fspath) (w : World) : list (fspath * fspath) :=
  let assets := site_root ++ ["assets"] in
  let news := site_root ++ ["news"] in
  let rename_map := [] in
  let rename_map :=
    add_if_exists w (assets ++ ["videa-saversion.9b1352011.css"])
                    (assets ++ ["site.9b1352011.css"]) rename_map in
  let rename_map :=
    add_if_exists w (assets ++ ["videa-saversion.d9a4b8013.js"])
                    (assets ++ ["site.d9a4b8013.js"]) rename_map in
  let rename_map :=
    fold_left (fun m old_name =>
                 add_if_exists w (assets ++ [old_name]) (assets ++ [image_new_name old_name]) m)
              IMAGE_NAMES rename_map in
  fold_left (fun m old_path =>
               plan_set old_path (with_name old_path (news_new_name (List.last old_path ""))) m)
            (news_glob news w) rename_map.

(** Why a run stops with [SystemExit]. *)
Inductive Abort :=
  | SiteRootNotFound
  | NoopRename (src : fspath)
  | SameDestination (dst : fspath)
  | DestinationExists (dst : fspath).

(** The loop of [validate_rename_map] over the items still to be seen;
    [targets] is the set built so far. *)
Fixpoint validate_items (w : World) (rename_map : list (fspath * fspath))
    (targets : gset fspath) (items : list (fspath * fspath)) : option Abort :=
  match items with
  | [] => None
  | (src, dst) :: r =>
      if bool_decide (src = dst) then Some (NoopRename src)
      else if bool_decide (dst ∈ targets) then Some (SameDestination dst)
      else
        let targets := {[dst]} ∪ targets in
        if file_exists dst w && negb (bool_decide (dst ∈ map fst rename_map))
        then Some (DestinationExists dst)
        else validate_items w rename_map targets r
  end.

Definition validate_rename_map (w : World) (rename_map : list (fspath * fspath)) : option Abort :=
  validate_items w rename_map ∅ rename_map.

(** A [dict] keyed by strings built by a comprehension. *)
Definition dict_of (items : list (string * string)) : list (string * string) :=
  fold_left (fun d kv => dict_set (fst kv) (snd kv) d) items [].

Definition replace_all (m : list (string * string)) (text : string) : string :=
  fold_left (fun t kv => Py.replace (fst kv) (snd kv) t) m text.

(** [str(p)] of an absolute path has one slash before each part. *)
Definition path_str_len (p : fspath) : nat :=
  fold_right (fun part n => S (String.length part + n)) 0 p.

(** [sorted(items, key=..., reverse=True)]: longest source first, equal
    keys in their original order. *)
Fixpoint insert_by_len (x : fspath * fspath) (l : list (fspath * fspath)) : list (fspath * fspath) :=
  match l with
  | [] => [x]
  | y :: r =>
      if path_str_len (fst y) <? path_str_len (fst x) then x :: l
      else y :: insert_by_len x r
  end.

Definition longest_first (l : list (fspath * fspath)) : list (fspath * fspath) :=
  fold_left (fun acc x => insert_by_len x acc) l [].

(** [os.rename(src, dst)] when [src] exists. *)
Definition rename_file (src dst : fspath) (w : World) : World :=
  match files w !! src with
  | Some text => set_files (<[dst := text]> (delete src (files w))) w
  | None => w
  end.

Section WithRewrites.

(** The text substitutions of [apply_rewrites] act on the text of one page
    and on nothing else; the rename plan and its validation do not depend
    on them, so they enter as a function from text to text. *)
Variable apply_rewrites : string -> string.

Definition update_page (basename_map stem_map : list (string * string)) (original : string)
  : string :=
  apply_rewrites (replace_all stem_map (replace_all basename_map original)).

(** One turn of the loop over the pages: the counter and the world. *)
Definition process_page (apply : bool) (basename_map stem_map : list (string * string))
    (st : nat * World) (page : fspath * string) : nat * World :=
  let '(changed_files, w) := st in
  let '(path, original) := page in
  let updated := update_page basename_map stem_map original in
  if negb (String.eqb updated original) then
    (S changed_files, if apply then write_text path updated w else w)
  else (changed_files, w).

Definition iter_html_files (site_root : fspath) (w : World) : list (fspath * string) :=
  filter (fun kv => strictly_below site_root (fst kv) = true ∧
                    Py.endswith ".html" (List.last (fst kv) "") = true)
         (map_to_list (files w)).

(** [main] with its arguments parsed: [site_root] is the resolved root,
    [root_exists] what [site_root.exists()] answers, [apply] the flag.  The
    result is the reason of a [SystemExit] or the number of changed text
    files, with the world left behind. *)
Definition main (site_root : fspath) (root_exists apply : bool) (w : World)
  : (Abort + nat) * World :=
  if negb root_exists then (inl SiteRootNotFound, w)
  else
    let rename_map := build_rename_map site_root w in
    match validate_rename_map w rename_map with
    | Some reason => (inl reason, w)
    | None =>
        let basename_map :=
          dict_of (map (fun sd => (List.last (fst sd) "", List.last (snd sd) "")) rename_map) in
        let stem_map :=
          dict_of (map (fun sd => (PathLib.stem_of_name (List.last (fst sd) ""),
                                   PathLib.stem_of_name (List.last (snd sd) "")))
                       (filter (fun sd => Py.lower (path_suffix (fst sd)) = ".html") rename_map)) in
        let '(changed_files, w) :=
          fold_left (process_page apply basename_map stem_map)
                    (iter_html_files site_root w) (0, w) in
        let css_src := site_root ++ ["assets"; "videa-saversion.9b1352011.css"] in
        let '(changed_files, w) :=
          match files w !! css_src with
          | Some css_original =>
              let css_updated := replace_all basename_map css_original in
              if negb (String.eqb css_updated css_original)
              then (S changed_files, if apply then write_text css_src css_updated w else w)
              else (changed_files, w)
          | None => (changed_files, w)
          end in
        let w :=
          if apply
          then fold_left (fun w sd => rename_file (fst sd) (snd sd) w) (longest_first rename_map) w
          else w in
        (inr changed_files, w)
    end.

End WithRewrites.

End Branding.

(* ===================================================================== *)
(** * Vocabulary of the properties *)
(* ===================================================================== *)

(** An answer after which [_download] may try again: an [HTTPError] whose
    code is not one of 400, 401, 403 and 404, or any other exception. *)
Definition transient (r : Response) : bool :=
  match r with
  | Body _ => false
  | HTTPError code => negb (bool_decide (code ∈ PERMANENT_CODES))
  | OtherError => true
  end.

(** The world after [n] requests for [url], each but the last followed by
    the pause of its attempt; the first of them is attempt [first]. *)
Definition after_attempts (url : string) (first : Z) (n : nat) (w : World) : World :=
  {| files := files w;
     requests := repeat url n ++ requests w;
     sleeps := rev (seqZ (1 + first) (Z.of_nat n - 1)) ++ sleeps w |}.

(** A server that fails twice and then answers 404: three requests, pauses
    of 1 and 2, no file written. *)
Definition flaky_env : Env :=
  {| resolve := fun s => [s];
     stat := fun _ => Directory;
     urlopen := fun n _ =>
       match n with
       | 0 => OtherError
       | 1 => HTTPError 503
       | _ => HTTPError 404
       end |}.

Definition empty_world : World := {| files := ∅; requests := []; sleeps := [] |}.





(** A news page whose name holds the brand but none of the dashed forms:
    its planned new name is its old name. *)
Definition noop_site : World :=
  {| files := {[ ["site"; "news"; "xvideahealthx.html"] := "<p>press</p>";
                 ["site"; "index.html"] := "<p>VideaDetect</p>" ]};
     requests := []; sleeps := [] |}.

(** An item of the plan that raises neither the first nor the third
    complaint of [validate_rename_map]. *)
Definition entry_fine (w : World) (plan : list (fspath * fspath)) (sd : fspath * fspath) : Prop :=
  fst sd <> snd sd /\
  ~ (Branding.file_exists (snd sd) w = true /\ snd sd ∉ map fst plan).

#[global] Instance entry_fine_dec w plan sd : Decision (entry_fine w plan sd).
Proof. unfold entry_fine. apply _. Defined.

(** The characters 0-9 and a-f. *)
Definition lower_hex_char (c : ascii) : bool :=
  Py.is_digit c || Py.in_range 97 102 c.

(** ** The filename algorithm as the specification words it *)

(** The characters kept as they are: letters, digits, dot, underscore and
    dash. *)
Definition SAFE_ALPHABET : string :=
  "ABCDEFGHIJKLMNOPQRSTUVWXYZabcdefghijklmnopqrstuvwxyz0123456789._-".

Definition ref_clean (base : string) : string :=
  Py.map_chars (fun c => if Py.mem_char c SAFE_ALPHABET then c else "_"%char) base.

(** The eight-digit digest of the query goes between stem and extension,
    or at the end when there is no extension. *)
Definition ref_splice (name query : string) : string :=
  let '(stem, ext) := PathLib.splitext name in
  stem +:+ "." +:+ Py.take 8 (sha256_hex query) +:+ ext.

(** A name of more than 180 characters keeps 150 characters of its stem
    and its extension. *)
Definition ref_truncate (name : string) : string :=
  if 180 <? String.length name then
    let '(stem, ext) := PathLib.splitext name in Py.take 150 stem +:+ ext
  else name.

Definition reference_filename `{Library} (url : string) : option string :=
  match Url.urlparse url with
  | None => None
  | Some parsed =>
      let base := PathLib.name (Url.path parsed) in
      if String.eqb base "" then Some (Py.take 16 (sha256_hex url))
      else if String.eqb (Url.query parsed) "" then Some (ref_truncate (ref_clean base))
      else Some (ref_truncate (ref_splice (ref_clean base) (Url.query parsed)))
  end.

(** The library instance of the worked examples.  Their texts hold no
    ampersand and their hosts no bracket, so every instance gives the same
    results on them. *)
#[global] Instance plain_library : Library :=
  {| html_unescape := fun s => s;
     html_unescape_plain := fun s _ => eq_refl;
     ipv6_literal := fun _ => false |}.

(** Two URLs that differ in their query string only, with a file name of
    204 characters. *)
Definition long_name_url (query : string) : string :=
  "https://cdn.example.com/" +:+ Py.repeat_str "a" 200 +:+ ".png?" +:+ query.

(** ** URL extraction as the specification words it *)





(** An occurrence of a URL in a text: [http://] or [https://], then a run
    of accepted characters that is not empty and cannot be made longer. *)
Definition url_scheme (s : string) : Prop := s = "http://" \/ s = "https://".

Definition run_ends (post : string) : Prop :=
  post = "" \/ exists c r, post = String c r /\ url_char c = false.

Definition url_occurrence (text pre scheme body post : string) : Prop :=
  text = pre +:+ scheme +:+ body +:+ post /\
  url_scheme scheme /\ body <> "" /\
  Py.forallb_chars url_char body = true /\ run_ends post.



(** ** Relations between the worlds before and after a step *)

(** No file is removed. *)
Definition grows (w w' : World) : Prop :=
  forall p, is_Some (files w !! p) -> is_Some (files w' !! p).

(** A file that is not empty keeps its text. *)
Definition keeps_nonempty (w w' : World) : Prop :=
  forall p t, files w !! p = Some t -> t <> "" -> files w' !! p = Some t.

(** Only the files at the given paths may differ. *)
Definition same_outside (ps : list fspath) (w w' : World) : Prop :=
  forall p, p ∉ ps -> files w' !! p = files w !! p.

(** The same paths are files. *)
Definition same_paths (w w' : World) : Prop :=
  forall p, is_Some (files w' !! p) <-> is_Some (files w !! p).

(** The files at the given paths have had their text transformed by [f],
    every other file is as it was, and nothing was requested or slept. *)
Definition updates (f : fspath -> string -> string) (ps : list fspath) (w w' : World) : Prop :=
  (forall p, files w' !! p
             = if decide (p ∈ ps) then f p <$> (files w !! p) else files w !! p)
  /\ requests w' = requests w /\ sleeps w' = sleeps w.

(** What step 3 makes of the text of a page. *)
Definition html_rewritten (site_root : fspath) (replacements : list (string * string))
    (p : fspath) (text : string) : string :=
  let text := rewrite_text replacements text in
  match _relative_assets_prefix site_root p with
  | Some prefix => if String.eqb prefix "assets/" then text else nested_fixup prefix text
  | None => text
  end.

(** What step 4 makes of the text of a stylesheet and of a script. *)
Definition css_rewritten (replacements : list (string * string)) (text : string) : string :=
  strip_assets_prefix (rewrite_text replacements text).

(** What [_rewrite_nested_local_asset_refs] makes of the text of a page. *)
Definition nested_rewritten (site_root p : fspath) (text : string) : string :=
  match _relative_assets_prefix site_root p with
  | Some prefix => if String.eqb prefix "assets/" then text else nested_fixup prefix text
  | None => text
  end.

(** An entry of the dictionary after a download loop over [urls] that began
    with the dictionary [m]: an entry of [m], or one of the URLs with its
    file name. *)
Definition entry_from `{Library} (urls : list string) (m : list (string * string))
    (kv : string * string) : Prop :=
  kv ∈ m \/ (fst kv ∈ urls /\ _safe_filename_from_url (fst kv) = Some (snd kv)).

(** ** The stages of a run *)

(** What the steps of [localize] compute, one after the other. *)
Record Stages := {
  asset_urls : list string;
  map1 : list (string * string);
  ndown : nat;
  nfail : nat;
  w1 : World;
  nhtml : nat;
  w2 : World;
  css_files : list fspath;
  js_files : list fspath;
  discovered_urls : list string;
  map2 : list (string * string);
  w3 : World;
  ncss : nat;
  w4 : World;
  njs : nat;
  w5 : World
}.

Definition stages_of `{Library} (env : Env) (site_root : fspath) (html_files : list fspath)
    (w : World) (s : Stages) : Prop :=
  let assets_dir := site_root ++ ["assets"] in
  (exists urls,
     gather_urls html_files w = Some urls /\
     asset_urls s = sorted_set (filter (fun u => _is_asset_url u = true) urls)) /\
  download_assets env assets_dir (asset_urls s) ([], 0, 0, w)
    = Some (map1 s, ndown s, nfail s, w1 s) /\
  rewrite_html_files site_root (html_targets (map1 s)) html_files (0, w1 s)
    = Some (nhtml s, w2 s) /\
  css_files s = _iter_files assets_dir [".css"] (w2 s) /\
  js_files s = _iter_files assets_dir [".js"] (w2 s) /\
  (exists from_css from_js,
     discover_css (css_files s) (w2 s) = Some from_css /\
     gather_urls (js_files s) (w2 s) = Some from_js /\
     discovered_urls s
     = sorted_set (filter (fun u => _is_asset_url u = true) (from_css ++ from_js))) /\
  download_discovered env assets_dir (discovered_urls s) (map1 s, w2 s)
    = Some (map2 s, w3 s) /\
  rewrite_css_files (map2 s) (css_files s) (0, w3 s) = Some (ncss s, w4 s) /\
  rewrite_js_files (map2 s) (js_files s) (0, w4 s) = Some (njs s, w5 s).

Definition report_of (s : Stages) : Report :=
  {| found := length (asset_urls s); downloaded := ndown s; failed := nfail s;
     rewritten_html := nhtml s; discovered := length (discovered_urls s);
     rewritten_css := ncss s; rewritten_js := njs s |}.

(** What is known of the stages of any run, stage by stage; the
    conditions under which a stage changes nothing come with it. *)
Record stage_facts `{Library} (site_root : fspath) (html_files : list fspath)
    (w : World) (s : Stages) : Prop := {
  sf_asset_urls :
    forall u, u ∈ asset_urls s ->
      _is_asset_url u = true /\
      exists p t, p ∈ html_files /\ files w !! p = Some t /\ u ∈ _extract_urls_from_text t;
  sf_grows1 : grows w (w1 s);
  sf_keeps1 : keeps_nonempty w (w1 s);
  sf_map1 :
    forall kv, kv ∈ map1 s ->
      fst kv ∈ asset_urls s /\ _safe_filename_from_url (fst kv) = Some (snd kv);
  sf_noop1 :
    (forall u fn, u ∈ asset_urls s -> _safe_filename_from_url u = Some fn ->
       exists_nonempty (joinpath (site_root ++ ["assets"]) fn) w = true) ->
    w1 s = w /\ ndown s = 0 /\ nfail s = 0;
  sf_html :
    updates (html_rewritten site_root (html_targets (map1 s))) html_files (w1 s) (w2 s);
  sf_noop2 :
    (forall p t, p ∈ html_files -> files (w1 s) !! p = Some t ->
       rewrite_text (html_targets (map1 s)) t = t /\ nested_rewritten site_root p t = t) ->
    nhtml s = 0 /\ w2 s = w1 s;
  sf_css_files : css_files s = _iter_files (site_root ++ ["assets"]) [".css"] (w2 s);
  sf_js_files : js_files s = _iter_files (site_root ++ ["assets"]) [".js"] (w2 s);
  sf_discovered :
    forall u, u ∈ discovered_urls s ->
      _is_asset_url u = true /\
      ((exists p t, p ∈ css_files s /\ files (w2 s) !! p = Some t /\ u ∈ css_references t) \/
       (exists p t, p ∈ js_files s /\ files (w2 s) !! p = Some t
                    /\ u ∈ _extract_urls_from_text t));
  sf_grows3 : grows (w2 s) (w3 s);
  sf_keeps3 : keeps_nonempty (w2 s) (w3 s);
  sf_map2 : forall kv, kv ∈ map2 s -> entry_from (discovered_urls s) (map1 s) kv;
  sf_noop3 :
    (forall u fn, u ∈ discovered_urls s -> _safe_filename_from_url u = Some fn ->
       exists_nonempty (joinpath (site_root ++ ["assets"]) fn) (w2 s) = true) ->
    w3 s = w2 s;
  sf_css : updates (fun _ => css_rewritten (map2 s)) (css_files s) (w3 s) (w4 s);
  sf_noop4 :
    (forall p t, p ∈ css_files s -> files (w3 s) !! p = Some t ->
       rewrite_text (map2 s) t = t /\ strip_assets_prefix t = t) ->
    ncss s = 0 /\ w4 s = w3 s;
  sf_js : updates (fun _ => rewrite_text (map2 s)) (js_files s) (w4 s) (w5 s);
  sf_noop5 :
    (forall p t, p ∈ js_files s -> files (w4 s) !! p = Some t ->
       rewrite_text (map2 s) t = t) ->
    njs s = 0 /\ w5 s = w4 s
}.



(** ** Looking at the result of a run *)



Definition world_after (r : option (Z * option Report * World)) (w : World) : World :=
  match r with Some (_, _, w') => w' | None => w end.



(** ** Worked examples *)



(** A text without the letter h in either case holds no URL and no broken
    reference. *)
Definition h_free (t : string) : Prop :=
  Py.mem_char "h" t = false /\ Py.mem_char "H" t = false.




(** ** A site on which a run has nothing left to do *)








(** A server with a stylesheet that imports a second one, which names an
    image; its answers never change. *)
Definition chain_env : Env :=
  {| resolve := fun s => [s];
     stat := fun _ => Directory;
     urlopen := fun _ url =>
       if String.eqb url "https://cdn.example.com/a.css"
       then Body "@import url(https://cdn.example.com/b.css);"
       else if String.eqb url "https://cdn.example.com/b.css"
       then Body "body{background:url(https://cdn.example.com/c.png)}"
       else if String.eqb url "https://cdn.example.com/c.png"
       then Body "PNG"
       else HTTPError 404 |}.

Definition chain_site : World :=
  {| files := {[ ["site"; "index.html"] := "<link href='https://cdn.example.com/a.css'>" ]};
     requests := []; sleeps := [] |}.

Definition chain_argv : list string := ["prog"; "site"].

(** The site after one run, after two and after three. *)
Definition chain_once : World := world_after (main chain_env chain_argv chain_site) chain_site.
Definition chain_twice : World := world_after (main chain_env chain_argv chain_once) chain_once.
Definition chain_thrice : World := world_after (main chain_env chain_argv chain_twice) chain_twice.

(** ** The shape of the rename plan *)



(** ** Broken references *)

(** The two ways the site's address begins and the three ways the stray
    quote is written. *)
Definition SITE_PREFIXES : list string :=
  ["https://videa-saversion.webflow.io/"; "http://videa-saversion.webflow.io/"].

Definition STRAY_QUOTES : list string := ["&quot;"; Py.dquote; "%22"].

(** ** What a run may touch *)

(** Only direct children of [dir] may differ. *)
Definition only_children (dir : fspath) (w w' : World) : Prop :=
  forall p, (forall name, p <> dir ++ [name]) -> files w' !! p = files w !! p.

(** The requests sent between [w] and [w'] are all for URLs of [urls]. *)
Definition requested (urls : list string) (w w' : World) : Prop :=
  exists new, requests w' = new ++ requests w /\ forall u, u ∈ new -> u ∈ urls.

(** A file that the run treats neither as a page nor as a stylesheet nor
    as a script. *)
Definition plain_file (p : fspath) : Prop :=
  Py.lower (path_suffix p) ∉ [".html"; ".css"; ".js"].

(** ** A page with one asset *)

(** A server that knows one image. *)
Definition logo_env : Env :=
  {| resolve := fun s => [s];
     stat := fun _ => Directory;
     urlopen := fun _ url =>
       if String.eqb url "https://cdn.example.com/logo.png" then Body "PNG"
       else HTTPError 404 |}.

Definition logo_site : World :=
  {| files := {[ ["site"; "index.html"] := "<img src='https://cdn.example.com/logo.png'>" ]};
     requests := []; sleeps := [] |}.

(** A plan of one rename and a site for it. *)
Definition one_rename : list (fspath * fspath) :=
  [(["site"; "news"; "old.html"], ["site"; "news"; "new.html"])].

Definition rename_site : World :=
  {| files := {[ ["site"; "news"; "old.html"] := "<p>old</p>";
                 ["site"; "index.html"] := "<p>home</p>" ]};
     requests := []; sleeps := [] |}.

(** ** The dictionaries of the branding rewriter *)



(* ===================================================================== *)
(** * Facts about strings *)
(* ===================================================================== *)

Section StringFacts.

Lemma str_app_nil_l (s : string) : "" +:+ s = s.
Proof. reflexivity. Qed.

Lemma str_app_cons (c : ascii) (s t : string) : String c s +:+ t = String c (s +:+ t).
Proof. reflexivity. Qed.

Lemma str_app_nil_r (s : string) : s +:+ "" = s.
Proof. induction s as [|c s IH]; [reflexivity|]. rewrite str_app_cons. by f_equal. Qed.

Lemma str_app_assoc (s t u : string) : (s +:+ t) +:+ u = s +:+ (t +:+ u).
Proof. induction s as [|c s IH]; [reflexivity|]. rewrite !str_app_cons. by f_equal. Qed.

Lemma str_length_app (s t : string) :
  String.length (s +:+ t) = String.length s + String.length t.
Proof. induction s as [|c s IH]; [reflexivity|]. rewrite str_app_cons. simpl. by f_equal. Qed.

Lemma str_app_inv_head (s t u : string) : s +:+ t = s +:+ u -> t = u.
Proof.
  induction s as [|c s IH]; [done|]. rewrite !str_app_cons. intros [= E]. auto.
Qed.

Lemma is_empty_true (s : string) : Py.is_empty s = true <-> s = "".
Proof. destruct s; simpl; split; congruence. Qed.

Lemma is_empty_false (s : string) : Py.is_empty s = false <-> s <> "".
Proof. destruct s; simpl; split; congruence. Qed.

Lemma str_drop_app_length (s t : string) : Py.drop (String.length s) (s +:+ t) = t.
Proof. induction s as [|c s IH]; [by destruct t|]. rewrite str_app_cons. simpl. exact IH. Qed.

Lemma str_take_app_length (s t : string) : Py.take (String.length s) (s +:+ t) = s.
Proof.
  induction s as [|c s IH]; [by destruct t|]. rewrite str_app_cons. simpl. by f_equal.
Qed.

Lemma str_take_drop (n : nat) (s : string) : Py.take n s +:+ Py.drop n s = s.
Proof.
  revert s. induction n as [|n IH]; intros [|c s]; simpl; try reflexivity.
  rewrite str_app_cons. by f_equal.
Qed.

Lemma str_length_take (n : nat) (s : string) :
  String.length (Py.take n s) = Nat.min n (String.length s).
Proof.
  revert s. induction n as [|n IH]; intros [|c s]; simpl; try reflexivity.
  by f_equal.
Qed.

Lemma str_length_drop (n : nat) (s : string) :
  String.length (Py.drop n s) = String.length s - n.
Proof.
  revert s. induction n as [|n IH]; intros [|c s]; simpl; try reflexivity. apply IH.
Qed.

(** [startswith] decides being a prefix. *)
Lemma startswith_spec (p s : string) :
  Py.startswith p s = true <-> exists t, s = p +:+ t.
Proof.
  revert s. induction p as [|a p IH]; intros s; simpl.
  - split; [intros _; by exists s | done].
  - destruct s as [|b s].
    + split; [done | intros [t E]; rewrite str_app_cons in E; discriminate].
    + rewrite andb_true_iff, Ascii.eqb_eq, IH. split.
      * intros [-> [t ->]]. by exists t.
      * intros [t E]. rewrite str_app_cons in E. injection E as -> ->. eauto.
Qed.

Lemma startswith_app (p t : string) : Py.startswith p (p +:+ t) = true.
Proof. apply startswith_spec. by exists t. Qed.

(** [endswith] decides being a suffix. *)
Lemma endswith_spec (p s : string) :
  Py.endswith p s = true <-> exists t, s = t +:+ p.
Proof.
  unfold Py.endswith. rewrite andb_true_iff, Nat.leb_le, String.eqb_eq. split.
  - intros [Hle E]. exists (Py.take (String.length s - String.length p) s).
    pose proof (str_take_drop (String.length s - String.length p) s) as T.
    rewrite E in T. by symmetry.
  - intros [t ->]. rewrite str_length_app. split; [lia|].
    replace (String.length t + String.length p - String.length p)
      with (String.length t) by lia.
    apply str_drop_app_length.
Qed.

(** [find] answers [None] exactly when no suffix of the text starts with
    the pattern. *)
Lemma find_none (p s : string) :
  Py.find p s = None <-> forall a b, s <> a +:+ p +:+ b.
Proof.
  induction s as [|c s IH].
  - simpl. destruct (Py.startswith p "") eqn:E.
    + split; [done|]. intros Hn. apply startswith_spec in E as [t E].
      exfalso. apply (Hn "" t). by rewrite str_app_nil_l.
    + split; [|done]. intros _ a b Hs.
      assert (Py.startswith p "" = true); [|congruence].
      destruct a; [|rewrite str_app_cons in Hs; discriminate].
      rewrite str_app_nil_l in Hs. apply startswith_spec. eauto.
  - cbn [Py.find]. destruct (Py.startswith p (String c s)) eqn:E.
    + split; [done|]. intros Hn. apply startswith_spec in E as [t E].
      exfalso. apply (Hn "" t). by rewrite str_app_nil_l.
    + destruct (Py.find p s) eqn:F; simpl.
      * split; [done|]. intros Hn. exfalso.
        assert (Hs : forall a b, s <> a +:+ p +:+ b).
        { intros a b ->. apply (Hn (String c a) b). by rewrite str_app_cons. }
        apply IH in Hs. discriminate.
      * split; [|done]. intros _ a b Hs. destruct a as [|a0 a].
        -- rewrite str_app_nil_l in Hs.
           assert (Py.startswith p (String c s) = true); [|congruence].
           apply startswith_spec. eauto.
        -- rewrite str_app_cons in Hs. injection Hs as -> ->.
           destruct IH as [IH _]. by apply (IH eq_refl a b).
Qed.

Lemma contains_false (p s : string) :
  Py.contains p s = false <-> forall a b, s <> a +:+ p +:+ b.
Proof.
  unfold Py.contains. rewrite <- find_none. destruct (Py.find p s); split; congruence.
Qed.

Lemma contains_true (p s : string) :
  Py.contains p s = true <-> exists a b, s = a +:+ p +:+ b.
Proof.
  destruct (Py.contains p s) eqn:E.
  - split; [intros _|done]. unfold Py.contains in E.
    destruct (Py.find p s) as [i|] eqn:F; [|done]. clear E.
    revert i F. induction s as [|c s IH]; intros i F.
    + simpl in F. destruct (Py.startswith p "") eqn:S; [|done].
      apply startswith_spec in S as [t S]. exists "", t. by rewrite str_app_nil_l.
    + cbn [Py.find] in F. destruct (Py.startswith p (String c s)) eqn:S.
      * apply startswith_spec in S as [t S]. exists "", t. by rewrite str_app_nil_l.
      * destruct (Py.find p s) as [j|] eqn:G; [|done].
        destruct (IH j eq_refl) as (a & b & ->). exists (String c a), b.
        by rewrite str_app_cons.
  - split; [done|]. intros (a & b & Hs). exfalso.
    rewrite contains_false in E. by apply (E a b).
Qed.

(** A replacement changes nothing where the pattern does not occur. *)
Lemma replace_from_absent (old new s : string) :
  Py.contains old s = false -> Py.replace_from old new 0 s = s.
Proof.
  rewrite contains_false. induction s as [|c s IH]; intros Hn; [reflexivity|].
  cbn [Py.replace_from]. destruct (Py.startswith old (String c s)) eqn:E.
  - apply startswith_spec in E as [t E]. exfalso. apply (Hn "" t).
    by rewrite str_app_nil_l.
  - f_equal. apply IH. intros a b ->. apply (Hn (String c a) b). by rewrite str_app_cons.
Qed.

Lemma replace_absent (old new s : string) :
  old <> "" -> Py.contains old s = false -> Py.replace old new s = s.
Proof.
  intros Ho Hc. unfold Py.replace. destruct old; [done|]. simpl.
  by apply replace_from_absent.
Qed.

End StringFacts.

(* ===================================================================== *)
(** * The relative prefix of a page *)
(* ===================================================================== *)

Lemma relative_to_app (root rel : fspath) : relative_to root (root ++ rel) = Some rel.
Proof.
  induction root as [|a root IH]; [by destruct rel|].
  simpl. by rewrite String.eqb_refl.
Qed.

(** C4. For a page [d] directory levels below the site root, the prefix
    computed by [_relative_assets_prefix] is [d] times [../] followed by
    [assets/]; in particular depth 0 gives [assets/], depth 1 gives
    [../assets/] and depth 2 gives [../../assets/]. *)
Theorem relative_assets_prefix_depth :
  (forall (site_root dirs : fspath) (name : string),
     _relative_assets_prefix site_root (site_root ++ dirs ++ [name])
     = Some (Py.repeat_str "../" (length dirs) +:+ "assets/"))
  /\ (forall site_root name,
        _relative_assets_prefix site_root (site_root ++ [name]) = Some "assets/")
  /\ (forall site_root d1 name,
        _relative_assets_prefix site_root (site_root ++ [d1; name]) = Some "../assets/")
  /\ (forall site_root d1 d2 name,
        _relative_assets_prefix site_root (site_root ++ [d1; d2; name])
        = Some "../../assets/").
Proof.
  assert (G : forall (site_root dirs : fspath) (name : string),
     _relative_assets_prefix site_root (site_root ++ dirs ++ [name])
     = Some (Py.repeat_str "../" (length dirs) +:+ "assets/")).
  { intros site_root dirs name. unfold _relative_assets_prefix.
    rewrite relative_to_app.
    assert (E : Z.to_nat (Z.max 0 (Z.of_nat (length (dirs ++ [name])) - 1)) = length dirs).
    { rewrite length_app. simpl. lia. }
    by rewrite E. }
  split; [exact G|].
  split; [intros r n; exact (G r [] n)|].
  split; [intros r d1 n; exact (G r [d1] n)|].
  intros r d1 d2 n. exact (G r [d1; d2] n).
Qed.

(* ===================================================================== *)
(** * Classification of URLs *)
(* ===================================================================== *)

(** The classification written out test by test. *)
Lemma is_asset_url_tests `{Library} (url : string) :
  _is_asset_url url = true <->
  exists parsed,
    Url.urlparse url = Some parsed /\
    (Url.scheme parsed = "http" \/ Url.scheme parsed = "https") /\
    (let host := Py.lower (default "" (Url.hostname parsed)) in
     host <> "" /\
     (host ∉ SKIP_HOSTS) /\
     (forall sub, host <> sub +:+ SITE_HOST) /\
     Py.lower (PathLib.suffix (Url.path parsed)) ∈ ASSET_EXTENSIONS).
Proof.
  unfold _is_asset_url. destruct (Url.urlparse url) as [parsed|]; cycle 1.
  { split; [done|]. by intros (p & ? & _). }
  set (host := Py.lower (default "" (Url.hostname parsed))).
  set (ext := Py.lower (PathLib.suffix (Url.path parsed))).
  assert (Hsuf : Py.endswith SITE_HOST host = false <-> forall sub, host <> sub +:+ SITE_HOST).
  { destruct (Py.endswith SITE_HOST host) eqn:E.
    - apply endswith_spec in E as [t E]. split; [done|]. intros Hn. by destruct (Hn t).
    - split; [|done]. intros _ sub Hs.
      assert (Py.endswith SITE_HOST host = true); [|congruence].
      apply endswith_spec. eauto. }
  split.
  - intros Hres. exists parsed. split; [done|].
    case_bool_decide as Hscheme; simpl in Hres; [|done].
    destruct (Py.is_empty host) eqn:Hempty; simpl in Hres; [done|].
    case_bool_decide as Hskip; simpl in Hres; [done|].
    destruct (Py.endswith SITE_HOST host) eqn:Hself; [done|].
    case_bool_decide as Hext; [|done].
    split.
    { apply elem_of_cons in Hscheme as [?|Hscheme]; [by left|].
      apply list_elem_of_singleton in Hscheme. by right. }
    fold host. split; [by apply is_empty_false|].
    split; [done|]. split; [by apply Hsuf | done].
  - intros (p & [= <-] & Hscheme & Hhost & Hskip & Hself & Hext).
    fold host in Hhost, Hskip, Hself.
    rewrite bool_decide_eq_true_2; cycle 1.
    { destruct Hscheme as [-> | ->]; [left | right; left]. }
    simpl. apply is_empty_false in Hhost. rewrite Hhost. simpl.
    rewrite bool_decide_eq_false_2 by done. simpl.
    apply Hsuf in Hself. rewrite Hself.
    by rewrite bool_decide_eq_true_2.
Qed.


(* ===================================================================== *)
(** * Download with retry *)
(* ===================================================================== *)

Section Download.

Variables (env : Env) (url : string) (dest : fspath) (retries : Z).

(** [k] transient answers in a row are skipped, with a pause after each. *)
Lemma download_attempts_skip (k : nat) :
  forall (a : Z) (w : World),
    (a + Z.of_nat k <= retries)%Z ->
    (forall j, j < k -> transient (urlopen env (length (requests w) + j) url) = true) ->
    download_attempts env url dest retries (seqZ a (retries + 1 - a)) w
    = download_attempts env url dest retries
        (seqZ (a + Z.of_nat k) (retries + 1 - a - Z.of_nat k))
        {| files := files w;
           requests := repeat url k ++ requests w;
           sleeps := rev (seqZ (1 + a) (Z.of_nat k)) ++ sleeps w |}.
Proof.
  induction k as [|k IH]; intros a w Hle Htr.
  - simpl. rewrite Z.add_0_r, Z.sub_0_r. by destruct w.
  - rewrite seqZ_cons by lia. cbn [download_attempts].
    pose proof (Htr 0 ltac:(lia)) as H0. rewrite Nat.add_0_r in H0.
    assert (Hlt : (a >=? retries)%Z = false) by lia.
    set (w1 := log_sleep (1 + a) (log_request url w)).
    assert (Hstep : download_attempts env url dest retries
                      (seqZ (Z.succ a) (Z.pred (retries + 1 - a))) w1
                    = download_attempts env url dest retries
                        (seqZ (a + Z.of_nat (S k)) (retries + 1 - a - Z.of_nat (S k)))
                        {| files := files w;
                           requests := repeat url (S k) ++ requests w;
                           sleeps := rev (seqZ (1 + a) (Z.of_nat (S k))) ++ sleeps w |}).
    { replace (Z.pred (retries + 1 - a)) with (retries + 1 - Z.succ a)%Z by lia.
      rewrite (IH (Z.succ a) w1); cycle 1.
      { lia. }
      { intros j Hj. simpl. specialize (Htr (S j) ltac:(lia)).
        by rewrite Nat.add_succ_r in Htr. }
      f_equal; [f_equal; lia|]. unfold w1. simpl. f_equal.
      - change (url :: requests w) with ([url] ++ requests w).
        rewrite app_assoc. f_equal. by rewrite <- repeat_cons.
      - rewrite (seqZ_cons (1 + a) (Z.of_nat (S k))) by lia.
        simpl rev. rewrite <- app_assoc. simpl. do 3 f_equal; lia. }
    destruct (urlopen env (length (requests w)) url) as [data|code|]; simpl in H0.
    + done.
    + apply negb_true_iff in H0. rewrite H0, Hlt. exact Hstep.
    + rewrite Hlt. exact Hstep.
Qed.

(** C5. With a budget [retries] that is not negative, let the answers to
    the first [k] attempts be transient and [k] be within the budget.  Then
    [_download] has sent [k + 1] requests and has paused 1, 2, ..., [k]
    time units between them when the answer to attempt [k] decides the
    outcome: one of the codes 400, 401, 403, 404 ends it with [False] at
    once; a body is written to the destination and ends it with [True]; a
    transient answer to the last attempt of the budget ends it with [False].
    The files are changed in the second case only. *)
Theorem download_retry_policy (w : World) (k : nat) :
  (0 <= retries)%Z ->
  (Z.of_nat k <= retries)%Z ->
  (forall j, j < k -> transient (urlopen env (length (requests w) + j) url) = true) ->
  let answer := urlopen env (length (requests w) + k) url in
  let w' := after_attempts url 0 (S k) w in
  (forall code, answer = HTTPError code -> code ∈ PERMANENT_CODES ->
     _download env url dest retries w = (false, w')) /\
  (forall data, answer = Body data ->
     _download env url dest retries w = (true, write_text dest data w')) /\
  (transient answer = true -> Z.of_nat k = retries ->
     _download env url dest retries w = (false, w')).
Proof.
  intros Hpos Hk Htr. cbv zeta. unfold _download.
  pose proof (download_attempts_skip k 0 w ltac:(lia) Htr) as Hskip.
  rewrite Z.sub_0_r in Hskip. rewrite Hskip. clear Hskip.
  rewrite seqZ_cons by lia. cbn [download_attempts]. simpl requests.
  rewrite length_app, repeat_length, (Nat.add_comm k).
  assert (Hw : log_request url
                 {| files := files w; requests := repeat url k ++ requests w;
                    sleeps := rev (seqZ (1 + 0) (Z.of_nat k)) ++ sleeps w |}
               = after_attempts url 0 (S k) w).
  { unfold after_attempts, log_request. cbn [files requests sleeps].
    by replace (Z.of_nat (S k) - 1)%Z with (Z.of_nat k) by lia. }
  rewrite Hw.
  destruct (urlopen env (length (requests w) + k) url) as [data|code|].
  - split; [done|]. split; [intros d E; injection E as <-; reflexivity | done].
  - split; [|split; [done|]].
    + intros c [= <-] Hperm. by rewrite bool_decide_eq_true_2.
    + simpl. intros Ht Hlast. apply negb_true_iff in Ht. rewrite Ht.
      by replace (0 + Z.of_nat k >=? retries)%Z with true by lia.
  - split; [done|]. split; [done|]. intros _ Hlast.
    by replace (0 + Z.of_nat k >=? retries)%Z with true by lia.
Qed.

End Download.

Lemma download_retry_policy_witness :
  _download flaky_env "https://cdn.example.com/logo.png" ["site"; "assets"; "logo.png"]
    DEFAULT_RETRIES empty_world
  = (false,
     {| files := ∅;
        requests := repeat "https://cdn.example.com/logo.png" 3;
        sleeps := [2; 1]%Z |}).
Proof.
  assert (Htr : forall j, j < 2 ->
            transient (urlopen flaky_env (length (requests empty_world) + j)
                         "https://cdn.example.com/logo.png") = true).
  { intros [|[|j]] Hj; [reflexivity | reflexivity | lia]. }
  destruct (download_retry_policy flaky_env "https://cdn.example.com/logo.png"
              ["site"; "assets"; "logo.png"] DEFAULT_RETRIES empty_world 2
              ltac:(unfold DEFAULT_RETRIES; lia) ltac:(unfold DEFAULT_RETRIES; lia) Htr)
    as [Hperm _].
  exact (Hperm 404%Z eq_refl ltac:(unfold PERMANENT_CODES; set_solver)).
Defined.

(* ===================================================================== *)
(** * The rename plan of the branding rewriter *)
(* ===================================================================== *)

Section RenamePlan.

Variable w : World.
Variable plan : list (fspath * fspath).

(** The loop accepts the remaining items exactly when each is fine, their
    destinations differ from each other and from those seen before. *)
Lemma validate_items_none (items : list (fspath * fspath)) :
  forall targets : gset fspath,
    Branding.validate_items w plan targets items = None <->
    Forall (entry_fine w plan) items /\
    NoDup (map snd items) /\
    (forall d, d ∈ map snd items -> d ∉ targets).
Proof.
  induction items as [|[src dst] items IH]; intros targets.
  - simpl. split; [intros _|done]. split; [constructor|].
    split; [constructor|]. intros d Hd. by apply elem_of_nil in Hd.
  - cbn [Branding.validate_items map]. case_bool_decide as Hnoop.
    { split; [done|]. intros (Hf & _). apply Forall_cons in Hf as [[Hne _] _].
      by destruct Hne. }
    case_bool_decide as Hseen.
    { split; [done|]. intros (_ & _ & Hfresh). exfalso.
      apply (Hfresh dst); [left | done]. }
    destruct (Branding.file_exists dst w && negb (bool_decide (dst ∈ map fst plan))) eqn:Hocc.
    { split; [done|]. intros (Hf & _). apply Forall_cons in Hf as [[_ Hok] _].
      apply andb_true_iff in Hocc as [He Hk]. apply negb_true_iff in Hk.
      apply bool_decide_eq_false in Hk. exfalso. apply Hok. by split. }
    rewrite IH. split.
    + intros (Hf & Hnd & Hfresh). split; [|split].
      * constructor.
        -- split; [done|]. simpl. intros [He Hk].
           rewrite He in Hocc. simpl in Hocc. apply negb_false_iff in Hocc.
           by apply bool_decide_eq_true in Hocc.
        -- eapply Forall_impl; [exact Hf|]. by intros sd [? ?].
      * constructor; [|done]. intros Hin. apply (Hfresh dst Hin).
        apply elem_of_union. left. by apply elem_of_singleton.
      * intros d Hd Ht. apply elem_of_cons in Hd as [->|Hd]; [done|].
        apply (Hfresh d Hd). apply elem_of_union. by right.
    + intros (Hf & Hnd & Hfresh). apply Forall_cons in Hf as [_ Hf].
      apply NoDup_cons in Hnd as [Hnotin Hnd]. split; [|split].
      * eapply Forall_impl; [exact Hf|]. by intros sd [? ?].
      * done.
      * intros d Hd Ht. apply elem_of_union in Ht as [Ht|Ht].
        -- apply elem_of_singleton in Ht as ->. done.
        -- apply (Hfresh d); [by right | done].
Qed.


End RenamePlan.

Lemma validate_rename_map_none (w : World) (plan : list (fspath * fspath)) :
  Branding.validate_rename_map w plan = None <->
  Forall (entry_fine w plan) plan /\ NoDup (map snd plan).
Proof.
  unfold Branding.validate_rename_map. rewrite validate_items_none. split.
  - by intros (? & ? & _).
  - intros [? ?]. split; [done|]. split; [done|]. intros d _. apply not_elem_of_empty.
Qed.



(* ===================================================================== *)
(** * Digests *)
(* ===================================================================== *)

Section Digest.

Lemma step_length (st : list Z) (kw : Z * Z) : length (Sha256.step st kw) = length st.
Proof.
  unfold Sha256.step.
  destruct st as [|a [|b [|c [|d [|e [|f [|g [|h [|i st]]]]]]]]]; reflexivity.
Qed.

Lemma fold_step_length (kws : list (Z * Z)) :
  forall st, length (fold_left Sha256.step kws st) = length st.
Proof.
  induction kws as [|kw kws IH]; intros st; [reflexivity|].
  simpl. by rewrite IH, step_length.
Qed.

Lemma compress_length (h block : list Z) : length (Sha256.compress h block) = length h.
Proof.
  unfold Sha256.compress. rewrite length_map, length_combine, fold_step_length. lia.
Qed.

Lemma digest_words_length (msg : list Z) : length (Sha256.digest_words msg) = 8.
Proof.
  unfold Sha256.digest_words.
  generalize (Sha256.blocks
                (length (Sha256.be_words (length (Sha256.pad msg)) (Sha256.pad msg)))
                (Sha256.be_words (length (Sha256.pad msg)) (Sha256.pad msg))).
  intros bs.
  assert (G : forall h, length (fold_left Sha256.compress bs h) = length h).
  { induction bs as [|b bs IH]; intros h; [reflexivity|].
    simpl. by rewrite IH, compress_length. }
  by rewrite G.
Qed.

Lemma hex_of_octets_length (l : list Z) :
  String.length (Sha256.hex_of_octets l) = 2 * length l.
Proof. induction l as [|x l IH]; [reflexivity|]. simpl. lia. Qed.

Lemma flat_map_be_octets_length (ws : list Z) :
  length (flat_map (Sha256.be_octets 4) ws) = 4 * length ws.
Proof.
  induction ws as [|x ws IH]; [reflexivity|].
  cbn [flat_map]. rewrite length_app, IH. unfold Sha256.be_octets.
  rewrite length_map, length_rev, length_seq. cbn [length]. lia.
Qed.

(** The digest has 64 characters. *)
Lemma hexdigest_length (msg : list Z) : String.length (Sha256.hexdigest msg) = 64.
Proof.
  unfold Sha256.hexdigest.
  by rewrite hex_of_octets_length, flat_map_be_octets_length, digest_words_length.
Qed.

Lemma hex_digit_lower (x : Z) : (0 <= x < 16)%Z -> lower_hex_char (Sha256.hex_digit x) = true.
Proof.
  intros Hx.
  assert (Hcases : x ∈ seqZ 0 16).
  { apply list_elem_of_lookup. exists (Z.to_nat x).
    rewrite lookup_seqZ_lt by lia. f_equal. lia. }
  vm_compute in Hcases.
  repeat (apply elem_of_cons in Hcases as [->|Hcases]; [reflexivity|]).
  by apply elem_of_nil in Hcases.
Qed.

Lemma hex_of_octets_lower (l : list Z) :
  Forall (fun x => (0 <= x < 256)%Z) l ->
  Py.forallb_chars lower_hex_char (Sha256.hex_of_octets l) = true.
Proof.
  induction 1 as [|x l Hx _ IH]; [reflexivity|].
  cbn [Sha256.hex_of_octets Py.forallb_chars].
  rewrite !hex_digit_lower, IH; [reflexivity| |].
  - change 15%Z with (Z.ones 4). rewrite Z.land_ones by lia.
    apply Z.mod_pos_bound. lia.
  - rewrite Z.shiftr_div_pow2 by lia. change (2 ^ 4)%Z with 16%Z. split.
    + apply Z.div_pos; lia.
    + apply Z.div_lt_upper_bound; lia.
Qed.

Lemma be_octets_range (n : nat) (x : Z) :
  Forall (fun o => (0 <= o < 256)%Z) (Sha256.be_octets n x).
Proof.
  unfold Sha256.be_octets. apply Forall_forall. intros o Ho.
  apply list_elem_of_fmap in Ho as (i & -> & _).
  change 255%Z with (Z.ones 8). rewrite Z.land_ones by lia.
  apply Z.mod_pos_bound. lia.
Qed.

(** The digest is written in lower-case hexadecimal digits. *)
Lemma hexdigest_lower (msg : list Z) :
  Py.forallb_chars lower_hex_char (Sha256.hexdigest msg) = true.
Proof.
  unfold Sha256.hexdigest. apply hex_of_octets_lower.
  induction (Sha256.digest_words msg) as [|x ws IH]; [constructor|].
  cbn [flat_map]. apply Forall_app. split; [apply be_octets_range | exact IH].
Qed.

End Digest.

(* ===================================================================== *)
(** * File names *)
(* ===================================================================== *)

Section FileNames.

Lemma forallb_chars_app (p : ascii -> bool) (s t : string) :
  Py.forallb_chars p (s +:+ t) = Py.forallb_chars p s && Py.forallb_chars p t.
Proof.
  induction s as [|c s IH]; [reflexivity|]. rewrite str_app_cons. simpl.
  by rewrite IH, andb_assoc.
Qed.

Lemma forallb_chars_take (p : ascii -> bool) (n : nat) (s : string) :
  Py.forallb_chars p s = true -> Py.forallb_chars p (Py.take n s) = true.
Proof.
  revert s. induction n as [|n IH]; intros [|c s]; simpl; try done.
  rewrite !andb_true_iff. intros [? ?]. auto.
Qed.

Lemma forallb_chars_drop (p : ascii -> bool) (n : nat) (s : string) :
  Py.forallb_chars p s = true -> Py.forallb_chars p (Py.drop n s) = true.
Proof.
  revert s. induction n as [|n IH]; intros [|c s]; simpl; try done.
  rewrite !andb_true_iff. intros [? ?]. auto.
Qed.

Lemma forallb_chars_impl (p q : ascii -> bool) (s : string) :
  (forall c, p c = true -> q c = true) ->
  Py.forallb_chars p s = true -> Py.forallb_chars q s = true.
Proof.
  intros Hpq. induction s as [|c s IH]; simpl; [done|].
  rewrite !andb_true_iff. intros [? ?]. auto.
Qed.

Lemma forallb_chars_mem (p : ascii -> bool) (c : ascii) (s : string) :
  Py.forallb_chars p s = true -> p c = false -> Py.mem_char c s = false.
Proof.
  intros Hs Hc. induction s as [|d s IH]; [reflexivity|]. simpl in *.
  apply andb_true_iff in Hs as [Hd Hs]. rewrite (IH Hs), orb_false_r.
  destruct (Ascii.eqb_spec c d) as [->|]; congruence.
Qed.

Lemma safe_char_alphabet (c : ascii) : safe_char c = Py.mem_char c SAFE_ALPHABET.
Proof. destruct c as [[] [] [] [] [] [] [] []]; reflexivity. Qed.

Lemma lower_hex_safe (c : ascii) : lower_hex_char c = true -> safe_char c = true.
Proof. destruct c as [[] [] [] [] [] [] [] []]; by vm_compute. Qed.

Lemma sanitize_safe (s : string) : Py.forallb_chars safe_char (sanitize s) = true.
Proof.
  unfold sanitize. induction s as [|c s IH]; [reflexivity|]. simpl.
  rewrite IH, andb_true_r. by destruct (safe_char c) eqn:E.
Qed.

Lemma sanitize_length (s : string) : String.length (sanitize s) = String.length s.
Proof. unfold sanitize. induction s as [|c s IH]; [reflexivity|]. simpl. by f_equal. Qed.

Lemma sanitize_clean (s : string) : sanitize s = ref_clean s.
Proof.
  unfold sanitize, ref_clean. induction s as [|c s IH]; [reflexivity|]. simpl.
  f_equal; [|exact IH]. by rewrite safe_char_alphabet.
Qed.

Lemma sha256_hex_length (s : string) : String.length (sha256_hex s) = 64.
Proof. apply hexdigest_length. Qed.

Lemma digest_prefix_safe (n : nat) (s : string) :
  Py.forallb_chars safe_char (Py.take n (sha256_hex s)) = true.
Proof.
  apply forallb_chars_take. eapply forallb_chars_impl; [exact lower_hex_safe|].
  apply hexdigest_lower.
Qed.

Lemma digest_prefix_length (n : nat) (s : string) :
  n <= 64 -> String.length (Py.take n (sha256_hex s)) = n.
Proof. intros Hn. rewrite str_length_take, sha256_hex_length. lia. Qed.

(** The two halves of [splitext] make up the name again. *)
Lemma splitext_app (p a b : string) : PathLib.splitext p = (a, b) -> a +:+ b = p.
Proof.
  unfold PathLib.splitext. destruct (Py.rfind_char "." p) as [d|]; cycle 1.
  { intros [= <- <-]. apply str_app_nil_r. }
  destruct (_ && _).
  - intros [= <- <-]. apply str_take_drop.
  - intros [= <- <-]. apply str_app_nil_r.
Qed.

Lemma splitext_safe (p a b : string) :
  PathLib.splitext p = (a, b) -> Py.forallb_chars safe_char p = true ->
  Py.forallb_chars safe_char a = true /\ Py.forallb_chars safe_char b = true.
Proof.
  intros Hs Hp. apply splitext_app in Hs. rewrite <- Hs in Hp.
  rewrite forallb_chars_app in Hp. by apply andb_true_iff in Hp.
Qed.

(** Truncation keeps the characters safe and leaves at least 150 of them
    when it cuts. *)
Lemma truncate_facts (name : string) :
  Py.forallb_chars safe_char name = true ->
  let name' :=
    if 180 <? String.length name then
      let '(base, ext) := PathLib.splitext name in Py.take 150 base +:+ ext
    else name in
  Py.forallb_chars safe_char name' = true /\
  (String.length name <= 180 -> name' = name) /\
  (180 < String.length name -> 150 <= String.length name').
Proof.
  intros Hsafe. cbv zeta. destruct (180 <? String.length name) eqn:Hlen.
  - apply Nat.ltb_lt in Hlen.
    destruct (PathLib.splitext name) as [base ext] eqn:Hsplit.
    destruct (splitext_safe _ _ _ Hsplit Hsafe) as [Hb He].
    apply splitext_app in Hsplit. split; [|split].
    + rewrite forallb_chars_app, He, andb_true_r. by apply forallb_chars_take.
    + lia.
    + intros _. rewrite str_length_app, str_length_take.
      rewrite <- Hsplit, str_length_app in Hlen. lia.
  - apply Nat.ltb_ge in Hlen. split; [done|]. split; [done|lia].
Qed.

End FileNames.

Section FileNameShape.
Context `{Library}.

(** What [_safe_filename_from_url] returns once the URL has parsed. *)
Lemma safe_filename_shape (url : string) (parsed : Url.ParseResult) :
  Url.urlparse url = Some parsed ->
  exists name,
    _safe_filename_from_url url = Some name /\
    Py.forallb_chars safe_char name = true /\
    Nat.min 16 (Nat.min (String.length (PathLib.name (Url.path parsed))) 150)
      <= String.length name.
Proof.
  intros Hparse. unfold _safe_filename_from_url. rewrite Hparse.
  cbn [mbind option_bind].
  set (base := PathLib.name (Url.path parsed)).
  destruct (Py.is_empty base) eqn:Hbase.
  { eexists. split; [reflexivity|]. split; [apply digest_prefix_safe|].
    rewrite digest_prefix_length; lia. }
  set (spliced :=
         if negb (Py.is_empty (Url.query parsed)) then
           let qhash := Py.take 8 (sha256_hex (Url.query parsed)) in
           let '(stem, ext) := PathLib.splitext (sanitize base) in
           if negb (Py.is_empty ext) then stem +:+ "." +:+ qhash +:+ ext
           else stem +:+ "." +:+ qhash
         else sanitize base).
  assert (Hsp : Py.forallb_chars safe_char spliced = true /\
                String.length base <= String.length spliced).
  { unfold spliced. clear spliced.
    destruct (negb (Py.is_empty (Url.query parsed))); cycle 1.
    { split; [apply sanitize_safe|]. by rewrite sanitize_length. }
    cbv zeta. destruct (PathLib.splitext (sanitize base)) as [stem ext] eqn:Hsplit.
    destruct (splitext_safe _ _ _ Hsplit (sanitize_safe base)) as [Hs He].
    apply splitext_app in Hsplit.
    assert (Hlen : String.length stem + String.length ext = String.length base).
    { by rewrite <- str_length_app, Hsplit, sanitize_length. }
    destruct (negb (Py.is_empty ext)) eqn:Hext.
    - rewrite !forallb_chars_app, Hs, He, digest_prefix_safe.
      split; [reflexivity|]. rewrite !str_length_app. lia.
    - apply negb_false_iff, is_empty_true in Hext. subst ext. simpl in Hlen.
      rewrite !forallb_chars_app, Hs, digest_prefix_safe.
      split; [reflexivity|]. rewrite !str_length_app. lia. }
  destruct Hsp as [Hsafe Hlen].
  destruct (truncate_facts spliced Hsafe) as (Hs' & Hshort & Hlong).
  eexists. split; [reflexivity|]. split; [exact Hs'|].
  destruct (le_lt_dec (String.length spliced) 180) as [Hle|Hgt].
  - rewrite (Hshort Hle). lia.
  - specialize (Hlong Hgt). lia.
Qed.

Lemma asset_suffix_length (n : string) :
  Py.lower (PathLib.suffix_of_name n) ∈ ASSET_EXTENSIONS -> 3 <= String.length n.
Proof.
  unfold PathLib.suffix_of_name. destruct (Py.rfind_char "." n) as [i|]; cycle 1.
  { intros Hin. apply (bool_decide_pack _) in Hin. by vm_compute in Hin. }
  destruct ((0 <? i) && (i <? String.length n - 1)) eqn:E.
  - intros _. apply andb_true_iff in E as [H0 H1].
    apply Nat.ltb_lt in H0, H1. lia.
  - intros Hin. apply (bool_decide_pack _) in Hin. by vm_compute in Hin.
Qed.

Lemma split_char_absent (c : ascii) (s : string) :
  Py.mem_char c s = false -> Py.split_char c s = [s].
Proof.
  induction s as [|d s IH]; [reflexivity|]. simpl.
  intros Hm. apply orb_false_iff in Hm as [Hd Hm].
  rewrite Hd. by rewrite (IH Hm).
Qed.

(** C10. For a URL that [_is_asset_url] accepts, the file name is not
    empty, is neither [.] nor [..], is made of letters, digits, dot,
    underscore and dash only, so holds neither slash nor backslash, and the
    destination [assets_dir / filename] is the directory's parts followed
    by that one name: a direct child of the assets directory. *)
Theorem asset_filename_is_direct_child (url : string) :
  _is_asset_url url = true ->
  exists name,
    _safe_filename_from_url url = Some name /\
    name <> "" /\ name <> "." /\ name <> ".." /\
    Py.forallb_chars safe_char name = true /\
    Py.mem_char "/" name = false /\ Py.mem_char "\" name = false /\
    forall assets_dir, joinpath assets_dir name = assets_dir ++ [name].
Proof.
  intros Hasset. apply is_asset_url_tests in Hasset
    as (parsed & Hparse & _ & _ & _ & _ & Hext).
  destruct (safe_filename_shape url parsed Hparse) as (name & Hname & Hsafe & Hlen).
  apply asset_suffix_length in Hext.
  assert (Hlen3 : 3 <= String.length name) by lia.
  assert (Hslash : Py.mem_char "/" name = false).
  { by apply (forallb_chars_mem safe_char). }
  exists name. split; [done|].
  split; [intros ->; simpl in Hlen3; lia|].
  split; [intros ->; simpl in Hlen3; lia|].
  split; [intros ->; simpl in Hlen3; lia|]. split; [done|]. split; [done|].
  split; [by apply (forallb_chars_mem safe_char)|].
  intros assets_dir. unfold joinpath.
  assert (Hstart : Py.startswith "/" name = false).
  { destruct name as [|c name]; [done|]. simpl in *.
    apply orb_false_iff in Hslash as [Hc _]. by rewrite Hc. }
  rewrite Hstart. f_equal. unfold PathLib.parts. rewrite split_char_absent by done.
  rewrite filter_cons_True; [done|].
  split; intros ->; simpl in Hlen3; lia.
Qed.

End FileNameShape.

Section FileNameReference.
Context `{Library}.

Lemma str_app_inv_tail (s1 s2 t : string) : s1 +:+ t = s2 +:+ t -> s1 = s2.
Proof.
  revert s2. induction s1 as [|c s1 IH]; intros [|d s2] E.
  - reflexivity.
  - exfalso. apply (f_equal String.length) in E.
    rewrite str_app_nil_l, str_length_app in E. simpl in E. lia.
  - exfalso. apply (f_equal String.length) in E.
    rewrite str_app_nil_l, str_length_app in E. simpl in E. lia.
  - rewrite !str_app_cons in E. injection E as -> E. f_equal. by apply IH.
Qed.

(** The function is the algorithm of the specification. *)
Lemma safe_filename_refines (url : string) :
  _safe_filename_from_url url = reference_filename url.
Proof.
  unfold _safe_filename_from_url, reference_filename.
  destruct (Url.urlparse url) as [parsed|]; [|reflexivity].
  cbn [mbind option_bind].
  set (base := PathLib.name (Url.path parsed)).
  destruct (Py.is_empty base) eqn:Hbase.
  { apply is_empty_true in Hbase. by rewrite Hbase. }
  apply is_empty_false in Hbase. apply String.eqb_neq in Hbase. rewrite Hbase.
  rewrite <- sanitize_clean.
  destruct (Py.is_empty (Url.query parsed)) eqn:Hq.
  { apply is_empty_true in Hq. rewrite Hq. reflexivity. }
  apply is_empty_false in Hq. apply String.eqb_neq in Hq. rewrite Hq.
  cbn [negb]. unfold ref_splice, ref_truncate.
  destruct (PathLib.splitext (sanitize base)) as [stem ext].
  destruct (Py.is_empty ext) eqn:Hext; cbn [negb]; [|reflexivity].
  apply is_empty_true in Hext. subst ext. by rewrite !str_app_nil_r.
Qed.

Lemma ref_splice_length (name query : string) :
  String.length (ref_splice name query) = String.length name + 9.
Proof.
  unfold ref_splice. destruct (PathLib.splitext name) as [stem ext] eqn:Hs.
  apply splitext_app in Hs. rewrite <- Hs, !str_length_app.
  rewrite digest_prefix_length by lia. simpl. lia.
Qed.

Lemma ref_splice_inj (name q1 q2 : string) :
  ref_splice name q1 = ref_splice name q2 ->
  Py.take 8 (sha256_hex q1) = Py.take 8 (sha256_hex q2).
Proof.
  unfold ref_splice. destruct (PathLib.splitext name) as [stem ext].
  intros E. apply str_app_inv_head in E. rewrite !str_app_cons, !str_app_nil_l in E.
  injection E as E. by apply str_app_inv_tail in E.
Qed.

Lemma ref_truncate_short (name : string) :
  String.length name <= 180 -> ref_truncate name = name.
Proof.
  intros Hle. unfold ref_truncate.
  destruct (180 <? String.length name) eqn:E; [|reflexivity].
  apply Nat.ltb_lt in E. lia.
Qed.

(** C3, as amended.  [_safe_filename_from_url] is the algorithm of the
    specification, with the final path segment read as [pathlib] reads it;
    a URL without such a segment gets the first 16 lower-case hexadecimal
    digits of the digest of the whole URL; and of two URLs with the same
    path whose file name of at most 171 characters leaves room for the
    digest, the one with a query string gets a name different from the one
    without, and two query strings whose 8-digit digests differ give
    different names. *)
Theorem safe_filename_reference :
  (forall url, _safe_filename_from_url url = reference_filename url)
  /\
  (forall url parsed,
     Url.urlparse url = Some parsed -> PathLib.name (Url.path parsed) = "" ->
     exists digest,
       _safe_filename_from_url url = Some digest /\
       digest = Py.take 16 (sha256_hex url) /\
       String.length digest = 16 /\
       Py.forallb_chars lower_hex_char digest = true)
  /\
  (forall u1 u2 p1 p2,
     Url.urlparse u1 = Some p1 -> Url.urlparse u2 = Some p2 ->
     Url.path p1 = Url.path p2 ->
     PathLib.name (Url.path p1) <> "" ->
     String.length (PathLib.name (Url.path p1)) <= 171 ->
     Url.query p2 <> "" ->
     (Url.query p1 = "" \/
      Py.take 8 (sha256_hex (Url.query p1)) <> Py.take 8 (sha256_hex (Url.query p2))) ->
     _safe_filename_from_url u1 <> _safe_filename_from_url u2).
Proof.
  split; [exact safe_filename_refines|]. split.
  - intros url parsed Hparse Hname. eexists. split; [|split; [reflexivity|]].
    + unfold _safe_filename_from_url. rewrite Hparse. cbn [mbind option_bind].
      by rewrite Hname.
    + split; [by rewrite digest_prefix_length by lia|].
      apply forallb_chars_take, hexdigest_lower.
  - intros u1 u2 p1 p2 Hp1 Hp2 Hpath Hname Hlen Hq2 Hq1.
    rewrite !safe_filename_refines. unfold reference_filename.
    rewrite Hp1, Hp2, <- Hpath.
    set (base := PathLib.name (Url.path p1)) in *.
    apply String.eqb_neq in Hname. rewrite Hname.
    pose proof Hq2 as Hq2'. apply String.eqb_neq in Hq2'. rewrite Hq2'.
    assert (Hclean : String.length (ref_clean base) = String.length base).
    { by rewrite <- sanitize_clean, sanitize_length. }
    rewrite (ref_truncate_short (ref_splice _ (Url.query p2)))
      by (rewrite ref_splice_length; lia).
    destruct Hq1 as [Hq1|Hq1].
    + rewrite Hq1. simpl String.eqb. rewrite ref_truncate_short by lia.
      intros [= E]. apply (f_equal String.length) in E.
      rewrite ref_splice_length in E. lia.
    + destruct (String.eqb_spec (Url.query p1) "") as [Hempty|_].
      * rewrite ref_truncate_short by lia.
        intros [= E]. apply (f_equal String.length) in E.
        rewrite ref_splice_length in E. lia.
      * rewrite ref_truncate_short by (rewrite ref_splice_length; lia).
        intros [= E]. by apply ref_splice_inj in E.
Qed.

End FileNameReference.

(** Two accepted URLs that differ in their query string only and get one
    file name: the name with the digest spliced in has 213 characters, and
    cutting its stem back to 150 characters cuts the digest off. *)
Lemma query_variants_collide :
  (exists p1 p2,
     Url.urlparse (long_name_url "v=1") = Some p1 /\
     Url.urlparse (long_name_url "v=2") = Some p2 /\
     Url.path p1 = Url.path p2 /\ Url.query p1 = "v=1" /\ Url.query p2 = "v=2")
  /\ _is_asset_url (long_name_url "v=1") = true
  /\ _is_asset_url (long_name_url "v=2") = true
  /\ _safe_filename_from_url (long_name_url "v=1") = Some (Py.repeat_str "a" 150 +:+ ".png")
  /\ _safe_filename_from_url (long_name_url "v=2") = Some (Py.repeat_str "a" 150 +:+ ".png").
Proof.
  split.
  { eexists _, _. split; [vm_compute; reflexivity|].
    split; [vm_compute; reflexivity|]. by vm_compute. }
  by vm_compute.
Qed.

(** A path that ends in a slash has an empty last segment, yet the name is
    taken from the last segment that is not empty. *)
Example trailing_slash_keeps_name :
  _safe_filename_from_url "https://cdn.example.com/logo.png/" = Some "logo.png"
  /\ _safe_filename_from_url "https://cdn.example.com/fonts/" = Some "fonts"
  /\ _safe_filename_from_url "https://cdn.example.com/a.png;v=1" = Some "a.png".
Proof. by vm_compute. Qed.

Lemma safe_filename_reference_witness :
  (Url.urlparse "https://cdn.example.com/app.js?v=1"
     = Some {| Url.scheme := "https"; Url.netloc := "cdn.example.com"; Url.path := "/app.js";
               Url.params := ""; Url.query := "v=1"; Url.fragment := "" |}
   /\ Url.urlparse "https://cdn.example.com/app.js?v=2"
     = Some {| Url.scheme := "https"; Url.netloc := "cdn.example.com"; Url.path := "/app.js";
               Url.params := ""; Url.query := "v=2"; Url.fragment := "" |})
  /\ _safe_filename_from_url "https://cdn.example.com/app.js?v=1"
     <> _safe_filename_from_url "https://cdn.example.com/app.js?v=2".
Proof.
  split; [by vm_compute|].
  refine (proj2 (proj2 safe_filename_reference)
            "https://cdn.example.com/app.js?v=1" "https://cdn.example.com/app.js?v=2"
            {| Url.scheme := "https"; Url.netloc := "cdn.example.com"; Url.path := "/app.js";
               Url.params := ""; Url.query := "v=1"; Url.fragment := "" |}
            {| Url.scheme := "https"; Url.netloc := "cdn.example.com"; Url.path := "/app.js";
               Url.params := ""; Url.query := "v=2"; Url.fragment := "" |}
            _ _ eq_refl _ _ _ _).
  - by vm_compute.
  - by vm_compute.
  - by vm_compute.
  - vm_compute. lia.
  - by vm_compute.
  - right. by vm_compute.
Defined.

Lemma asset_filename_is_direct_child_witness :
  exists name,
    _safe_filename_from_url "https://cdn.example.com/logo.png" = Some name /\
    name <> "" /\ name <> "." /\ name <> ".." /\
    Py.forallb_chars safe_char name = true /\
    Py.mem_char "/" name = false /\ Py.mem_char "\" name = false /\
    forall assets_dir, joinpath assets_dir name = assets_dir ++ [name].
Proof.
  exact (asset_filename_is_direct_child "https://cdn.example.com/logo.png" eq_refl).
Defined.

(* ===================================================================== *)
(** * Extraction of URLs *)
(* ===================================================================== *)

Section Extraction.

Lemma take_while_split (p : ascii -> bool) (s : string) :
  exists post, s = take_while p s +:+ post /\
               (post = "" \/ exists c r, post = String c r /\ p c = false).
Proof.
  induction s as [|c s (post & E & Hpost)].
  - exists "". split; [reflexivity | by left].
  - simpl. destruct (p c) eqn:Hc.
    + exists post. rewrite str_app_cons. split; [by f_equal | done].
    + exists (String c s). split; [reflexivity|]. right. eauto.
Qed.

Lemma take_while_all (p : ascii -> bool) (s : string) :
  Py.forallb_chars p (take_while p s) = true.
Proof.
  induction s as [|c s IH]; [reflexivity|]. simpl.
  destruct (p c) eqn:Hc; [|reflexivity]. simpl. by rewrite Hc.
Qed.

Lemma take_while_app (p : ascii -> bool) (a b : string) :
  Py.forallb_chars p a = true -> take_while p (a +:+ b) = a +:+ take_while p b.
Proof.
  induction a as [|c a IH]; [done|]. simpl. intros Ha.
  apply andb_true_iff in Ha as [Hc Ha]. rewrite Hc, str_app_cons.
  f_equal. by apply IH.
Qed.

Lemma take_while_stops (p : ascii -> bool) (post : string) :
  (post = "" \/ exists c r, post = String c r /\ p c = false) ->
  take_while p post = "".
Proof. intros [->|(c & r & -> & Hc)]; [reflexivity|]. simpl. by rewrite Hc. Qed.


Lemma scheme_chars_accepted (scheme : string) :
  url_scheme scheme -> Py.forallb_chars url_char scheme = true.
Proof. by intros [-> | ->]. Qed.

(** A match at the start of [s] is a scheme and the longest run after it;
    it is also the longest run of accepted characters of [s]. *)
Lemma URL_RE_match_some (s m : string) :
  URL_RE_match s = Some m ->
  exists scheme body post,
    url_occurrence s "" scheme body post /\ m = scheme +:+ body /\
    m = take_while url_char s.
Proof.
  unfold URL_RE_match.
  assert (G : forall scheme, url_scheme scheme -> Py.startswith scheme s = true ->
              (if Py.is_empty (take_while url_char (Py.drop (String.length scheme) s))
               then None
               else Some (Py.take (String.length scheme) s
                          +:+ take_while url_char (Py.drop (String.length scheme) s)))
              = Some m ->
              exists scheme body post,
                url_occurrence s "" scheme body post /\ m = scheme +:+ body /\
                m = take_while url_char s).
  { intros scheme Hscheme Hstart Hm. apply startswith_spec in Hstart as [t ->].
    rewrite str_drop_app_length, str_take_app_length in Hm.
    destruct (Py.is_empty (take_while url_char t)) eqn:Hbody; [done|].
    injection Hm as <-. destruct (take_while_split url_char t) as (post & Et & Hpost).
    exists scheme, (take_while url_char t), post. split; [|split; [reflexivity|]].
    - split; [|split; [done|split; [by apply is_empty_false|]]].
      + rewrite str_app_nil_l. by rewrite <- Et.
      + split; [apply take_while_all | exact Hpost].
    - symmetry. apply take_while_app. by apply scheme_chars_accepted. }
  destruct (Py.startswith "https://" s) eqn:H8.
  { apply (G "https://"); [by right | done]. }
  destruct (Py.startswith "http://" s) eqn:H7; [|done].
  apply (G "http://"); [by left | done].
Qed.


(** Every URL found is an occurrence in the text. *)
Lemma URL_RE_findall_sound (s : string) :
  forall skip u, u ∈ URL_RE_findall_from skip s ->
    exists pre scheme body post,
      url_occurrence s pre scheme body post /\ u = scheme +:+ body.
Proof.
  induction s as [|c r IH]; intros skip u Hu.
  { by apply elem_of_nil in Hu. }
  assert (Hlater : forall k, u ∈ URL_RE_findall_from k r ->
            exists pre scheme body post,
              url_occurrence (String c r) pre scheme body post /\ u = scheme +:+ body).
  { intros k Hk. destruct (IH k u Hk) as (pre & scheme & body & post & Hocc & ->).
    exists (String c pre), scheme, body, post. split; [|reflexivity].
    destruct Hocc as (-> & ? & ? & ? & ?). split; [by rewrite str_app_cons | done]. }
  cbn [URL_RE_findall_from] in Hu. destruct skip as [|k]; [|by apply (Hlater k)].
  destruct (URL_RE_match (String c r)) as [m|] eqn:Hm; [|by apply (Hlater 0)].
  apply elem_of_cons in Hu as [->|Hu]; [|by eapply Hlater].
  apply URL_RE_match_some in Hm as (scheme & body & post & Hocc & -> & _).
  by exists "", scheme, body, post.
Qed.


End Extraction.

Section CssReferences.








End CssReferences.



(* ===================================================================== *)
(** * Files through a run *)
(* ===================================================================== *)

Section Listing.

Lemma map_is_fmap {A B} (f : A -> B) (l : list A) : map f l = f <$> l.
Proof. induction l as [|x l IH]; [reflexivity|]. simpl. by f_equal. Qed.

(** What [_iter_files] lists: the regular files strictly below the root
    whose lower-cased suffix is one of the given ones. *)
Lemma elem_of_iter_files (root : fspath) (suffixes : list string) (w : World) (p : fspath) :
  p ∈ _iter_files root suffixes w <->
  is_Some (files w !! p) /\ strictly_below root p = true /\
  Py.lower (path_suffix p) ∈ suffixes.
Proof.
  unfold _iter_files. rewrite merge_sort_Permutation, list_elem_of_filter.
  rewrite map_is_fmap, list_elem_of_fmap. split.
  - intros [[? ?] ([q t] & -> & Hin)]. apply elem_of_map_to_list in Hin.
    split; [by eexists | done].
  - intros ([t Ht] & ? & ?). split; [done|]. exists (p, t). split; [done|].
    by apply elem_of_map_to_list.
Qed.

Lemma NoDup_iter_files (root : fspath) (suffixes : list string) (w : World) :
  NoDup (_iter_files root suffixes w).
Proof.
  unfold _iter_files. rewrite merge_sort_Permutation. apply NoDup_filter.
  rewrite map_is_fmap. apply NoDup_fst_map_to_list.
Qed.

Lemma relative_to_below (root p : fspath) :
  strictly_below root p = true -> is_Some (relative_to root p).
Proof.
  revert p. induction root as [|a root IH]; intros [|b p]; simpl; try done.
  intros Hb. apply andb_true_iff in Hb as [Hab Hb]. rewrite Hab. by apply IH.
Qed.

Lemma elem_of_sorted_set (l : list string) (u : string) : u ∈ sorted_set l <-> u ∈ l.
Proof. unfold sorted_set. by rewrite merge_sort_Permutation, elem_of_remove_dups. Qed.


End Listing.

Section Frames.
Context `{Library}.
Variable env : Env.

Lemma grows_refl (w : World) : grows w w.
Proof. by intros p. Qed.

Lemma grows_trans (w1 w2 w3 : World) : grows w1 w2 -> grows w2 w3 -> grows w1 w3.
Proof. intros H12 H23 p Hp. auto. Qed.

Lemma keeps_nonempty_refl (w : World) : keeps_nonempty w w.
Proof. by intros p t. Qed.

Lemma keeps_nonempty_trans (w1 w2 w3 : World) :
  keeps_nonempty w1 w2 -> keeps_nonempty w2 w3 -> keeps_nonempty w1 w3.
Proof. intros H12 H23 p t Hp Ht. eauto. Qed.

Lemma same_paths_refl (w : World) : same_paths w w.
Proof. by intros p. Qed.

Lemma same_paths_trans (w1 w2 w3 : World) :
  same_paths w1 w2 -> same_paths w2 w3 -> same_paths w1 w3.
Proof. intros H12 H23 p. etrans; [apply H23 | apply H12]. Qed.


Lemma same_outside_refl (ps : list fspath) (w : World) : same_outside ps w w.
Proof. by intros p. Qed.

Lemma same_outside_trans (ps : list fspath) (w1 w2 w3 : World) :
  same_outside ps w1 w2 -> same_outside ps w2 w3 -> same_outside ps w1 w3.
Proof. intros H12 H23 p Hp. etrans; [by apply H23 | by apply H12]. Qed.

Lemma same_outside_mono (ps qs : list fspath) (w w' : World) :
  (forall p, p ∈ ps -> p ∈ qs) -> same_outside ps w w' -> same_outside qs w w'.
Proof. intros Hsub Hs p Hp. apply Hs. intros Hin. by apply Hp, Hsub. Qed.

(** Writing a file that exists. *)
Lemma write_text_lookup (p q : fspath) (t : string) (w : World) :
  files (write_text p t w) !! q = if decide (p = q) then Some t else files w !! q.
Proof. unfold write_text. simpl. apply lookup_insert. Qed.

Lemma write_text_same_paths (p : fspath) (t : string) (w : World) :
  is_Some (files w !! p) -> same_paths w (write_text p t w).
Proof.
  intros Hp q. rewrite write_text_lookup. destruct (decide (p = q)) as [->|]; [|done].
  split; [done | by eexists].
Qed.

Lemma write_text_same_outside (p : fspath) (t : string) (w : World) :
  same_outside [p] w (write_text p t w).
Proof.
  intros q Hq. rewrite write_text_lookup. destruct (decide (p = q)) as [->|]; [|done].
  destruct Hq. by left.
Qed.

Lemma write_text_grows (p : fspath) (t : string) (w : World) : grows w (write_text p t w).
Proof.
  intros q Hq. rewrite write_text_lookup. destruct (decide (p = q)); [by eexists | done].
Qed.

(** A download writes the destination or nothing. *)
Lemma download_attempts_files (url : string) (dest : fspath) (retries : Z)
    (attempts : list Z) :
  forall w ok w',
    download_attempts env url dest retries attempts w = (ok, w') ->
    (ok = false /\ files w' = files w) \/
    (ok = true /\ exists data, files w' = <[dest := data]> (files w)).
Proof.
  induction attempts as [|a attempts IH]; intros w ok w' Hd.
  { injection Hd as <- <-. by left. }
  cbn [download_attempts] in Hd.
  destruct (urlopen env (length (requests w)) url) as [data|code|].
  - injection Hd as <- <-. right. split; [done|]. by exists data.
  - destruct (bool_decide (code ∈ PERMANENT_CODES)); [injection Hd as <- <-; by left|].
    destruct (a >=? retries)%Z; [injection Hd as <- <-; by left|].
    by apply IH in Hd.
  - destruct (a >=? retries)%Z; [injection Hd as <- <-; by left|].
    by apply IH in Hd.
Qed.

Lemma download_files (url : string) (dest : fspath) (retries : Z) (w w' : World) (ok : bool) :
  _download env url dest retries w = (ok, w') ->
  (ok = false /\ files w' = files w) \/
  (ok = true /\ exists data, files w' = <[dest := data]> (files w)).
Proof. apply download_attempts_files. Qed.

(** A download onto a path that is no file or an empty one. *)
Lemma download_frame (url : string) (dest : fspath) (retries : Z) (w w' : World) (ok : bool) :
  exists_nonempty dest w = false ->
  _download env url dest retries w = (ok, w') ->
  grows w w' /\ keeps_nonempty w w'.
Proof.
  intros Hdest Hd. apply download_files in Hd as [[_ Hf]|[_ [data Hf]]].
  - split; intros p; rewrite Hf; auto.
  - split.
    + intros p Hp. rewrite Hf, lookup_insert. by destruct (decide (dest = p)).
    + intros p t Hp Ht. rewrite Hf, lookup_insert.
      destruct (decide (dest = p)) as [->|]; [|done].
      unfold exists_nonempty in Hdest. rewrite Hp in Hdest.
      apply negb_false_iff, is_empty_true in Hdest. done.
Qed.

End Frames.

Section Rewrites.

Lemma world_eq (w w' : World) :
  files w' = files w -> requests w' = requests w -> sleeps w' = sleeps w -> w' = w.
Proof. destruct w, w'. simpl. by intros -> -> ->. Qed.

Lemma updates_nil (f : fspath -> string -> string) (w : World) : updates f [] w w.
Proof.
  split; [|done]. intros p. destruct (decide (p ∈ [])) as [Hin|]; [|done].
  by apply elem_of_nil in Hin.
Qed.

(** One file transformed, then the others. *)
Lemma updates_cons (f : fspath -> string -> string) (p : fspath) (ps : list fspath)
    (w1 w2 w3 : World) :
  p ∉ ps -> updates f [p] w1 w2 -> updates f ps w2 w3 -> updates f (p :: ps) w1 w3.
Proof.
  intros Hp (H12 & Hr12 & Hs12) (H23 & Hr23 & Hs23).
  split; [|split; congruence]. intros q. rewrite H23, H12.
  destruct (decide (q ∈ ps)) as [Hq|Hq].
  - assert (q <> p) by (by intros ->).
    rewrite decide_False by (by intros ?%list_elem_of_singleton).
    rewrite decide_True by (by right). done.
  - destruct (decide (q ∈ [p])) as [->%list_elem_of_singleton|Hqp].
    + rewrite decide_True by (by left). done.
    + rewrite decide_False; [done|]. intros [->|?]%elem_of_cons; [|done].
      apply Hqp. by left.
Qed.

Lemma updates_same_paths (f : fspath -> string -> string) (ps : list fspath) (w w' : World) :
  updates f ps w w' -> same_paths w w'.
Proof.
  intros [Hf _] p. rewrite Hf. destruct (decide (p ∈ ps)); [|done].
  by rewrite fmap_is_Some.
Qed.

Lemma updates_same_outside (f : fspath -> string -> string) (ps : list fspath) (w w' : World) :
  updates f ps w w' -> same_outside ps w w'.
Proof. intros [Hf _] p Hp. rewrite Hf. by rewrite decide_False. Qed.

Lemma updates_lookup (f : fspath -> string -> string) (ps : list fspath) (w w' : World)
    (p : fspath) (t : string) :
  updates f ps w w' -> p ∈ ps -> files w !! p = Some t -> files w' !! p = Some (f p t).
Proof. intros [Hf _] Hp Ht. rewrite Hf, decide_True by done. by rewrite Ht. Qed.

(** A file is left alone when the transformation leaves its text alone. *)
Lemma updates_id (f : fspath -> string -> string) (ps : list fspath) (w w' : World) :
  updates f ps w w' ->
  (forall p t, p ∈ ps -> files w !! p = Some t -> f p t = t) ->
  w' = w.
Proof.
  intros (Hf & Hr & Hs) Hid. apply world_eq; [|done|done].
  apply map_eq. intros p. rewrite Hf. destruct (decide (p ∈ ps)) as [Hp|]; [|done].
  destruct (files w !! p) as [t|] eqn:Ht; [|done]. simpl. by rewrite (Hid p t).
Qed.

Lemma write_text_updates (g : string -> string) (p : fspath) (t : string) (w : World) :
  files w !! p = Some t -> updates (fun _ => g) [p] w (write_text p (g t) w).
Proof.
  intros Ht. split; [|done]. intros q. rewrite write_text_lookup.
  destruct (decide (p = q)) as [<-|Hne].
  - rewrite decide_True by (by left). by rewrite Ht.
  - rewrite decide_False; [done|]. by intros ->%list_elem_of_singleton.
Qed.

Lemma unchanged_updates (g : string -> string) (p : fspath) (t : string) (w : World) :
  files w !! p = Some t -> g t = t -> updates (fun _ => g) [p] w w.
Proof.
  intros Ht Hg. split; [|done]. intros q.
  destruct (decide (q ∈ [p])) as [->%list_elem_of_singleton|]; [|done].
  rewrite Ht. simpl. by rewrite Hg.
Qed.

(** [_rewrite_in_file] on a file that exists. *)
Lemma rewrite_in_file_updates (p : fspath) (reps : list (string * string)) (w : World)
    (t : string) :
  files w !! p = Some t ->
  exists w',
    _rewrite_in_file p reps w
    = Some (negb (String.eqb (rewrite_text reps t) t), w') /\
    updates (fun _ => rewrite_text reps) [p] w w' /\
    (rewrite_text reps t = t -> w' = w).
Proof.
  intros Ht. unfold _rewrite_in_file. rewrite Ht. cbn [mbind option_bind].
  destruct (String.eqb_spec (rewrite_text reps t) t) as [E|E]; cbn [negb].
  - exists w. split; [done|]. split; [by apply (unchanged_updates _ _ t) | done].
  - eexists. split; [reflexivity|].
    split; [by apply (write_text_updates (rewrite_text reps)) | done].
Qed.

End Rewrites.

Section RewriteLoops.

Lemma updates_compose (f g : fspath -> string -> string) (p : fspath) (w1 w2 w3 : World) :
  updates f [p] w1 w2 -> updates g [p] w2 w3 ->
  updates (fun q t => g q (f q t)) [p] w1 w3.
Proof.
  intros (H12 & Hr12 & Hs12) (H23 & Hr23 & Hs23). split; [|split; congruence].
  intros q. rewrite H23, H12. destruct (decide (q ∈ [p])); [|done].
  by destruct (files w1 !! q).
Qed.

Lemma relative_assets_prefix_below (site_root p : fspath) :
  strictly_below site_root p = true -> is_Some (_relative_assets_prefix site_root p).
Proof.
  intros Hb. unfold _relative_assets_prefix.
  by destruct (relative_to_below _ _ Hb) as [rel ->].
Qed.

(** [_rewrite_nested_local_asset_refs] on a page below the root. *)
Lemma rewrite_nested_updates (site_root p : fspath) (w : World) (t : string) :
  strictly_below site_root p = true ->
  files w !! p = Some t ->
  exists w',
    _rewrite_nested_local_asset_refs site_root p w
    = Some (negb (String.eqb (nested_rewritten site_root p t) t), w') /\
    updates (nested_rewritten site_root) [p] w w' /\
    (nested_rewritten site_root p t = t -> w' = w).
Proof.
  intros Hb Ht. unfold _rewrite_nested_local_asset_refs, nested_rewritten.
  destruct (relative_assets_prefix_below _ _ Hb) as [prefix Hp]. rewrite Hp.
  cbn [mbind option_bind]. destruct (String.eqb prefix "assets/") eqn:Hroot.
  { exists w. rewrite String.eqb_refl. split; [done|]. split; [|done].
    split; [|done]. intros q.
    destruct (decide (q ∈ [p])) as [->%list_elem_of_singleton|]; [|done].
    by rewrite Ht, Hp, Hroot. }
  rewrite Ht. cbn [mbind option_bind].
  assert (Hupd : forall w', updates (fun _ => nested_fixup prefix) [p] w w' ->
                   updates (nested_rewritten site_root) [p] w w').
  { intros w' (Hf & Hr & Hs). split; [|done]. intros q. rewrite Hf.
    destruct (decide (q ∈ [p])) as [->%list_elem_of_singleton|]; [|done].
    unfold nested_rewritten. by rewrite Hp, Hroot. }
  destruct (String.eqb_spec (nested_fixup prefix t) t) as [E|E]; cbn [negb].
  - exists w. split; [done|]. split; [|done].
    apply Hupd. by apply (unchanged_updates _ _ t).
  - eexists. split; [reflexivity|]. split; [|done].
    apply Hupd. by apply (write_text_updates (nested_fixup prefix)).
Qed.

(** Step 3 on pages that exist, lie below the root and are listed once. *)
Lemma rewrite_html_files_updates (site_root : fspath) (reps : list (string * string))
    (paths : list fspath) :
  forall (n : nat) (w : World),
    NoDup paths ->
    (forall p, p ∈ paths -> is_Some (files w !! p) /\ strictly_below site_root p = true) ->
    exists n' w',
      rewrite_html_files site_root reps paths (n, w) = Some (n', w') /\
      updates (html_rewritten site_root reps) paths w w' /\
      ((forall p t, p ∈ paths -> files w !! p = Some t ->
          rewrite_text reps t = t /\ nested_rewritten site_root p t = t) ->
       n' = n /\ w' = w).
Proof.
  induction paths as [|p paths IH]; intros n w Hnd Hok.
  { exists n, w. split; [done|]. split; [apply updates_nil | done]. }
  apply NoDup_cons in Hnd as [Hp Hnd].
  destruct (Hok p ltac:(by left)) as [[t Ht] Hb].
  cbn [rewrite_html_files].
  destruct (rewrite_in_file_updates p reps w t Ht) as (w1 & -> & Hu1 & Hid1).
  cbn [mbind option_bind].
  assert (Ht1 : files w1 !! p = Some (rewrite_text reps t)).
  { exact (updates_lookup _ _ _ _ p t Hu1 ltac:(by left) Ht). }
  destruct (rewrite_nested_updates site_root p w1 _ Hb Ht1) as (w2 & -> & Hu2 & Hid2).
  cbn [mbind option_bind].
  pose proof (updates_compose _ _ _ _ _ _ Hu1 Hu2) as Hu12.
  assert (Hok2 : forall q, q ∈ paths ->
            is_Some (files w2 !! q) /\ strictly_below site_root q = true).
  { intros q Hq. destruct (Hok q ltac:(by right)) as [Hq1 Hq2]. split; [|done].
    by apply (updates_same_paths _ _ _ _ Hu12). }
  destruct (IH (if (negb (nested_rewritten site_root p (rewrite_text reps t)
                            =? rewrite_text reps t)%string
                    || negb (rewrite_text reps t =? t)%string)
                then S n else n) w2 Hnd Hok2) as (n' & w' & -> & Hu & Hid).
  exists n', w'. split; [done|]. split.
  - apply (updates_cons _ _ _ w w2 w'); [done| |done].
    destruct Hu12 as (Hf & Hr & Hs). split; [|done]. intros q. rewrite Hf.
    destruct (decide (q ∈ [p])) as [->%list_elem_of_singleton|]; [|done].
    unfold html_rewritten, nested_rewritten.
    by destruct (files w !! p).
  - intros Hnoop. destruct (Hnoop p t ltac:(by left) Ht) as [E1 E2].
    rewrite E1 in *. rewrite E2 in *. rewrite String.eqb_refl in *.
    cbn [negb orb] in Hid. specialize (Hid1 eq_refl). subst w1.
    specialize (Hid2 eq_refl). subst w2. apply Hid.
    intros q u Hq Hu'. apply Hnoop; [by right | done].
Qed.

End RewriteLoops.

Section AssetRewriteLoops.

(** A stylesheet of [assets/] that exists. *)
Lemma rewrite_css_file_updates (css : fspath) (reps : list (string * string)) (w : World)
    (t : string) :
  files w !! css = Some t ->
  exists b w',
    rewrite_css_file css reps w = Some (b, w') /\
    updates (fun _ => css_rewritten reps) [css] w w' /\
    (rewrite_text reps t = t -> strip_assets_prefix t = t -> b = false /\ w' = w).
Proof.
  intros Ht. unfold rewrite_css_file.
  destruct (rewrite_in_file_updates css reps w t Ht) as (w1 & -> & Hu1 & Hid1).
  cbn [mbind option_bind].
  assert (Ht1 : files w1 !! css = Some (rewrite_text reps t)).
  { exact (updates_lookup _ _ _ _ css t Hu1 ltac:(by left) Ht). }
  rewrite Ht1. cbn [mbind option_bind].
  destruct (String.eqb_spec (strip_assets_prefix (rewrite_text reps t)) (rewrite_text reps t))
    as [E|E]; cbn [negb].
  - eexists _, w1. split; [reflexivity|]. split.
    + destruct Hu1 as (Hf & Hr & Hs). split; [|done]. intros q. rewrite Hf.
      destruct (decide (q ∈ [css])) as [->%list_elem_of_singleton|]; [|done].
      rewrite Ht. simpl. unfold css_rewritten. by rewrite E.
    + intros E1 _. rewrite E1, String.eqb_refl. split; [done | by apply Hid1].
  - eexists _, _. split; [reflexivity|]. split.
    + apply (updates_compose (fun _ => rewrite_text reps) (fun _ => strip_assets_prefix)
               css w w1); [done|].
      by apply (write_text_updates strip_assets_prefix).
    + intros E1 E2. rewrite E1 in E. done.
Qed.

Lemma rewrite_css_files_updates (reps : list (string * string)) (paths : list fspath) :
  forall (n : nat) (w : World),
    NoDup paths ->
    (forall p, p ∈ paths -> is_Some (files w !! p)) ->
    exists n' w',
      rewrite_css_files reps paths (n, w) = Some (n', w') /\
      updates (fun _ => css_rewritten reps) paths w w' /\
      ((forall p t, p ∈ paths -> files w !! p = Some t ->
          rewrite_text reps t = t /\ strip_assets_prefix t = t) ->
       n' = n /\ w' = w).
Proof.
  induction paths as [|p paths IH]; intros n w Hnd Hok.
  { exists n, w. split; [done|]. split; [apply updates_nil | done]. }
  apply NoDup_cons in Hnd as [Hp Hnd].
  destruct (Hok p ltac:(by left)) as [t Ht].
  cbn [rewrite_css_files].
  destruct (rewrite_css_file_updates p reps w t Ht) as (b & w1 & -> & Hu1 & Hid1).
  cbn [mbind option_bind].
  assert (Hok1 : forall q, q ∈ paths -> is_Some (files w1 !! q)).
  { intros q Hq. apply (updates_same_paths _ _ _ _ Hu1). apply Hok. by right. }
  destruct (IH (if b then S n else n) w1 Hnd Hok1) as (n' & w' & -> & Hu & Hid).
  exists n', w'. split; [done|]. split.
  - by apply (updates_cons _ _ _ w w1 w').
  - intros Hnoop. destruct (Hnoop p t ltac:(by left) Ht) as [E1 E2].
    destruct (Hid1 E1 E2) as [-> ->]. apply Hid.
    intros q u Hq Hu'. apply (Hnoop q u); [by right | done].
Qed.

Lemma rewrite_js_files_updates (reps : list (string * string)) (paths : list fspath) :
  forall (n : nat) (w : World),
    NoDup paths ->
    (forall p, p ∈ paths -> is_Some (files w !! p)) ->
    exists n' w',
      rewrite_js_files reps paths (n, w) = Some (n', w') /\
      updates (fun _ => rewrite_text reps) paths w w' /\
      ((forall p t, p ∈ paths -> files w !! p = Some t -> rewrite_text reps t = t) ->
       n' = n /\ w' = w).
Proof.
  induction paths as [|p paths IH]; intros n w Hnd Hok.
  { exists n, w. split; [done|]. split; [apply updates_nil | done]. }
  apply NoDup_cons in Hnd as [Hp Hnd].
  destruct (Hok p ltac:(by left)) as [t Ht].
  cbn [rewrite_js_files].
  destruct (rewrite_in_file_updates p reps w t Ht) as (w1 & -> & Hu1 & Hid1).
  cbn [mbind option_bind].
  assert (Hok1 : forall q, q ∈ paths -> is_Some (files w1 !! q)).
  { intros q Hq. apply (updates_same_paths _ _ _ _ Hu1). apply Hok. by right. }
  destruct (IH (if (negb (rewrite_text reps t =? t)%string : bool) then S n else n)
              w1 Hnd Hok1) as (n' & w' & -> & Hu & Hid).
  exists n', w'. split; [done|]. split.
  - by apply (updates_cons _ _ _ w w1 w').
  - intros Hnoop. pose proof (Hnoop p t ltac:(by left) Ht) as E1.
    rewrite E1, String.eqb_refl in Hid. cbn [negb] in Hid.
    specialize (Hid1 E1). subst w1. apply Hid.
    intros q u Hq Hu'. apply (Hnoop q u); [by right | done].
Qed.

End AssetRewriteLoops.

Section DownloadLoops.
Context `{Library}.
Variable env : Env.
Variable assets_dir : fspath.

Lemma dict_set_elem (k v : string) (d : list (string * string)) (kv : string * string) :
  kv ∈ dict_set k v d -> kv = (k, v) \/ kv ∈ d.
Proof.
  induction d as [|[k' v'] d IH]; simpl.
  - intros ->%list_elem_of_singleton. by left.
  - destruct (String.eqb k k').
    + intros [->|Hin]%elem_of_cons; [by left | right; by right].
    + intros [->|Hin]%elem_of_cons; [right; by left|].
      destruct (IH Hin) as [->|?]; [by left | right; by right].
Qed.


Lemma download_assets_run (urls : list string) :
  forall m nd nf w,
    (forall u, u ∈ urls -> is_Some (_safe_filename_from_url u)) ->
    exists m' nd' nf' w',
      download_assets env assets_dir urls (m, nd, nf, w) = Some (m', nd', nf', w') /\
      grows w w' /\ keeps_nonempty w w' /\
      (forall kv, kv ∈ m' -> entry_from urls m kv) /\
      ((forall u fn, u ∈ urls -> _safe_filename_from_url u = Some fn ->
          exists_nonempty (joinpath assets_dir fn) w = true) ->
       w' = w /\ nd' = nd /\ nf' = nf).
Proof.
  induction urls as [|url urls IH]; intros m nd nf w Hname.
  { exists m, nd, nf, w. split; [done|]. split; [apply grows_refl|].
    split; [apply keeps_nonempty_refl|]. split; [|done]. intros kv Hkv. by left. }
  destruct (Hname url ltac:(by left)) as [fn Hfn].
  assert (Hname' : forall u, u ∈ urls -> is_Some (_safe_filename_from_url u)).
  { intros u Hu. apply Hname. by right. }
  assert (Hentry : forall m1 kv, entry_from urls m1 kv ->
            (forall kv', kv' ∈ m1 -> kv' = (url, fn) \/ kv' ∈ m) ->
            entry_from (url :: urls) m kv).
  { intros m1 kv [Hin|[Hu Hf]] Hm1.
    - destruct (Hm1 kv Hin) as [->|?]; [right | by left].
      split; [by left | done].
    - right. split; [by right | done]. }
  cbn [download_assets]. rewrite Hfn. cbn [mbind option_bind].
  destruct (exists_nonempty (joinpath assets_dir fn) w) eqn:Hdest.
  - destruct (IH (dict_set url fn m) nd nf w Hname')
      as (m' & nd' & nf' & w' & -> & Hg & Hk & Hm & Hid).
    exists m', nd', nf', w'. split; [done|]. split; [done|]. split; [done|]. split.
    + intros kv Hkv. apply (Hentry (dict_set url fn m)); [by apply Hm|].
      intros kv'. apply dict_set_elem.
    + intros Hall. apply Hid. intros u fn' Hu. apply Hall. by right.
  - destruct (_download env url (joinpath assets_dir fn) DEFAULT_RETRIES w)
      as [ok w1] eqn:Hd.
    destruct (download_frame env _ _ _ _ _ _ Hdest Hd) as [Hg1 Hk1].
    destruct ok.
    + destruct (IH (dict_set url fn m) (S nd) nf w1 Hname')
        as (m' & nd' & nf' & w' & -> & Hg & Hk & Hm & Hid).
      exists m', nd', nf', w'. split; [done|].
      split; [by apply (grows_trans w w1)|].
      split; [by apply (keeps_nonempty_trans w w1)|]. split.
      * intros kv Hkv. apply (Hentry (dict_set url fn m)); [by apply Hm|].
        intros kv'. apply dict_set_elem.
      * intros Hall. specialize (Hall url fn ltac:(by left) Hfn). congruence.
    + destruct (IH m nd (S nf) w1 Hname')
        as (m' & nd' & nf' & w' & -> & Hg & Hk & Hm & Hid).
      exists m', nd', nf', w'. split; [done|].
      split; [by apply (grows_trans w w1)|].
      split; [by apply (keeps_nonempty_trans w w1)|]. split.
      * intros kv Hkv. apply (Hentry m); [by apply Hm | by right].
      * intros Hall. specialize (Hall url fn ltac:(by left) Hfn). congruence.
Qed.

Lemma download_discovered_run (urls : list string) :
  forall m w,
    (forall u, u ∈ urls -> is_Some (_safe_filename_from_url u)) ->
    exists m' w',
      download_discovered env assets_dir urls (m, w) = Some (m', w') /\
      grows w w' /\ keeps_nonempty w w' /\
      (forall kv, kv ∈ m' -> entry_from urls m kv) /\
      ((forall u fn, u ∈ urls -> _safe_filename_from_url u = Some fn ->
          exists_nonempty (joinpath assets_dir fn) w = true) ->
       w' = w).
Proof.
  induction urls as [|url urls IH]; intros m w Hname.
  { exists m, w. split; [done|]. split; [apply grows_refl|].
    split; [apply keeps_nonempty_refl|]. split; [|done]. intros kv Hkv. by left. }
  destruct (Hname url ltac:(by left)) as [fn Hfn].
  assert (Hname' : forall u, u ∈ urls -> is_Some (_safe_filename_from_url u)).
  { intros u Hu. apply Hname. by right. }
  assert (Hentry : forall m1 kv, entry_from urls m1 kv ->
            (forall kv', kv' ∈ m1 -> kv' = (url, fn) \/ kv' ∈ m) ->
            entry_from (url :: urls) m kv).
  { intros m1 kv [Hin|[Hu Hf]] Hm1.
    - destruct (Hm1 kv Hin) as [->|?]; [right | by left].
      split; [by left | done].
    - right. split; [by right | done]. }
  cbn [download_discovered]. rewrite Hfn. cbn [mbind option_bind].
  destruct (exists_nonempty (joinpath assets_dir fn) w) eqn:Hdest; cbn [negb].
  - destruct (IH (dict_set url fn m) w Hname') as (m' & w' & -> & Hg & Hk & Hm & Hid).
    exists m', w'. split; [done|]. split; [done|]. split; [done|]. split.
    + intros kv Hkv. apply (Hentry (dict_set url fn m)); [by apply Hm|].
      intros kv'. apply dict_set_elem.
    + intros Hall. apply Hid. intros u fn' Hu. apply Hall. by right.
  - destruct (_download env url (joinpath assets_dir fn) DEFAULT_RETRIES w)
      as [ok w1] eqn:Hd.
    destruct (download_frame env _ _ _ _ _ _ Hdest Hd) as [Hg1 Hk1].
    destruct ok; cbn [negb].
    + destruct (IH (dict_set url fn m) w1 Hname') as (m' & w' & -> & Hg & Hk & Hm & Hid).
      exists m', w'. split; [done|].
      split; [by apply (grows_trans w w1)|].
      split; [by apply (keeps_nonempty_trans w w1)|]. split.
      * intros kv Hkv. apply (Hentry (dict_set url fn m)); [by apply Hm|].
        intros kv'. apply dict_set_elem.
      * intros Hall. specialize (Hall url fn ltac:(by left) Hfn). congruence.
    + destruct (IH m w1 Hname') as (m' & w' & -> & Hg & Hk & Hm & Hid).
      exists m', w'. split; [done|].
      split; [by apply (grows_trans w w1)|].
      split; [by apply (keeps_nonempty_trans w w1)|]. split.
      * intros kv Hkv. apply (Hentry m); [by apply Hm | by right].
      * intros Hall. specialize (Hall url fn ltac:(by left) Hfn). congruence.
Qed.

End DownloadLoops.

Section Stages.
Context `{Library}.
Variable env : Env.

Lemma gather_urls_some (paths : list fspath) (w : World) :
  (forall p, p ∈ paths -> is_Some (files w !! p)) ->
  exists urls,
    gather_urls paths w = Some urls /\
    forall u, u ∈ urls ->
      exists p t, p ∈ paths /\ files w !! p = Some t /\ u ∈ _extract_urls_from_text t.
Proof.
  induction paths as [|p paths IH]; intros Hok.
  { exists []. split; [done|]. by intros u ?%elem_of_nil. }
  destruct (Hok p ltac:(by left)) as [t Ht].
  destruct IH as (rest & Hrest & Hin). { intros q Hq. apply Hok. by right. }
  exists (_extract_urls_from_text t ++ rest). split.
  - cbn [gather_urls]. rewrite Ht. cbn [mbind option_bind]. by rewrite Hrest.
  - intros u [Hu|Hu]%elem_of_app.
    + exists p, t. split; [by left | done].
    + destruct (Hin u Hu) as (q & t' & Hq & Ht' & Hu'). exists q, t'.
      split; [by right | done].
Qed.

Lemma discover_css_some (paths : list fspath) (w : World) :
  (forall p, p ∈ paths -> is_Some (files w !! p)) ->
  exists urls,
    discover_css paths w = Some urls /\
    forall u, u ∈ urls ->
      exists p t, p ∈ paths /\ files w !! p = Some t /\ u ∈ css_references t.
Proof.
  induction paths as [|p paths IH]; intros Hok.
  { exists []. split; [done|]. by intros u ?%elem_of_nil. }
  destruct (Hok p ltac:(by left)) as [t Ht].
  destruct IH as (rest & Hrest & Hin). { intros q Hq. apply Hok. by right. }
  exists (css_references t ++ rest). split.
  - cbn [discover_css]. rewrite Ht. cbn [mbind option_bind]. by rewrite Hrest.
  - intros u [Hu|Hu]%elem_of_app.
    + exists p, t. split; [by left | done].
    + destruct (Hin u Hu) as (q & t' & Hq & Ht' & Hu'). exists q, t'.
      split; [by right | done].
Qed.

(** The stages determine what [localize] returns. *)
Lemma localize_of_stages (site_root : fspath) (html_files : list fspath) (w : World)
    (s : Stages) :
  stages_of env site_root html_files w s ->
  localize env site_root html_files w = Some (report_of s, w5 s).
Proof.
  intros ((urls & Hurls & Hasset) & Hd1 & Hh & Hcss & Hjs
          & (from_css & from_js & Hfc & Hfj & Hdisc) & Hd2 & Hrc & Hrj).
  unfold localize. rewrite Hurls. cbn [mbind option_bind].
  rewrite <- Hasset, Hd1. cbn [mbind option_bind].
  rewrite Hh. cbn [mbind option_bind].
  rewrite <- Hcss, <- Hjs, Hfc. cbn [mbind option_bind].
  rewrite Hfj. cbn [mbind option_bind].
  rewrite <- Hdisc, Hd2. cbn [mbind option_bind].
  rewrite Hrc. cbn [mbind option_bind].
  rewrite Hrj. cbn [mbind option_bind]. reflexivity.
Qed.

Lemma asset_urls_named (urls : list string) (u : string) :
  u ∈ sorted_set (filter (fun u => _is_asset_url u = true) urls) ->
  u ∈ urls /\ _is_asset_url u = true /\ is_Some (_safe_filename_from_url u).
Proof.
  intros Hu. apply elem_of_sorted_set, list_elem_of_filter in Hu as [Ha Hu].
  split; [done|]. split; [done|].
  apply is_asset_url_tests in Ha as (parsed & Hp & _).
  destruct (safe_filename_shape u parsed Hp) as (name & -> & _). by eexists.
Qed.

End Stages.

Section StagesRun.
Context `{Library}.
Variable env : Env.

(** Every run over pages that exist below the root goes through all its
    stages. *)
Lemma stages_run (site_root : fspath) (html_files : list fspath) (w : World) :
  NoDup html_files ->
  (forall p, p ∈ html_files -> is_Some (files w !! p) /\ strictly_below site_root p = true) ->
  exists s,
    stages_of env site_root html_files w s /\ stage_facts site_root html_files w s.
Proof.
  intros Hnd Hok. set (assets_dir := site_root ++ ["assets"]).
  (* step 1 *)
  destruct (gather_urls_some html_files w) as (urls & Hurls & Hfrom).
  { intros p Hp. by apply Hok. }
  set (aurls := sorted_set (filter (fun u => _is_asset_url u = true) urls)).
  assert (Haurls : forall u, u ∈ aurls ->
            u ∈ urls /\ _is_asset_url u = true /\ is_Some (_safe_filename_from_url u)).
  { intros u. apply asset_urls_named. }
  (* step 2 *)
  destruct (download_assets_run env assets_dir aurls [] 0 0 w)
    as (m1 & nd & nf & w1 & Hd1 & Hg1 & Hk1 & Hm1 & Hid1).
  { intros u Hu. by apply Haurls. }
  (* step 3 *)
  destruct (rewrite_html_files_updates site_root (html_targets m1) html_files 0 w1 Hnd)
    as (nh & w2 & Hh & Hu2 & Hid2).
  { intros p Hp. destruct (Hok p Hp). split; [by apply Hg1 | done]. }
  (* step 4 *)
  set (cssf := _iter_files assets_dir [".css"] w2).
  set (jsf := _iter_files assets_dir [".js"] w2).
  destruct (discover_css_some cssf w2) as (from_css & Hfc & Hfrom_css).
  { intros p Hp. by apply elem_of_iter_files in Hp as [? _]. }
  destruct (gather_urls_some jsf w2) as (from_js & Hfj & Hfrom_js).
  { intros p Hp. by apply elem_of_iter_files in Hp as [? _]. }
  set (durls := sorted_set (filter (fun u => _is_asset_url u = true) (from_css ++ from_js))).
  assert (Hdurls : forall u, u ∈ durls ->
            u ∈ from_css ++ from_js /\ _is_asset_url u = true
            /\ is_Some (_safe_filename_from_url u)).
  { intros u. apply asset_urls_named. }
  destruct (download_discovered_run env assets_dir durls m1 w2)
    as (m2 & w3 & Hd2 & Hg3 & Hk3 & Hm2 & Hid3).
  { intros u Hu. by apply Hdurls. }
  destruct (rewrite_css_files_updates m2 cssf 0 w3 (NoDup_iter_files _ _ _))
    as (nc & w4 & Hrc & Hu4 & Hid4).
  { intros p Hp. apply Hg3. by apply elem_of_iter_files in Hp as [? _]. }
  destruct (rewrite_js_files_updates m2 jsf 0 w4 (NoDup_iter_files _ _ _))
    as (nj & w5 & Hrj & Hu5 & Hid5).
  { intros p Hp. apply (updates_same_paths _ _ _ _ Hu4). apply Hg3.
    by apply elem_of_iter_files in Hp as [? _]. }
  exists {| asset_urls := aurls; map1 := m1; ndown := nd; nfail := nf; w1 := w1;
            nhtml := nh; w2 := w2; css_files := cssf; js_files := jsf;
            discovered_urls := durls; map2 := m2; w3 := w3; ncss := nc; w4 := w4;
            njs := nj; w5 := w5 |}.
  split.
  - unfold stages_of. simpl. split; [by exists urls|]. split; [done|].
    split; [done|]. split; [done|]. split; [done|].
    split; [by exists from_css, from_js|]. done.
  - constructor; simpl; try done.
    + intros u Hu. destruct (Haurls u Hu) as (Hin & Ha & _). split; [done|].
      by apply Hfrom.
    + intros kv Hkv. destruct (Hm1 kv Hkv) as [Hnil|?]; [|done].
      by apply elem_of_nil in Hnil.
    + intros u Hu. destruct (Hdurls u Hu) as (Hin & Ha & _). split; [done|].
      apply elem_of_app in Hin as [Hin|Hin]; [left | right].
      * by apply Hfrom_css.
      * by apply Hfrom_js.
Qed.

End StagesRun.

Section MainCases.
Context `{Library}.
Variable env : Env.

Lemma iter_files_ok (site_root : fspath) (w : World) (p : fspath) :
  p ∈ _iter_files site_root [".html"] w ->
  is_Some (files w !! p) /\ strictly_below site_root p = true.
Proof. intros Hp. by apply elem_of_iter_files in Hp as (? & ? & _). Qed.

(** With arguments that pass the three checks, [main] goes through the
    stages and ends with exit code 0. *)
Lemma main_stages (prog arg : string) (w : World) :
  stat env (resolve env arg) = Directory ->
  _iter_files (resolve env arg) [".html"] w <> [] ->
  exists s,
    stages_of env (resolve env arg) (_iter_files (resolve env arg) [".html"] w) w s /\
    stage_facts (resolve env arg) (_iter_files (resolve env arg) [".html"] w) w s /\
    main env [prog; arg] w = Some (0%Z, Some (report_of s), w5 s).
Proof.
  intros Hdir Hhtml.
  destruct (stages_run env (resolve env arg) (_iter_files (resolve env arg) [".html"] w) w)
    as (s & Hs & Hf).
  { apply NoDup_iter_files. }
  { apply iter_files_ok. }
  exists s. split; [done|]. split; [done|].
  unfold main. rewrite Hdir.
  destruct (_iter_files (resolve env arg) [".html"] w) as [|f fs] eqn:Hl; [done|].
  by rewrite (localize_of_stages env _ _ _ s Hs).
Qed.



End MainCases.

Section ReplacementFacts.




End ReplacementFacts.

Section FailureCount.
Context `{Library}.
Variable env : Env.
Variable assets_dir : fspath.




End FailureCount.

(* ===================================================================== *)
(** * Failed downloads and exit codes *)
(* ===================================================================== *)

Section Failures.
Context `{Library}.
Variable env : Env.



End Failures.



(* ===================================================================== *)
(** * Stylesheets and scripts kept in the assets directory *)
(* ===================================================================== *)

Section AssetsDirectory.
Context `{Library}.

Lemma contains_first_char (c : ascii) (k t : string) :
  Py.mem_char c t = false -> Py.contains (String c k) t = false.
Proof.
  intros Hc. apply contains_false. intros a b Ht.
  assert (Hin : Py.mem_char c (a +:+ String c k +:+ b) = true); [|congruence].
  clear Hc Ht. induction a as [|d a IH].
  - rewrite str_app_nil_l, str_app_cons. simpl. by rewrite Ascii.eqb_refl.
  - rewrite str_app_cons. simpl. by rewrite IH, orb_true_r.
Qed.

Lemma replace_keeps_h (old new r : string) :
  Py.startswith old (String "h" r) = false ->
  exists r', Py.replace_from old new 0 (String "h" r) = String "h" r'.
Proof. intros Hs. cbn [Py.replace_from]. rewrite Hs. by eexists. Qed.

Lemma html_escape_keeps_h (r : string) : exists r', Py.html_escape (String "h" r) = String "h" r'.
Proof.
  unfold Py.html_escape, Py.replace, Py.dquote. cbn [Py.is_empty].
  destruct (replace_keeps_h "&" "&amp;" r eq_refl) as [r1 ->].
  destruct (replace_keeps_h "<" "&lt;" r1 eq_refl) as [r2 ->].
  destruct (replace_keeps_h ">" "&gt;" r2 eq_refl) as [r3 ->].
  destruct (replace_keeps_h (String "034" "") "&quot;" r3 eq_refl) as [r4 ->].
  apply (replace_keeps_h "'" "&#x27;" r4 eq_refl).
Qed.


Lemma startswith_ci_first (c : ascii) (lit s : string) :
  startswith_ci (String c lit) s = true ->
  exists d r, s = String d r /\ Py.lower_char d = c.
Proof.
  destruct s as [|d r]; [done|]. simpl. intros [E _]%andb_true_iff.
  apply Ascii.eqb_eq in E. eauto.
Qed.

Lemma lower_char_h (d : ascii) : Py.lower_char d = "h"%char -> d = "h"%char \/ d = "H"%char.
Proof. destruct d as [[] [] [] [] [] [] [] []]; vm_compute; intros E; auto; discriminate. Qed.

Lemma broken_match_needs_h (s : string) (m : string * string) :
  BROKEN_LOCAL_ASSET_RE_match s = Some m ->
  exists d r, s = String d r /\ (d = "h"%char \/ d = "H"%char).
Proof.
  unfold BROKEN_LOCAL_ASSET_RE_match. intros Hm.
  destruct (startswith_ci "https://videa-saversion.webflow.io/" s) eqn:E8.
  { apply startswith_ci_first in E8 as (d & r & -> & Hd). exists d, r.
    split; [done | by apply lower_char_h]. }
  destruct (startswith_ci "http://videa-saversion.webflow.io/" s) eqn:E7; [|done].
  apply startswith_ci_first in E7 as (d & r & -> & Hd). exists d, r.
  split; [done | by apply lower_char_h].
Qed.



(** What is extracted or found in a stylesheet begins with h. *)
Lemma extracted_begins_h (t u : string) :
  u ∈ _extract_urls_from_text t -> exists r, u = String "h" r.
Proof.
  intros Hu. apply (URL_RE_findall_sound _ 0) in Hu
    as (pre & scheme & body & post & (_ & [-> | ->] & _) & ->); by eexists.
Qed.


Lemma safe_filename_safe (u n : string) :
  _safe_filename_from_url u = Some n -> Py.forallb_chars safe_char n = true.
Proof.
  intros Hn. destruct (Url.urlparse u) as [parsed|] eqn:Hparse.
  - destruct (safe_filename_shape u parsed Hparse) as (n' & Hn' & Hsafe & _). congruence.
  - unfold _safe_filename_from_url in Hn. by rewrite Hparse in Hn.
Qed.



Section Run.
Variables (site_root : fspath) (html_files : list fspath) (w : World) (s : Stages).
Hypothesis Hfacts : stage_facts site_root html_files w s.







End Run.


End AssetsDirectory.


(* ===================================================================== *)
(** * A run on a settled site *)
(* ===================================================================== *)

Section Settled.
Context `{Library}.
Variable env : Env.






End Settled.



(* ===================================================================== *)
(** * The branding rewriter with and without [--apply] *)
(* ===================================================================== *)

Section DryRun.
Variable apply_rewrites : string -> string.
Variables (basename_map stem_map : list (string * string)).

Lemma process_pages_dry (pages : list (fspath * string)) :
  forall (n : nat) (w : World),
    snd (fold_left (Branding.process_page apply_rewrites false basename_map stem_map)
                   pages (n, w)) = w.
Proof.
  induction pages as [|[path original] pages IH]; intros n w; [reflexivity|].
  cbn [fold_left Branding.process_page].
  destruct (negb _); apply IH.
Qed.

(** The counter does not look at the world. *)
Lemma process_pages_count (pages : list (fspath * string)) :
  forall (a b : bool) (n : nat) (w1 w2 : World),
    fst (fold_left (Branding.process_page apply_rewrites a basename_map stem_map)
                   pages (n, w1))
    = fst (fold_left (Branding.process_page apply_rewrites b basename_map stem_map)
                     pages (n, w2)).
Proof.
  induction pages as [|[path original] pages IH]; intros a b n w1 w2; [reflexivity|].
  cbn [fold_left Branding.process_page].
  destruct (negb _); apply IH.
Qed.

(** Only the pages are written. *)
Lemma process_pages_frame (pages : list (fspath * string)) (a : bool) (p : fspath) :
  p ∉ map fst pages ->
  forall (n : nat) (w : World),
    files (snd (fold_left (Branding.process_page apply_rewrites a basename_map stem_map)
                          pages (n, w))) !! p
    = files w !! p.
Proof.
  induction pages as [|[path original] pages IH]; intros Hp n w; [reflexivity|].
  cbn [fold_left Branding.process_page].
  assert (Hne : path <> p).
  { intros ->. apply Hp. simpl. by left. }
  assert (Hp' : p ∉ map fst pages).
  { intros Hin. apply Hp. simpl. by right. }
  destruct (negb _); [|by apply IH].
  destruct a; [|by apply IH].
  rewrite IH by done. rewrite write_text_lookup. by rewrite decide_False.
Qed.

End DryRun.

Lemma bundle_is_no_page (site_root : fspath) (w : World) :
  site_root ++ ["assets"; "videa-saversion.9b1352011.css"]
  ∉ map fst (Branding.iter_html_files site_root w).
Proof.
  intros Hin. rewrite map_is_fmap in Hin. apply list_elem_of_fmap in Hin as ([p t] & Hp & Hin).
  simpl in Hp. subst p. unfold Branding.iter_html_files in Hin.
  apply list_elem_of_filter in Hin as [[_ Hend] _]. simpl in Hend.
  replace (site_root ++ ["assets"; "videa-saversion.9b1352011.css"])
    with ((site_root ++ ["assets"]) ++ ["videa-saversion.9b1352011.css"]) in Hend
    by (by rewrite <- app_assoc).
  rewrite last_last in Hend. by vm_compute in Hend.
Qed.

(** X1. Without [--apply] the branding rewriter leaves every file as it
    is, whatever the rewrites do and whether the run is stopped or not:
    no page is written, the stylesheet bundle is not written, nothing is
    renamed. *)
Theorem dry_run_writes_nothing (apply_rewrites : string -> string) (site_root : fspath)
    (root_exists : bool) (w : World) :
  snd (Branding.main apply_rewrites site_root root_exists false w) = w.
Proof.
  unfold Branding.main. destruct root_exists; [|reflexivity]. cbn [negb].
  destruct (Branding.validate_rename_map w _); [reflexivity|].
  match goal with
  | |- context [fold_left (Branding.process_page _ false ?bm ?sm) ?l ?a] =>
      pose proof (process_pages_dry apply_rewrites bm sm l 0 w) as Hdry;
      destruct (fold_left (Branding.process_page _ false bm sm) l a) as [n w']
  end.
  simpl in Hdry. subst w'.
  destruct (files w !! _); [|reflexivity]. by destruct (negb _).
Qed.

(** X2. The branding rewriter reports the same thing with and without
    [--apply]: the same reason when the run is stopped, and otherwise the
    same number of changed text files, so a dry run announces exactly the
    number of files that applying will write. *)
Theorem dry_run_counts_what_apply_writes (apply_rewrites : string -> string)
    (site_root : fspath) (root_exists : bool) (w : World) :
  fst (Branding.main apply_rewrites site_root root_exists true w)
  = fst (Branding.main apply_rewrites site_root root_exists false w).
Proof.
  unfold Branding.main. destruct root_exists; [|reflexivity]. cbn [negb].
  destruct (Branding.validate_rename_map w _); [reflexivity|].
  match goal with
  | |- context [fold_left (Branding.process_page _ true ?bm ?sm) ?l ?a] =>
      pose proof (process_pages_count apply_rewrites bm sm l true false 0 w w) as Hcount;
      pose proof (process_pages_frame apply_rewrites bm sm l true _
                    (bundle_is_no_page site_root w) 0 w) as Hcss1;
      pose proof (process_pages_frame apply_rewrites bm sm l false _
                    (bundle_is_no_page site_root w) 0 w) as Hcss2;
      destruct (fold_left (Branding.process_page _ true bm sm) l a) as [n1 w1];
      destruct (fold_left (Branding.process_page _ false bm sm) l a) as [n2 w2]
  end.
  simpl in Hcount, Hcss1, Hcss2. subst n2. rewrite Hcss1, Hcss2.
  destruct (files w !! _); [|reflexivity]. by destruct (negb _).
Qed.

(* ===================================================================== *)
(** * The rename plan *)
(* ===================================================================== *)

Section PlanShape.
Variable w : World.





Lemma elem_of_news_glob (news p : fspath) :
  p ∈ Branding.news_glob news w <->
  is_Some (files w !! p) /\ removelast p = news /\ p <> [] /\
  Branding.matches_news_pattern (List.last p "") = true.
Proof.
  unfold Branding.news_glob. rewrite list_elem_of_filter, map_is_fmap, list_elem_of_fmap.
  split.
  - intros [(? & ? & ?) ([q t] & -> & Hin)]. apply elem_of_map_to_list in Hin.
    split; [by eexists | done].
  - intros ([t Ht] & ? & ? & ?). split; [done|]. exists (p, t). split; [done|].
    by apply elem_of_map_to_list.
Qed.


End PlanShape.


(* ===================================================================== *)
(** * New names of news pages *)
(* ===================================================================== *)

Section NewsNames.

Lemma contains_cons (p : string) (c : ascii) (r : string) :
  Py.contains p (String c r) = Py.startswith p (String c r) || Py.contains p r.
Proof.
  unfold Py.contains. cbn [Py.find].
  destruct (Py.startswith p (String c r)); [done|]. by destruct (Py.find p r).
Qed.

Lemma squeeze_dashes_other (c : ascii) (r : string) :
  c <> "-"%char ->
  Branding.squeeze_dashes (String c r) = String c (Branding.squeeze_dashes r).
Proof. destruct c as [[] [] [] [] [] [] [] []]; intros Hc; try reflexivity; done. Qed.

Lemma squeeze_dashes_single (r : string) :
  Py.startswith "-" r = false ->
  Branding.squeeze_dashes (String "-" r) = String "-" (Branding.squeeze_dashes r).
Proof.
  destruct r as [|d r]; [reflexivity|]. cbn [Py.startswith]. intros Hd.
  apply andb_false_iff in Hd as [Hd|Hd]; [|done].
  apply Ascii.eqb_neq in Hd. destruct d as [[] [] [] [] [] [] [] []]; try reflexivity; done.
Qed.

Lemma squeeze_dashes_facts (s : string) :
  Py.contains "--" (Branding.squeeze_dashes s) = false /\
  Py.startswith "-" (Branding.squeeze_dashes s) = Py.startswith "-" s.
Proof.
  induction s as [|c r [IHc IHs]]; [done|].
  destruct (Ascii.eqb_spec c "-") as [->|Hc].
  - destruct (Py.startswith "-" r) eqn:Hr.
    + destruct r as [|d r]; [done|]. cbn [Py.startswith] in Hr.
      apply andb_true_iff in Hr as [Hd _]. apply Ascii.eqb_eq in Hd. subst d.
      change (Branding.squeeze_dashes (String "-" (String "-" r)))
        with (Branding.squeeze_dashes (String "-" r)). by rewrite IHs.
    + rewrite squeeze_dashes_single by done. split; [|reflexivity].
      rewrite contains_cons, IHc, orb_false_r.
      change (Py.startswith "--" (String "-" (Branding.squeeze_dashes r)))
        with (Ascii.eqb "-" "-" && Py.startswith "-" (Branding.squeeze_dashes r)).
      by rewrite IHs.
  - rewrite squeeze_dashes_other by done. split.
    + rewrite contains_cons, IHc, orb_false_r. cbn [Py.startswith].
      apply Ascii.eqb_neq in Hc. rewrite Ascii.eqb_sym in Hc. by rewrite Hc.
    + cbn [Py.startswith]. apply Ascii.eqb_neq in Hc. rewrite Ascii.eqb_sym in Hc.
      by rewrite Hc.
Qed.

Lemma squeeze_dashes_fixed (s : string) :
  Py.contains "--" s = false -> Branding.squeeze_dashes s = s.
Proof.
  induction s as [|c r IH]; [done|]. rewrite contains_cons. intros Hc.
  apply orb_false_iff in Hc as [Hstart Hr]. specialize (IH Hr).
  destruct (Ascii.eqb_spec c "-") as [->|Hne].
  - rewrite squeeze_dashes_single; [by rewrite IH|].
    cbn [Py.startswith] in Hstart. rewrite Ascii.eqb_refl in Hstart. cbn [andb] in Hstart.
    destruct r as [|d r]; [done|]. cbn [Py.startswith] in Hstart |- *.
    by rewrite andb_true_r in *.
  - rewrite squeeze_dashes_other by done. by rewrite IH.
Qed.

End NewsNames.

(** X4. The new name of a news page never holds two dashes in a row,
    whatever the old name was. *)
Theorem news_name_has_no_double_dash (name : string) :
  Py.contains "--" (Branding.news_new_name name) = false.
Proof. unfold Branding.news_new_name. apply squeeze_dashes_facts. Qed.

(* ===================================================================== *)
(** * A news page that keeps its name *)
(* ===================================================================== *)

Section KeptName.

Lemma contains_inside (a p b s : string) :
  Py.contains p s = false -> Py.contains (a +:+ p +:+ b) s = false.
Proof.
  rewrite !contains_false. intros Hp x y Hs. apply (Hp (x +:+ a) (b +:+ y)).
  rewrite Hs. by rewrite !str_app_assoc.
Qed.

Lemma news_name_kept (name : string) :
  Py.contains "videahealth-" name = false ->
  Py.contains "-videahealth" name = false ->
  Py.contains "--" name = false ->
  Branding.news_new_name name = name.
Proof.
  intros Hafter Hbefore Hdd. unfold Branding.news_new_name.
  rewrite (replace_absent "-with-videahealth-to-" "-to-" name); [|done|].
  2: { exact (contains_inside "-with" "-videahealth" "-to-" name Hbefore). }
  rewrite (replace_absent "-videahealth-" "-" name); [|done|].
  2: { exact (contains_inside "" "-videahealth" "-" name Hbefore). }
  rewrite (replace_absent "videahealth-" "" name) by done.
  rewrite (replace_absent "-videahealth" "" name) by done.
  by apply squeeze_dashes_fixed.
Qed.

Lemma plan_set_here (k v : fspath) (m : list (fspath * fspath)) :
  (k, v) ∈ Branding.plan_set k v m.
Proof.
  induction m as [|[k' v'] m IH]; simpl; [by left|].
  destruct (bool_decide (k = k')); [by left | by right].
Qed.

Lemma plan_set_keeps (k v k' v' : fspath) (m : list (fspath * fspath)) :
  k' <> k -> (k', v') ∈ m -> (k', v') ∈ Branding.plan_set k v m.
Proof.
  intros Hne. induction m as [|[k0 v0] m IH]; simpl; intros Hin.
  - by apply elem_of_nil in Hin.
  - apply elem_of_cons in Hin as [[= <- <-]|Hin].
    + rewrite bool_decide_eq_false_2 by congruence. by left.
    + destruct (bool_decide (k = k0)); [by right | right; by apply IH].
Qed.

(** Every key of a dictionary filled by a loop has the value the loop
    computes from the key. *)
Lemma fold_plan_set_mem (g : fspath -> fspath) (p : fspath) (l : list fspath) :
  forall m,
    p ∈ l \/ (p, g p) ∈ m ->
    (p, g p) ∈ fold_left (fun m x => Branding.plan_set x (g x) m) l m.
Proof.
  induction l as [|x l IH]; intros m Hp; cbn [fold_left].
  - destruct Hp as [Hp|Hp]; [by apply elem_of_nil in Hp | done].
  - apply IH. destruct (decide (x = p)) as [->|Hne].
    + right. apply plan_set_here.
    + destruct Hp as [Hp|Hp].
      * apply elem_of_cons in Hp as [->|Hp]; [done | by left].
      * right. by apply plan_set_keeps.
Qed.

End KeptName.

(** X5. A page in the [news] directory whose name matches
    [*videahealth*.html] but holds neither [videahealth-] nor
    [-videahealth] nor two dashes in a row gets its own name as new name;
    the plan then holds a rename of the page onto itself, and the run
    stops with a complaint before anything is written or renamed, with or
    without [--apply]. *)
Theorem kept_news_name_stops_run (apply_rewrites : string -> string) (site_root : fspath)
    (apply : bool) (w : World) (name : string) :
  is_Some (files w !! (site_root ++ ["news"; name])) ->
  Branding.matches_news_pattern name = true ->
  Py.contains "videahealth-" name = false ->
  Py.contains "-videahealth" name = false ->
  Py.contains "--" name = false ->
  (site_root ++ ["news"; name], site_root ++ ["news"; name])
    ∈ Branding.build_rename_map site_root w /\
  exists reason,
    Branding.main apply_rewrites site_root true apply w = (inl reason, w).
Proof.
  intros Hfile Hmatch Hafter Hbefore Hdd.
  set (p := site_root ++ ["news"; name]).
  assert (Hp : p = (site_root ++ ["news"]) ++ [name]).
  { unfold p. by rewrite <- app_assoc. }
  assert (Hglob : p ∈ Branding.news_glob (site_root ++ ["news"]) w).
  { apply elem_of_news_glob. split; [done|]. rewrite Hp, removelast_last, last_last.
    split; [done|]. split; [by destruct (site_root ++ ["news"]) | done]. }
  assert (Hself : Branding.with_name p (Branding.news_new_name (List.last p "")) = p).
  { unfold Branding.with_name. rewrite Hp, removelast_last, last_last.
    by rewrite news_name_kept. }
  assert (Hin : (p, p) ∈ Branding.build_rename_map site_root w).
  { unfold Branding.build_rename_map. rewrite <- Hself at 2.
    apply (fold_plan_set_mem
             (fun x => Branding.with_name x (Branding.news_new_name (List.last x "")))).
    by left. }
  split; [exact Hin|].
  unfold Branding.main. cbn [negb].
  destruct (Branding.validate_rename_map w (Branding.build_rename_map site_root w))
    as [reason|] eqn:Hv; [by exists reason|].
  exfalso. apply validate_rename_map_none in Hv as [Hfine _].
  rewrite Forall_forall in Hfine. by destruct (Hfine _ Hin) as [Hne _].
Qed.

Lemma kept_news_name_stops_run_witness :
  (["site"; "news"; "xvideahealthx.html"], ["site"; "news"; "xvideahealthx.html"])
    ∈ Branding.build_rename_map ["site"] noop_site /\
  exists reason,
    Branding.main (fun text => text) ["site"] true true noop_site = (inl reason, noop_site).
Proof.
  apply (kept_news_name_stops_run (fun text => text) ["site"] true noop_site
           "xvideahealthx.html").
  - vm_compute. by eexists.
  - by vm_compute.
  - by vm_compute.
  - by vm_compute.
  - by vm_compute.
Defined.

(* ===================================================================== *)
(** * The renames *)
(* ===================================================================== *)

Section Renames.

Lemma rename_file_lookup (src dst p : fspath) (w : World) :
  files (Branding.rename_file src dst w) !! p
  = match files w !! src with
    | Some t => if decide (dst = p) then Some t
                else if decide (src = p) then None else files w !! p
    | None => files w !! p
    end.
Proof.
  unfold Branding.rename_file. destruct (files w !! src) as [t|] eqn:Hs; [|done].
  simpl. rewrite lookup_insert. destruct (decide (dst = p)); [done|].
  rewrite lookup_delete. by destruct (decide (src = p)).
Qed.

Lemma renames_in_order (l : list (fspath * fspath)) :
  forall w,
    NoDup (map fst l) -> NoDup (map snd l) ->
    (forall d, d ∈ map snd l -> d ∉ map fst l) ->
    let w' := fold_left (fun w sd => Branding.rename_file (fst sd) (snd sd) w) l w in
    (forall s d, (s, d) ∈ l ->
       files w' !! d = (if files w !! s is Some t then Some t else files w !! d) /\
       files w' !! s = None) /\
    (forall p, p ∉ map fst l -> p ∉ map snd l -> files w' !! p = files w !! p).
Proof.
  induction l as [|[s0 d0] l IH]; intros w Hsrc Hdst Hdisj; cbn zeta.
  { split; [|done]. intros s d Hin. by apply elem_of_nil in Hin. }
  cbn [fold_left fst snd]. cbn [map fst snd] in Hsrc, Hdst, Hdisj.
  apply NoDup_cons in Hsrc as [Hs0 Hsrc]. apply NoDup_cons in Hdst as [Hd0 Hdst].
  assert (Hsd0 : s0 <> d0).
  { intros ->. apply (Hdisj d0); by left. }
  assert (Hd0s : d0 ∉ map fst l).
  { intros Hin. apply (Hdisj d0); [by left | by right]. }
  assert (Hs0d : s0 ∉ map snd l).
  { intros Hin. apply (Hdisj s0); [by right | by left]. }
  destruct (IH (Branding.rename_file s0 d0 w) Hsrc Hdst) as [Hmoved Hframe].
  { intros d Hd Hin. apply (Hdisj d); by right. }
  cbn zeta in Hmoved, Hframe. split.
  - intros s d Hin. apply elem_of_cons in Hin as [[= -> ->]|Hin].
    + rewrite !Hframe by done. rewrite !rename_file_lookup.
      destruct (files w !! s0) as [t|] eqn:Ht.
      * rewrite decide_True by done. split; [done|].
        rewrite decide_False by congruence. by rewrite decide_True.
      * done.
    + assert (Hs : s ∈ map fst l).
      { rewrite map_is_fmap. apply list_elem_of_fmap. by exists (s, d). }
      assert (Hd : d ∈ map snd l).
      { rewrite map_is_fmap. apply list_elem_of_fmap. by exists (s, d). }
      assert (Hds : d ∉ map fst l).
      { intros Hx. apply (Hdisj d); by right. }
      destruct (Hmoved s d Hin) as [Hatd Hats]. split; [|done].
      rewrite Hatd, !rename_file_lookup.
      destruct (files w !! s0) as [t|] eqn:Ht; [|done].
      rewrite !(decide_False (P := d0 = s)) by congruence.
      rewrite !(decide_False (P := s0 = s)) by congruence.
      rewrite !(decide_False (P := d0 = d)) by congruence.
      rewrite !(decide_False (P := s0 = d)) by congruence.
      done.
  - intros p Hps Hpd. cbn [map fst snd] in Hps, Hpd.
    apply not_elem_of_cons in Hps as [Hps0 Hps]. apply not_elem_of_cons in Hpd as [Hpd0 Hpd].
    rewrite Hframe by done. rewrite rename_file_lookup.
    destruct (files w !! s0); [|done].
    rewrite decide_False by congruence. by rewrite decide_False by congruence.
Qed.

Lemma insert_by_len_perm (x : fspath * fspath) (l : list (fspath * fspath)) :
  Branding.insert_by_len x l ≡ₚ x :: l.
Proof.
  induction l as [|y l IH]; simpl; [done|].
  destruct (_ <? _); [done|]. rewrite IH. apply Permutation_swap.
Qed.

Lemma longest_first_perm (l : list (fspath * fspath)) : Branding.longest_first l ≡ₚ l.
Proof.
  unfold Branding.longest_first.
  assert (G : forall acc, fold_left (fun acc x => Branding.insert_by_len x acc) l acc ≡ₚ l ++ acc).
  { induction l as [|x l IH]; intros acc; cbn [fold_left]; [done|].
    rewrite IH, insert_by_len_perm. simpl.
    first [apply Permutation_middle | symmetry; apply Permutation_middle]. }
  by rewrite G, app_nil_r.
Qed.

End Renames.

(** X6. When no source is planned twice, no destination is planned twice
    and no destination is itself a source, the renames - applied longest
    source path first, as [main] does with [--apply] - leave every
    destination with the text its source had, remove every source that
    existed, pass over a source that does not exist, and touch no other
    file. *)
Theorem renames_move_contents (plan : list (fspath * fspath)) (w : World) :
  NoDup (map fst plan) -> NoDup (map snd plan) ->
  (forall d, d ∈ map snd plan -> d ∉ map fst plan) ->
  (forall s d, (s, d) ∈ plan ->
     files (fold_left (fun w sd => Branding.rename_file (fst sd) (snd sd) w)
                      (Branding.longest_first plan) w) !! d
     = (if files w !! s is Some t then Some t else files w !! d) /\
     files (fold_left (fun w sd => Branding.rename_file (fst sd) (snd sd) w)
                      (Branding.longest_first plan) w) !! s = None) /\
  (forall p, p ∉ map fst plan -> p ∉ map snd plan ->
     files (fold_left (fun w sd => Branding.rename_file (fst sd) (snd sd) w)
                      (Branding.longest_first plan) w) !! p
     = files w !! p).
Proof.
  intros Hsrc Hdst Hdisj.
  pose proof (longest_first_perm plan) as Hperm.
  destruct (renames_in_order (Branding.longest_first plan) w) as [Hmoved Hframe].
  - by rewrite Hperm.
  - by rewrite Hperm.
  - intros d. rewrite Hperm. apply Hdisj.
  - cbn zeta in Hmoved, Hframe. split.
    + intros s d Hin. apply Hmoved. by rewrite Hperm.
    + intros p Hps Hpd. apply Hframe; by rewrite Hperm.
Qed.

(* ===================================================================== *)
(** * The listing of files *)
(* ===================================================================== *)

Section ListingOrder.

Lemma path_le_total (p q : fspath) : path_le p q \/ path_le q p.
Proof.
  unfold path_le. revert q. induction p as [|a p IH]; intros q; [by left|].
  destruct q as [|b q]; [by right|]. simpl.
  rewrite (String.compare_antisym b a).
  destruct (String.compare a b) eqn:E; simpl; [apply IH | by left | by right].
Qed.

End ListingOrder.

(** X7. [_iter_files] lists, each once and in the order of paths (part by
    part, each part as a string), exactly the files strictly below the
    root whose suffix in lower case is one of the suffixes asked for; the
    root itself and directories are never listed. *)
Theorem iter_files_lists_sorted (root : fspath) (suffixes : list string) (w : World) :
  Sorted path_le (_iter_files root suffixes w) /\
  NoDup (_iter_files root suffixes w) /\
  (forall p, p ∈ _iter_files root suffixes w <->
     is_Some (files w !! p) /\ strictly_below root p = true /\
     Py.lower (path_suffix p) ∈ suffixes) /\
  root ∉ _iter_files root suffixes w.
Proof.
  split; [|split; [|split]].
  - unfold _iter_files. apply Sorted_merge_sort. intros p q. apply path_le_total.
  - apply NoDup_iter_files.
  - intros p. apply elem_of_iter_files.
  - intros Hin. apply elem_of_iter_files in Hin as (_ & Hbelow & _).
    clear -Hbelow. induction root as [|a root IH]; [done|].
    simpl in Hbelow. apply andb_true_iff in Hbelow as [_ Hbelow]. by apply IH.
Qed.

(* ===================================================================== *)
(** * The attempts of one download *)
(* ===================================================================== *)

Section Attempts.
Variables (env : Env) (url : string) (dest : fspath) (retries : Z).

Lemma repeat_snoc_app {A : Type} (x : A) (n : nat) (l : list A) :
  repeat x n ++ x :: l = repeat x (S n) ++ l.
Proof. induction n as [|n IH]; [done|]. simpl. by rewrite IH. Qed.

Lemma download_attempts_bounds (k : nat) :
  forall (a : Z) (w : World),
    (retries + 1 - a = Z.of_nat k)%Z ->
    exists (n : nat) (ok : bool) (w' : World),
      download_attempts env url dest retries (seqZ a (Z.of_nat k)) w = (ok, w') /\
      n <= k /\ (1 <= k -> 1 <= n) /\
      requests w' = repeat url n ++ requests w /\
      sleeps w' = rev (seqZ (1 + a) (Z.of_nat n - 1)) ++ sleeps w /\
      (ok = false -> files w' = files w) /\
      (ok = true ->
       exists data,
         urlopen env (length (requests w) + (n - 1)) url = Body data /\
         files w' = <[dest := data]> (files w)).
Proof.
  induction k as [|k IH]; intros a w Hk.
  { exists 0, false, w. split; [reflexivity|]. split; [lia|]. split; [lia|].
    split; [done|]. split; [done|]. split; [done|]. done. }
  rewrite seqZ_cons by lia.
  replace (Z.pred (Z.of_nat (S k))) with (Z.of_nat k) by lia.
  cbn [download_attempts].
  assert (Hone : forall ok w1,
            requests w1 = url :: requests w -> sleeps w1 = sleeps w ->
            (ok = false -> files w1 = files w) ->
            (ok = true -> exists data,
               urlopen env (length (requests w) + (1 - 1)) url = Body data /\
               files w1 = <[dest := data]> (files w)) ->
            exists (n : nat) (ok' : bool) (w' : World),
              (ok, w1) = (ok', w') /\
              n <= S k /\ (1 <= S k -> 1 <= n) /\
              requests w' = repeat url n ++ requests w /\
              sleeps w' = rev (seqZ (1 + a) (Z.of_nat n - 1)) ++ sleeps w /\
              (ok' = false -> files w' = files w) /\
              (ok' = true ->
               exists data,
                 urlopen env (length (requests w) + (n - 1)) url = Body data /\
                 files w' = <[dest := data]> (files w))).
  { intros ok w1 Hr Hs Hf Ht. exists 1, ok, w1. split; [done|]. split; [lia|].
    split; [lia|]. split; [done|]. split; [done|]. by split. }
  assert (Hagain :
            (a >=? retries)%Z = false ->
            exists (n : nat) (ok' : bool) (w' : World),
              download_attempts env url dest retries (seqZ (Z.succ a) (Z.of_nat k))
                (log_sleep (1 + a) (log_request url w)) = (ok', w') /\
              n <= S k /\ (1 <= S k -> 1 <= n) /\
              requests w' = repeat url n ++ requests w /\
              sleeps w' = rev (seqZ (1 + a) (Z.of_nat n - 1)) ++ sleeps w /\
              (ok' = false -> files w' = files w) /\
              (ok' = true ->
               exists data,
                 urlopen env (length (requests w) + (n - 1)) url = Body data /\
                 files w' = <[dest := data]> (files w))).
  { intros Hlt.
    destruct (IH (Z.succ a) (log_sleep (1 + a) (log_request url w)) ltac:(lia))
      as (n & ok & w' & Hrun & Hle & Hpos & Hreq & Hsl & Hf & Ht).
    assert (Hn : 1 <= n) by (apply Hpos; lia).
    exists (S n), ok, w'. split; [done|]. split; [lia|]. split; [lia|].
    cbn [log_sleep log_request requests sleeps files] in Hreq, Hsl, Hf, Ht.
    split; [by rewrite Hreq, repeat_snoc_app|]. split.
    - rewrite Hsl. replace (Z.of_nat (S n) - 1)%Z with (Z.of_nat n) by lia.
      rewrite (seqZ_cons (1 + a)) by lia. cbn [rev]. rewrite <- app_assoc. cbn [app].
      by replace (Z.pred (Z.of_nat n)) with (Z.of_nat n - 1)%Z by lia;
         replace (1 + Z.succ a)%Z with (Z.succ (1 + a)) by lia.
    - split; [done|]. intros Hok. destruct (Ht Hok) as (data & Hans & Hfiles).
      exists data. split; [|done].
      by replace (length (requests w) + (S n - 1))
           with (S (length (requests w)) + (n - 1)) by lia. }
  destruct (urlopen env (length (requests w)) url) as [data|code|] eqn:Hans.
  - apply Hone; [done|done|done|]. intros _. exists data.
    split; [by rewrite Nat.add_0_r | done].
  - destruct (bool_decide (code ∈ PERMANENT_CODES)); [by apply Hone|].
    destruct (a >=? retries)%Z eqn:Hlast; [by apply Hone | by apply Hagain].
  - destruct (a >=? retries)%Z eqn:Hlast; [by apply Hone | by apply Hagain].
Qed.

End Attempts.

(** The requests, the pauses and the files after one call of [_download]. *)
Lemma download_run_facts (env : Env) (url : string) (dest : fspath) (retries : Z)
    (w : World) :
  exists (n : nat) (ok : bool) (w' : World),
    _download env url dest retries w = (ok, w') /\
    (Z.of_nat n <= Z.max 0 (retries + 1))%Z /\
    ((0 <= retries)%Z -> 1 <= n) /\
    ((retries < 0)%Z -> ok = false /\ w' = w) /\
    requests w' = repeat url n ++ requests w /\
    sleeps w' = rev (seqZ 1 (Z.of_nat n - 1)) ++ sleeps w /\
    (ok = false -> files w' = files w) /\
    (ok = true ->
     exists data,
       urlopen env (length (requests w) + (n - 1)) url = Body data /\
       files w' = <[dest := data]> (files w)).
Proof.
  unfold _download. destruct (Z.le_gt_cases 0 retries) as [Hpos|Hneg].
  - destruct (download_attempts_bounds env url dest retries (Z.to_nat (retries + 1)) 0 w
                ltac:(lia))
      as (n & ok & w' & Hrun & Hle & Hone & Hreq & Hsl & Hf & Ht).
    rewrite Z2Nat.id in Hrun by lia.
    exists n, ok, w'. split; [done|]. split; [lia|]. split; [intros _; apply Hone; lia|].
    split; [lia|]. split; [done|]. split; [done|]. by split.
  - exists 0, false, w.
    assert (Hnil : seqZ 0 (retries + 1) = []).
    { unfold seqZ. by replace (Z.to_nat (retries + 1)) with 0 by lia. }
    rewrite Hnil. split; [reflexivity|]. split; [lia|]. split; [lia|].
    split; [done|]. split; [done|]. split; [done|]. by split.
Qed.

(** X8. Whatever the server answers, [_download] sends at most
    [retries + 1] requests, all for the one URL, and at least one when
    [retries] is not negative; it pauses 1, 2, ... between them, once
    less than it sends requests.  With a negative [retries] it sends
    nothing, changes nothing and returns [False].  When it returns
    [False] no file has changed; when it returns [True] the last answer
    was a body and the only change to the files is that body stored at
    the destination. *)
Theorem download_is_bounded (env : Env) (url : string) (dest : fspath) (retries : Z)
    (w : World) :
  exists (n : nat) (ok : bool) (w' : World),
    _download env url dest retries w = (ok, w') /\
    (Z.of_nat n <= Z.max 0 (retries + 1))%Z /\
    ((0 <= retries)%Z -> 1 <= n) /\
    ((retries < 0)%Z -> ok = false /\ w' = w) /\
    requests w' = repeat url n ++ requests w /\
    sleeps w' = rev (seqZ 1 (Z.of_nat n - 1)) ++ sleeps w /\
    (ok = false -> files w' = files w) /\
    (ok = true ->
     exists data,
       urlopen env (length (requests w) + (n - 1)) url = Body data /\
       files w' = <[dest := data]> (files w)).
Proof. apply download_run_facts. Qed.

(* ===================================================================== *)
(** * Local references in nested pages *)
(* ===================================================================== *)

Section NestedPages.

Lemma contains_ending (old t : string) :
  Py.endswith "assets/" old = true ->
  Py.contains "assets/" t = false -> Py.contains old t = false.
Proof.
  intros Hend Ht. apply endswith_spec in Hend as [a ->].
  rewrite <- (str_app_nil_r "assets/"). by apply contains_inside.
Qed.

Lemma nested_fixup_absent (prefix t : string) :
  Py.contains "assets/" t = false -> nested_fixup prefix t = t.
Proof.
  intros Ht. unfold nested_fixup. cbv zeta.
  do 13 (rewrite (replace_absent _ _ t);
         [| by compute | by apply contains_ending; [vm_compute|] ]).
  reflexivity.
Qed.

Lemma deeper_prefix (n : nat) :
  String.eqb (Py.repeat_str "../" (S n) +:+ "assets/") "assets/" = false.
Proof. reflexivity. Qed.

End NestedPages.

(** X9. [_rewrite_nested_local_asset_refs] at its edges: for the site
    root itself and for a page directly in it the answer is [False]
    without the page being read, so also when there is no such file; a
    path that is not below the site root is an error; a page in a
    subdirectory that cannot be read is an error; and a page in a
    subdirectory whose text does not hold [assets/] is left as it is,
    with the answer [False]. *)
Theorem nested_fixup_edges (site_root : fspath) (w : World) :
  _rewrite_nested_local_asset_refs site_root site_root w = Some (false, w) /\
  (forall name,
     _rewrite_nested_local_asset_refs site_root (site_root ++ [name]) w = Some (false, w)) /\
  (forall p,
     relative_to site_root p = None ->
     _rewrite_nested_local_asset_refs site_root p w = None) /\
  (forall d dirs name,
     files w !! (site_root ++ d :: dirs ++ [name]) = None ->
     _rewrite_nested_local_asset_refs site_root (site_root ++ d :: dirs ++ [name]) w = None) /\
  (forall d dirs name t,
     files w !! (site_root ++ d :: dirs ++ [name]) = Some t ->
     Py.contains "assets/" t = false ->
     _rewrite_nested_local_asset_refs site_root (site_root ++ d :: dirs ++ [name]) w
     = Some (false, w)).
Proof.
  assert (Hdeep : forall d dirs name,
            _relative_assets_prefix site_root (site_root ++ d :: dirs ++ [name])
            = Some (Py.repeat_str "../" (S (length dirs)) +:+ "assets/")).
  { intros d dirs name. unfold _relative_assets_prefix. rewrite relative_to_app.
    assert (E : Z.to_nat (Z.max 0 (Z.of_nat (length (d :: dirs ++ [name])) - 1))
                = S (length dirs)).
    { cbn [length]. rewrite length_app. simpl. lia. }
    by rewrite E. }
  split; [|split; [|split; [|split]]].
  - unfold _rewrite_nested_local_asset_refs, _relative_assets_prefix.
    rewrite <- (app_nil_r site_root) at 2. by rewrite relative_to_app.
  - intros name. unfold _rewrite_nested_local_asset_refs, _relative_assets_prefix.
    by rewrite relative_to_app.
  - intros p Hp. unfold _rewrite_nested_local_asset_refs, _relative_assets_prefix.
    by rewrite Hp.
  - intros d dirs name Hfile. unfold _rewrite_nested_local_asset_refs.
    rewrite Hdeep. cbn [mbind option_bind]. rewrite deeper_prefix. by rewrite Hfile.
  - intros d dirs name t Hfile Ht. unfold _rewrite_nested_local_asset_refs.
    rewrite Hdeep. cbn [mbind option_bind]. rewrite deeper_prefix, Hfile.
    cbn [mbind option_bind]. rewrite nested_fixup_absent by done.
    by rewrite String.eqb_refl.
Qed.

(* ===================================================================== *)
(** * Broken references collapse *)
(* ===================================================================== *)

Section BrokenReferences.

Lemma lower_char_slash (b : ascii) : Py.lower_char b = "/"%char -> b = "/"%char.
Proof. destruct b as [[] [] [] [] [] [] [] []]; vm_compute; intros E; congruence. Qed.

Lemma startswith_ci_slash (lit s : string) :
  startswith_ci lit s = true -> Py.mem_char "/" lit = true -> Py.mem_char "/" s = true.
Proof.
  revert s. induction lit as [|a lit IH]; intros s Hs Hlit; [done|].
  destruct s as [|b s]; [done|]. cbn [startswith_ci] in Hs.
  apply andb_true_iff in Hs as [Hab Hs]. apply Ascii.eqb_eq in Hab.
  cbn [Py.mem_char] in Hlit |- *. apply orb_true_iff in Hlit as [Ha|Hlit].
  - apply Ascii.eqb_eq in Ha. rewrite <- Ha in Hab. symmetry in Hab.
    apply lower_char_slash in Hab. rewrite Hab. by rewrite Ascii.eqb_refl.
  - by rewrite (IH s Hs Hlit), orb_true_r.
Qed.

Lemma mem_char_drop (c : ascii) (n : nat) (s : string) :
  Py.mem_char c s = false -> Py.mem_char c (Py.drop n s) = false.
Proof.
  revert s. induction n as [|n IH]; intros s Hs; [by destruct s|].
  destruct s as [|d s]; [done|]. cbn [Py.drop]. apply IH.
  cbn [Py.mem_char] in Hs. by apply orb_false_iff in Hs as [_ Hs].
Qed.

Lemma mem_char_app (c : ascii) (s t : string) :
  Py.mem_char c (s +:+ t) = Py.mem_char c s || Py.mem_char c t.
Proof.
  induction s as [|d s IH]; [done|]. rewrite str_app_cons. cbn [Py.mem_char].
  by rewrite IH, orb_assoc.
Qed.

Lemma broken_quote_slash_free (s s1 : string) :
  broken_quote s = Some s1 -> Py.mem_char "/" s = false -> Py.mem_char "/" s1 = false.
Proof.
  unfold broken_quote. intros Hq Hs.
  destruct (startswith_ci "&quot;" s);
    [injection Hq as <-; exact (mem_char_drop "/" 6 s Hs)|].
  destruct (Py.startswith Py.dquote s);
    [injection Hq as <-; exact (mem_char_drop "/" 1 s Hs)|].
  destruct (Py.startswith "%22" s);
    [injection Hq as <-; exact (mem_char_drop "/" 3 s Hs)|].
  done.
Qed.

Lemma broken_tail_slash_free (s : string) :
  Py.mem_char "/" s = false -> broken_tail s = None.
Proof.
  intros Hs. unfold broken_tail. destruct (broken_quote s) as [s1|] eqn:Hq; [|done].
  apply broken_quote_slash_free in Hq; [|done].
  destruct (startswith_ci "assets/" s1) eqn:Ha; [|done].
  apply startswith_ci_slash in Ha; [congruence | done].
Qed.

Lemma broken_dirs_other (c : ascii) (r : string) :
  Ascii.eqb c "/" = false -> broken_dirs r = None -> broken_dirs (String c r) = None.
Proof. intros Hc Hr. cbn [broken_dirs]. rewrite Hr, Hc. by destruct (dir_char c). Qed.

Lemma broken_dirs_slash (r : string) :
  broken_dirs r = None -> broken_tail r = None -> broken_dirs (String "/" r) = None.
Proof. intros Hr Ht. cbn [broken_dirs]. rewrite Hr, Ht. by destruct (dir_char "/"). Qed.

Lemma broken_dirs_slash_free (s : string) :
  Py.mem_char "/" s = false -> broken_dirs s = None.
Proof.
  induction s as [|c r IH]; [done|]. cbn [Py.mem_char]. intros Hs.
  apply orb_false_iff in Hs as [Hc Hr]. apply broken_dirs_other; [|by apply IH].
  by rewrite Ascii.eqb_sym.
Qed.

Lemma match_slash_free (s : string) :
  Py.mem_char "/" s = false -> BROKEN_LOCAL_ASSET_RE_match s = None.
Proof.
  intros Hs. unfold BROKEN_LOCAL_ASSET_RE_match.
  destruct (startswith_ci "https://videa-saversion.webflow.io/" s) eqn:E8.
  { apply startswith_ci_slash in E8; [congruence | done]. }
  destruct (startswith_ci "http://videa-saversion.webflow.io/" s) eqn:E7; [|done].
  apply startswith_ci_slash in E7; [congruence | done].
Qed.

Lemma sub_slash_free (s : string) :
  Py.mem_char "/" s = false -> BROKEN_LOCAL_ASSET_RE_sub_from 0 s = s.
Proof.
  induction s as [|c r IH]; [done|]. intros Hs. cbn [BROKEN_LOCAL_ASSET_RE_sub_from].
  rewrite (match_slash_free _ Hs). cbn [Py.mem_char] in Hs.
  apply orb_false_iff in Hs as [_ Hr]. by rewrite IH.
Qed.

Lemma sub_from_skip (mid rest : string) :
  BROKEN_LOCAL_ASSET_RE_sub_from (String.length mid) (mid +:+ rest)
  = BROKEN_LOCAL_ASSET_RE_sub_from 0 rest.
Proof.
  induction mid as [|c mid IH]; [done|]. rewrite str_app_cons. exact IH.
Qed.

Lemma sub_h_free_prefix (pre s : string) :
  h_free pre ->
  BROKEN_LOCAL_ASSET_RE_sub_from 0 (pre +:+ s)
  = pre +:+ BROKEN_LOCAL_ASSET_RE_sub_from 0 s.
Proof.
  intros [Hl Hu]. induction pre as [|c pre IH]; [done|].
  cbn [Py.mem_char] in Hl, Hu.
  apply orb_false_iff in Hl as [Hl1 Hl]. apply orb_false_iff in Hu as [Hu1 Hu].
  rewrite !str_app_cons. cbn [BROKEN_LOCAL_ASSET_RE_sub_from].
  destruct (BROKEN_LOCAL_ASSET_RE_match (String c (pre +:+ s))) as [m|] eqn:Hm.
  - exfalso. apply broken_match_needs_h in Hm as (d & r & [= -> _] & [-> | ->]).
    + by rewrite Ascii.eqb_refl in Hl1.
    + by rewrite Ascii.eqb_refl in Hu1.
  - f_equal. by apply IH.
Qed.

Lemma broken_quote_none (c : ascii) (r : string) :
  asset_ref_char c = true -> broken_quote (String c r) = None.
Proof.
  destruct c as [[] [] [] [] [] [] [] []]; intros Hc; try reflexivity;
    by vm_compute in Hc.
Qed.

Lemma broken_quote_some (q x : string) :
  q ∈ STRAY_QUOTES -> broken_quote (q +:+ x) = Some x.
Proof.
  intros Hq. unfold STRAY_QUOTES in Hq.
  repeat (apply elem_of_cons in Hq as [->|Hq]; [reflexivity|]).
  by apply elem_of_nil in Hq.
Qed.

Lemma stray_quote_facts (q : string) :
  q ∈ STRAY_QUOTES ->
  Py.mem_char "/" q = false /\
  exists c r, q = String c r /\ asset_ref_char c = false.
Proof.
  intros Hq. unfold STRAY_QUOTES in Hq.
  repeat (apply elem_of_cons in Hq as [->|Hq]; [split; [reflexivity | by eexists _, _]|]).
  by apply elem_of_nil in Hq.
Qed.

Section OneReference.
Variables (q1 q2 name rest : string).
Hypothesis Hq1 : q1 ∈ STRAY_QUOTES.
Hypothesis Hq2 : q2 ∈ STRAY_QUOTES.
Hypothesis Hname : name <> "".
Hypothesis Hclass : Py.forallb_chars asset_ref_char name = true.
Hypothesis Hrest : Py.mem_char "/" rest = false.

Lemma after_quote_slash_free : Py.mem_char "/" (q2 +:+ rest) = false.
Proof.
  rewrite mem_char_app, Hrest, orb_false_r. by apply stray_quote_facts.
Qed.

Lemma broken_tail_inside (n : string) :
  Py.forallb_chars asset_ref_char n = true ->
  broken_tail (n +:+ q2 +:+ rest) = None.
Proof.
  intros Hn. destruct n as [|c n].
  - rewrite str_app_nil_l. apply broken_tail_slash_free, after_quote_slash_free.
  - rewrite str_app_cons. unfold broken_tail. rewrite broken_quote_none; [done|].
    cbn [Py.forallb_chars] in Hn. by apply andb_true_iff in Hn as [Hc _].
Qed.

Lemma broken_dirs_inside (n : string) :
  Py.forallb_chars asset_ref_char n = true ->
  broken_dirs (n +:+ q2 +:+ rest) = None.
Proof.
  induction n as [|c n IH]; intros Hn.
  - rewrite str_app_nil_l. apply broken_dirs_slash_free, after_quote_slash_free.
  - cbn [Py.forallb_chars] in Hn. apply andb_true_iff in Hn as [Hc Hn].
    rewrite str_app_cons. cbn [broken_dirs].
    rewrite (IH Hn), (broken_tail_inside n Hn). by destruct (dir_char c), (Ascii.eqb c "/").
Qed.

Lemma broken_tail_reference :
  broken_tail (q1 +:+ "assets/" +:+ name +:+ q2 +:+ rest) = Some ("assets/" +:+ name, rest).
Proof.
  unfold broken_tail. rewrite (broken_quote_some q1 _ Hq1).
  change (startswith_ci "assets/" ("assets/" +:+ name +:+ q2 +:+ rest)) with true.
  cbv iota.
  change (Py.drop 7 ("assets/" +:+ name +:+ q2 +:+ rest)) with (name +:+ q2 +:+ rest).
  change (Py.take 7 ("assets/" +:+ name +:+ q2 +:+ rest)) with "assets/".
  assert (Hrun : take_while asset_ref_char (name +:+ q2 +:+ rest) = name).
  { rewrite take_while_app by done. rewrite take_while_stops; [by rewrite str_app_nil_r|].
    right. destruct (stray_quote_facts q2 Hq2) as (_ & c & r & -> & Hc).
    exists c, (r +:+ rest). by rewrite str_app_cons. }
  rewrite Hrun. apply is_empty_false in Hname. rewrite Hname.
  change (Py.drop (7 + String.length name) ("assets/" +:+ name +:+ q2 +:+ rest))
    with (Py.drop (String.length name) (name +:+ q2 +:+ rest)).
  by rewrite str_drop_app_length, (broken_quote_some q2 _ Hq2).
Qed.

Lemma broken_dirs_reference :
  broken_dirs (q1 +:+ "assets/" +:+ name +:+ q2 +:+ rest) = None.
Proof.
  assert (Hassets : broken_dirs ("assets/" +:+ name +:+ q2 +:+ rest) = None).
  { change ("assets/" +:+ name +:+ q2 +:+ rest)
      with (String "a" (String "s" (String "s" (String "e" (String "t" (String "s"
             (String "/" (name +:+ q2 +:+ rest)))))))).
    do 6 (apply broken_dirs_other; [reflexivity|]).
    apply broken_dirs_slash; [by apply broken_dirs_inside | by apply broken_tail_inside]. }
  unfold STRAY_QUOTES in Hq1.
  apply elem_of_cons in Hq1 as [->|Hq].
  { change ("&quot;" +:+ "assets/" +:+ name +:+ q2 +:+ rest)
      with (String "&" (String "q" (String "u" (String "o" (String "t" (String ";"
             ("assets/" +:+ name +:+ q2 +:+ rest))))))).
    by do 6 (apply broken_dirs_other; [reflexivity|]). }
  apply elem_of_cons in Hq as [->|Hq]; [reflexivity|].
  apply elem_of_cons in Hq as [->|Hq]; [|by apply elem_of_nil in Hq].
  change ("%22" +:+ "assets/" +:+ name +:+ q2 +:+ rest)
    with (String "%" (String "2" (String "2" ("assets/" +:+ name +:+ q2 +:+ rest)))).
  by do 3 (apply broken_dirs_other; [reflexivity|]).
Qed.

Lemma sub_reference (host : string) :
  host ∈ SITE_PREFIXES ->
  BROKEN_LOCAL_ASSET_RE_sub_from 0
    (host +:+ q1 +:+ "assets/" +:+ name +:+ q2 +:+ rest)
  = "assets/" +:+ name +:+ rest.
Proof.
  intros Hhost. set (T := q1 +:+ "assets/" +:+ name +:+ q2 +:+ rest).
  assert (Hm : BROKEN_LOCAL_ASSET_RE_match (host +:+ T) = Some ("assets/" +:+ name, rest)).
  { unfold SITE_PREFIXES in Hhost.
    apply elem_of_cons in Hhost as [->|Hhost].
    { unfold BROKEN_LOCAL_ASSET_RE_match.
      change (startswith_ci "https://videa-saversion.webflow.io/"
                ("https://videa-saversion.webflow.io/" +:+ T)) with true.
      cbv iota.
      change (Py.drop 35 ("https://videa-saversion.webflow.io/" +:+ T)) with T.
      unfold T. by rewrite broken_dirs_reference, broken_tail_reference. }
    apply elem_of_cons in Hhost as [->|Hhost]; [|by apply elem_of_nil in Hhost].
    unfold BROKEN_LOCAL_ASSET_RE_match.
    change (startswith_ci "https://videa-saversion.webflow.io/"
              ("http://videa-saversion.webflow.io/" +:+ T)) with false.
    change (startswith_ci "http://videa-saversion.webflow.io/"
              ("http://videa-saversion.webflow.io/" +:+ T)) with true.
    cbv iota.
    change (Py.drop 34 ("http://videa-saversion.webflow.io/" +:+ T)) with T.
    unfold T. by rewrite broken_dirs_reference, broken_tail_reference. }
  assert (Hhead : exists r0, host = String "h" r0) by
    (unfold SITE_PREFIXES in Hhost;
     repeat (apply elem_of_cons in Hhost as [->|Hhost]; [by eexists|]);
     by apply elem_of_nil in Hhost).
  destruct Hhead as [r0 ->]. rewrite str_app_cons in Hm |- *.
  cbn [BROKEN_LOCAL_ASSET_RE_sub_from]. rewrite Hm. rewrite str_app_assoc. f_equal.
  assert (Hsplit : r0 +:+ T = (r0 +:+ q1 +:+ "assets/" +:+ name +:+ q2) +:+ rest).
  { unfold T. by rewrite !str_app_assoc. }
  rewrite Hsplit.
  replace (String.length ((r0 +:+ q1 +:+ "assets/" +:+ name +:+ q2) +:+ rest)
           - String.length rest)
    with (String.length (r0 +:+ q1 +:+ "assets/" +:+ name +:+ q2))
    by (rewrite (str_length_app _ rest); lia).
  rewrite sub_from_skip. by rewrite sub_slash_free.
Qed.

End OneReference.

End BrokenReferences.

(** X10. A broken reference collapses to its local path.  Where a text
    holds the site's address ([http] or [https]), one of the three stray
    quotes ([&quot;], the quotation mark, [%22]), [assets/] and a name
    without quote, ampersand, percent sign, angle bracket, white space or
    closing parenthesis, and again one of the three quotes - not
    necessarily the same - the rewriting of [_rewrite_in_file] leaves
    [assets/] and the name in their place.  This is shown for a text
    that has no letter h before the reference and no slash after it, so
    that the reference is the only candidate. *)
Theorem broken_reference_collapses (pre host q1 q2 name rest : string) :
  h_free pre ->
  host ∈ SITE_PREFIXES -> q1 ∈ STRAY_QUOTES -> q2 ∈ STRAY_QUOTES ->
  name <> "" -> Py.forallb_chars asset_ref_char name = true ->
  Py.mem_char "/" rest = false ->
  BROKEN_LOCAL_ASSET_RE_sub
    (pre +:+ host +:+ q1 +:+ "assets/" +:+ name +:+ q2 +:+ rest)
  = pre +:+ "assets/" +:+ name +:+ rest /\
  rewrite_text [] (pre +:+ host +:+ q1 +:+ "assets/" +:+ name +:+ q2 +:+ rest)
  = pre +:+ "assets/" +:+ name +:+ rest.
Proof.
  intros Hpre Hhost Hq1 Hq2 Hname Hclass Hrest.
  assert (Hsub : BROKEN_LOCAL_ASSET_RE_sub
                   (pre +:+ host +:+ q1 +:+ "assets/" +:+ name +:+ q2 +:+ rest)
                 = pre +:+ "assets/" +:+ name +:+ rest).
  { unfold BROKEN_LOCAL_ASSET_RE_sub. rewrite sub_h_free_prefix by done.
    by rewrite (sub_reference q1 q2 name rest). }
  split; [exact Hsub|]. unfold rewrite_text. cbn [apply_replacements]. exact Hsub.
Qed.

(* ===================================================================== *)
(** * What a run touches and what it requests *)
(* ===================================================================== *)

Section RunEffects.
Context `{Library}.
Variable env : Env.

Lemma asset_destination (u fn : string) (dir : fspath) :
  _is_asset_url u = true -> _safe_filename_from_url u = Some fn ->
  joinpath dir fn = dir ++ [fn].
Proof.
  intros Hasset Hfn. apply is_asset_url_tests in Hasset
    as (parsed & Hparse & _ & _ & _ & _ & Hext).
  destruct (safe_filename_shape u parsed Hparse) as (name & Hname & Hsafe & Hlen).
  assert (name = fn) by congruence. subst name.
  apply asset_suffix_length in Hext.
  assert (Hlen3 : 3 <= String.length fn) by lia.
  assert (Hslash : Py.mem_char "/" fn = false).
  { by apply (forallb_chars_mem safe_char). }
  unfold joinpath.
  assert (Hstart : Py.startswith "/" fn = false).
  { destruct fn as [|c fn]; [done|]. simpl in *.
    apply orb_false_iff in Hslash as [Hc _]. by rewrite Hc. }
  rewrite Hstart. f_equal. unfold PathLib.parts. rewrite split_char_absent by done.
  rewrite filter_cons_True; [done|].
  split; intros ->; simpl in Hlen3; lia.
Qed.

Lemma only_children_refl (dir : fspath) (w : World) : only_children dir w w.
Proof. by intros p _. Qed.

Lemma only_children_trans (dir : fspath) (w1 w2 w3 : World) :
  only_children dir w1 w2 -> only_children dir w2 w3 -> only_children dir w1 w3.
Proof. intros H12 H23 p Hp. by rewrite H23, H12. Qed.

Lemma requested_refl (urls : list string) (w : World) : requested urls w w.
Proof. exists []. split; [done|]. by intros u ?%elem_of_nil. Qed.

Lemma requested_trans (urls : list string) (w1 w2 w3 : World) :
  requested urls w1 w2 -> requested urls w2 w3 -> requested urls w1 w3.
Proof.
  intros (n1 & H1 & Hu1) (n2 & H2 & Hu2). exists (n2 ++ n1).
  split; [by rewrite H2, H1, app_assoc|].
  intros u [?|?]%elem_of_app; auto.
Qed.

Lemma requested_mono (urls urls' : list string) (w w' : World) :
  (forall u, u ∈ urls -> u ∈ urls') -> requested urls w w' -> requested urls' w w'.
Proof. intros Hsub (n & Hn & Hu). exists n. split; [done|]. auto. Qed.

Lemma download_effects (url name : string) (dir : fspath) (w w' : World) (ok : bool) :
  _download env url (dir ++ [name]) DEFAULT_RETRIES w = (ok, w') ->
  only_children dir w w' /\ requested [url] w w'.
Proof.
  intros Hrun. split.
  - intros p Hp. apply download_files in Hrun as [[_ ->]|[_ [data ->]]]; [done|].
    rewrite lookup_insert_ne; [done|]. intros E. by apply (Hp name).
  - destruct (download_run_facts env url (dir ++ [name]) DEFAULT_RETRIES w)
      as (n & ok' & w'' & Hrun' & _ & _ & _ & Hreq & _).
    rewrite Hrun in Hrun'. injection Hrun' as <- <-.
    exists (repeat url n). split; [done|].
    intros u Hu. apply list_elem_of_In, repeat_spec in Hu. subst u. by left.
Qed.


Lemma download_discovered_effects (assets_dir : fspath) (urls : list string) :
  forall m w m' w',
    (forall u, u ∈ urls -> _is_asset_url u = true) ->
    download_discovered env assets_dir urls (m, w) = Some (m', w') ->
    only_children assets_dir w w' /\ requested urls w w'.
Proof.
  induction urls as [|url urls IH]; intros m w m' w' Hok Hrun.
  { injection Hrun as <- <-. split; [apply only_children_refl | apply requested_refl]. }
  assert (Hok' : forall u, u ∈ urls -> _is_asset_url u = true).
  { intros u Hu. apply Hok. by right. }
  assert (Hlater : forall m1 w1,
            only_children assets_dir w w1 -> requested [url] w w1 ->
            download_discovered env assets_dir urls (m1, w1) = Some (m', w') ->
            only_children assets_dir w w' /\ requested (url :: urls) w w').
  { intros m1 w1 Hc Hr Hrest. destruct (IH _ _ _ _ Hok' Hrest) as [Hc' Hr'].
    split; [by apply (only_children_trans _ _ w1)|].
    apply (requested_trans _ _ w1).
    - apply (requested_mono [url]); [|done].
      intros u ->%list_elem_of_singleton. by left.
    - apply (requested_mono urls); [|done]. intros u Hu. by right. }
  cbn [download_discovered] in Hrun.
  destruct (_safe_filename_from_url url) as [fn|] eqn:Hfn; [|done].
  cbn [mbind option_bind] in Hrun.
  rewrite (asset_destination url fn assets_dir (Hok url ltac:(by left)) Hfn) in Hrun.
  destruct (exists_nonempty (assets_dir ++ [fn]) w); cbn [negb] in Hrun.
  { eapply Hlater; [apply only_children_refl | apply requested_refl | exact Hrun]. }
  destruct (_download env url (assets_dir ++ [fn]) DEFAULT_RETRIES w) as [ok w1] eqn:Hd.
  destruct (download_effects _ _ _ _ _ _ Hd) as [Hc Hr].
  destruct ok; cbn [negb] in Hrun; (eapply Hlater; [exact Hc | exact Hr | exact Hrun]).
Qed.





End RunEffects.

(* ===================================================================== *)
(** * The length of a file name *)
(* ===================================================================== *)

Section NameLength.
Context `{Library}.

Lemma rfind_char_none (c : ascii) (s : string) :
  Py.rfind_char c s = None -> Py.mem_char c s = false.
Proof.
  induction s as [|d s IH]; [done|]. cbn [Py.rfind_char Py.mem_char].
  destruct (Py.rfind_char c s); [done|]. destruct (Ascii.eqb c d); [done|].
  intros _. by rewrite IH.
Qed.

Lemma rfind_char_spec (c : ascii) (s : string) :
  forall i, Py.rfind_char c s = Some i ->
    exists b, Py.drop i s = String c b /\ Py.mem_char c b = false.
Proof.
  induction s as [|d s IH]; intros i; [done|]. cbn [Py.rfind_char].
  destruct (Py.rfind_char c s) as [j|] eqn:Hr.
  - intros [= <-]. cbn [Py.drop]. by apply IH.
  - destruct (Ascii.eqb_spec c d) as [->|]; [|done]. intros [= <-].
    exists s. split; [done|]. by apply rfind_char_none.
Qed.

(** An extension is empty or a dot followed by characters other than a
    dot. *)
Lemma splitext_ext (p base ext : string) :
  PathLib.splitext p = (base, ext) ->
  ext = "" \/ exists b, ext = String "." b /\ Py.mem_char "." b = false.
Proof.
  unfold PathLib.splitext. destruct (Py.rfind_char "." p) as [d|] eqn:Hd; cycle 1.
  { intros [= _ <-]. by left. }
  destruct (_ && _); intros [= _ <-]; [|by left].
  right. by apply (rfind_char_spec "." p d).
Qed.

Lemma suffix_of_name_split (n : string) :
  PathLib.suffix_of_name n = "" \/
  exists a b, n = a +:+ String "." b /\ PathLib.suffix_of_name n = String "." b /\
              Py.mem_char "." b = false.
Proof.
  unfold PathLib.suffix_of_name. destruct (Py.rfind_char "." n) as [i|] eqn:Hi; [|by left].
  destruct (_ && _); [|by left]. right.
  destruct (rfind_char_spec "." n i Hi) as (b & Hb & Hdot).
  exists (Py.take i n), b. split; [|done]. by rewrite <- Hb, str_take_drop.
Qed.

Lemma last_dot_unique (a b a' b' : string) :
  a +:+ String "." b = a' +:+ String "." b' ->
  Py.mem_char "." b = false -> Py.mem_char "." b' = false -> b = b'.
Proof.
  revert a'. induction a as [|c a IH]; intros [|c' a'] E Hb Hb'.
  - rewrite !str_app_nil_l in E. by injection E.
  - rewrite str_app_nil_l, str_app_cons in E. injection E as _ ->.
    rewrite mem_char_app in Hb. cbn [Py.mem_char] in Hb.
    rewrite Ascii.eqb_refl, orb_true_r in Hb. done.
  - rewrite str_app_nil_l, str_app_cons in E. injection E as _ <-.
    rewrite mem_char_app in Hb'. cbn [Py.mem_char] in Hb'.
    rewrite Ascii.eqb_refl, orb_true_r in Hb'. done.
  - rewrite !str_app_cons in E. injection E as _ E. by apply (IH a').
Qed.

Lemma splitext_ext_bound (x t n base ext : string) :
  n = x +:+ String "." t -> Py.mem_char "." t = false ->
  PathLib.splitext n = (base, ext) ->
  String.length ext <= S (String.length t).
Proof.
  intros Hn Ht Hsplit. destruct (splitext_ext _ _ _ Hsplit) as [->|(b & -> & Hb)].
  - simpl. lia.
  - apply splitext_app in Hsplit. rewrite Hn in Hsplit.
    by rewrite (last_dot_unique _ _ _ _ Hsplit Hb Ht).
Qed.

Lemma map_chars_app (f : ascii -> ascii) (s t : string) :
  Py.map_chars f (s +:+ t) = Py.map_chars f s +:+ Py.map_chars f t.
Proof. induction s as [|c s IH]; [done|]. rewrite !str_app_cons. simpl. by rewrite IH. Qed.

Lemma map_chars_length (f : ascii -> ascii) (s : string) :
  String.length (Py.map_chars f s) = String.length s.
Proof. induction s as [|c s IH]; [done|]. simpl. by rewrite IH. Qed.

Lemma sanitize_keeps_dots (s : string) :
  Py.mem_char "." (sanitize s) = Py.mem_char "." s.
Proof.
  unfold sanitize. induction s as [|c s IH]; [done|]. simpl. rewrite IH. f_equal.
  destruct c as [[] [] [] [] [] [] [] []]; reflexivity.
Qed.

Lemma sanitize_dotted (a b : string) :
  sanitize (a +:+ String "." b) = sanitize a +:+ String "." (sanitize b).
Proof. unfold sanitize. by rewrite map_chars_app. Qed.

Lemma asset_extension_short (e : string) : e ∈ ASSET_EXTENSIONS -> String.length e <= 6.
Proof.
  unfold ASSET_EXTENSIONS. intros He.
  repeat (apply elem_of_cons in He as [->|He]; [simpl; lia|]).
  by apply elem_of_nil in He.
Qed.

Lemma digest_prefix_dotless (n : nat) (s : string) :
  Py.mem_char "." (Py.take n (sha256_hex s)) = false.
Proof.
  apply (forallb_chars_mem lower_hex_char); [|reflexivity].
  apply forallb_chars_take, hexdigest_lower.
Qed.

Lemma truncated_length (x t n : string) :
  n = x +:+ String "." t -> Py.mem_char "." t = false -> String.length t <= 8 ->
  String.length
    (if 180 <? String.length n then
       let '(base, ext) := PathLib.splitext n in Py.take 150 base +:+ ext
     else n) <= 180.
Proof.
  intros Hn Ht Hlen. destruct (180 <? String.length n) eqn:Hlong.
  - destruct (PathLib.splitext n) as [base ext] eqn:Hsplit.
    pose proof (splitext_ext_bound _ _ _ _ _ Hn Ht Hsplit).
    rewrite str_length_app, str_length_take. lia.
  - by apply Nat.ltb_ge in Hlong.
Qed.

(** X13. For every URL that [_is_asset_url] accepts, the file name that
    [_safe_filename_from_url] gives has at most 180 characters: where the
    name with the digest spliced in is longer, the cut leaves 150
    characters and an extension of at most 9. *)
Theorem asset_file_name_is_short (url : string) :
  _is_asset_url url = true ->
  exists fn, _safe_filename_from_url url = Some fn /\ String.length fn <= 180.
Proof.
  intros Hasset. apply is_asset_url_tests in Hasset
    as (parsed & Hparse & _ & _ & _ & _ & Hext).
  unfold PathLib.suffix in Hext. set (base := PathLib.name (Url.path parsed)) in *.
  assert (Hform : exists a b, base = a +:+ String "." b /\ Py.mem_char "." b = false /\
                              String.length b <= 5).
  { destruct (suffix_of_name_split base) as [Hnone|(a & b & Hb & Hsuf & Hdot)].
    - rewrite Hnone in Hext. by apply (bool_decide_pack _) in Hext.
    - exists a, b. split; [done|]. split; [done|].
      apply asset_extension_short in Hext. unfold Py.lower in Hext.
      rewrite map_chars_length, Hsuf in Hext. simpl in Hext. lia. }
  destruct Hform as (a & b & Hbase & Hdot & Hshort).
  assert (Hclean : sanitize base = sanitize a +:+ String "." (sanitize b)).
  { by rewrite Hbase, sanitize_dotted. }
  assert (Hdot' : Py.mem_char "." (sanitize b) = false) by by rewrite sanitize_keeps_dots.
  assert (Hshort' : String.length (sanitize b) <= 5) by by rewrite sanitize_length.
  unfold _safe_filename_from_url. rewrite Hparse. cbn [mbind option_bind]. fold base.
  assert (Hne : Py.is_empty base = false).
  { rewrite Hbase. by destruct a. }
  rewrite Hne. cbv zeta. eexists. split; [reflexivity|].
  destruct (negb (Py.is_empty (Url.query parsed))).
  - destruct (PathLib.splitext (sanitize base)) as [stem ext] eqn:Hsplit.
    pose proof (splitext_ext_bound _ _ _ _ _ Hclean Hdot' Hsplit) as Hextlen.
    destruct (splitext_ext _ _ _ Hsplit) as [->|(b0 & -> & Hb0)].
    + cbn [Py.is_empty negb].
      apply (truncated_length stem (Py.take 8 (sha256_hex (Url.query parsed)))).
      * reflexivity.
      * apply digest_prefix_dotless.
      * rewrite digest_prefix_length; lia.
    + cbn [Py.is_empty negb].
      apply (truncated_length
               (stem +:+ "." +:+ Py.take 8 (sha256_hex (Url.query parsed))) b0).
      * by rewrite !str_app_assoc.
      * done.
      * simpl in Hextlen. lia.
  - apply (truncated_length (sanitize a) (sanitize b)); [done|done|lia].
Qed.

End NameLength.


Lemma asset_file_name_is_short_witness :
  exists fn, _safe_filename_from_url (long_name_url "v=1") = Some fn /\
             String.length fn <= 180.
Proof. apply (asset_file_name_is_short (long_name_url "v=1")). by vm_compute. Defined.

(* ===================================================================== *)
(** * The numbers a run prints *)
(* ===================================================================== *)

Section Counters.
Context `{Library}.
Variable env : Env.








End Counters.

Lemma renames_move_contents_witness :
  files (fold_left (fun w sd => Branding.rename_file (fst sd) (snd sd) w)
                   (Branding.longest_first one_rename) rename_site)
    !! ["site"; "news"; "new.html"] = Some "<p>old</p>" /\
  files (fold_left (fun w sd => Branding.rename_file (fst sd) (snd sd) w)
                   (Branding.longest_first one_rename) rename_site)
    !! ["site"; "news"; "old.html"] = None.
Proof.
  apply (proj1 (renames_move_contents one_rename rename_site
                  ltac:(by apply NoDup_singleton) ltac:(by apply NoDup_singleton)
                  ltac:(by intros d ->%list_elem_of_singleton ?%list_elem_of_singleton))
           ["site"; "news"; "old.html"] ["site"; "news"; "new.html"]).
  by left.
Defined.

(* ===================================================================== *)
(** * A page with one asset *)
(* ===================================================================== *)

Section OneReplacement.

Lemma replace_from_skip_app (old new mid rest : string) :
  Py.replace_from old new (String.length mid) (mid +:+ rest)
  = Py.replace_from old new 0 rest.
Proof. induction mid as [|c mid IH]; [done|]. rewrite str_app_cons. exact IH. Qed.

Lemma replace_from_prefix (c : ascii) (o new pre s : string) :
  Py.mem_char c pre = false ->
  Py.replace_from (String c o) new 0 (pre +:+ s)
  = pre +:+ Py.replace_from (String c o) new 0 s.
Proof.
  induction pre as [|x pre IH]; [done|]. cbn [Py.mem_char]. intros Hpre.
  apply orb_false_iff in Hpre as [Hx Hpre]. rewrite !str_app_cons.
  cbn [Py.replace_from Py.startswith]. rewrite Hx. cbn [andb]. by rewrite IH.
Qed.

(** One occurrence, with nothing alike before or after it, is replaced. *)
Lemma replace_single (c : ascii) (o new pre post : string) :
  Py.mem_char c pre = false ->
  Py.contains (String c o) post = false ->
  Py.replace (String c o) new (pre +:+ String c o +:+ post) = pre +:+ new +:+ post.
Proof.
  intros Hpre Hpost. unfold Py.replace. cbn [Py.is_empty].
  rewrite replace_from_prefix by done. f_equal.
  rewrite str_app_cons. cbn [Py.replace_from].
  rewrite <- (str_app_cons c o post), startswith_app. f_equal.
  replace (String.length (String c o) - 1) with (String.length o) by (simpl; lia).
  rewrite replace_from_skip_app. by apply replace_from_absent.
Qed.

Lemma startswith_mem (d : ascii) (p s : string) :
  Py.startswith p s = true -> Py.mem_char d p = true -> Py.mem_char d s = true.
Proof.
  intros Hs Hd. apply startswith_spec in Hs as [t ->].
  by rewrite mem_char_app, Hd.
Qed.

Lemma contains_missing (d : ascii) (p s : string) :
  Py.mem_char d s = false -> Py.mem_char d p = true -> Py.contains p s = false.
Proof.
  intros Hs Hp. induction s as [|x s IH].
  - unfold Py.contains. cbn [Py.find].
    destruct (Py.startswith p "") eqn:E; [|done].
    by rewrite (startswith_mem d p "" E Hp) in Hs.
  - rewrite contains_cons. apply orb_false_iff. split.
    + destruct (Py.startswith p (String x s)) eqn:E; [|done].
      by rewrite (startswith_mem d p _ E Hp) in Hs.
    + apply IH. cbn [Py.mem_char] in Hs. by apply orb_false_iff in Hs as [_ Hs].
Qed.

(** A pattern does not occur in a text whose first part lacks the first
    character of the pattern and whose second part lacks another one. *)
Lemma contains_split (c d : ascii) (o x y : string) :
  Py.mem_char c x = false -> Py.mem_char d y = false ->
  Py.mem_char d (String c o) = true ->
  Py.contains (String c o) (x +:+ y) = false.
Proof.
  intros Hx Hy Hd. induction x as [|a x IH].
  - rewrite str_app_nil_l. by apply (contains_missing d).
  - cbn [Py.mem_char] in Hx. apply orb_false_iff in Hx as [Ha Hx].
    rewrite str_app_cons, contains_cons. cbn [Py.startswith]. rewrite Ha. cbn [andb orb].
    by apply IH.
Qed.

Lemma lower_char_colon (b : ascii) : Py.lower_char b = ":"%char -> b = ":"%char.
Proof. destruct b as [[] [] [] [] [] [] [] []]; vm_compute; intros E; congruence. Qed.

Lemma startswith_ci_colon (lit s : string) :
  startswith_ci lit s = true -> Py.mem_char ":" lit = true -> Py.mem_char ":" s = true.
Proof.
  revert s. induction lit as [|a lit IH]; intros s Hs Hlit; [done|].
  destruct s as [|b s]; [done|]. cbn [startswith_ci] in Hs.
  apply andb_true_iff in Hs as [Hab Hs]. apply Ascii.eqb_eq in Hab.
  cbn [Py.mem_char] in Hlit |- *. apply orb_true_iff in Hlit as [Ha|Hlit].
  - apply Ascii.eqb_eq in Ha. rewrite <- Ha in Hab. symmetry in Hab.
    apply lower_char_colon in Hab. rewrite Hab. by rewrite Ascii.eqb_refl.
  - by rewrite (IH s Hs Hlit), orb_true_r.
Qed.

Lemma sub_colon_free (s : string) :
  Py.mem_char ":" s = false -> BROKEN_LOCAL_ASSET_RE_sub_from 0 s = s.
Proof.
  induction s as [|c r IH]; [done|]. intros Hs. cbn [BROKEN_LOCAL_ASSET_RE_sub_from].
  assert (Hm : BROKEN_LOCAL_ASSET_RE_match (String c r) = None).
  { unfold BROKEN_LOCAL_ASSET_RE_match.
    destruct (startswith_ci "https://videa-saversion.webflow.io/" (String c r)) eqn:E8.
    { apply startswith_ci_colon in E8; [congruence | done]. }
    destruct (startswith_ci "http://videa-saversion.webflow.io/" (String c r)) eqn:E7;
      [|done].
    apply startswith_ci_colon in E7; [congruence | done]. }
  rewrite Hm. cbn [Py.mem_char] in Hs. apply orb_false_iff in Hs as [_ Hr]. by rewrite IH.
Qed.

End OneReplacement.

Section OnePage.
Context `{Library}.
Variable env : Env.

Lemma escaped_keeps_colon (t u : string) :
  u ∈ _extract_urls_from_text t -> Py.mem_char ":" (Py.html_escape u) = true.
Proof.
  intros Hu. apply (URL_RE_findall_sound _ 0) in Hu
    as (pre & scheme & body & post & (_ & [-> | ->] & _) & ->).
  - change (Py.html_escape ("http://" +:+ body)) with ("http://" +:+ Py.html_escape body).
    reflexivity.
  - change (Py.html_escape ("https://" +:+ body)) with ("https://" +:+ Py.html_escape body).
    reflexivity.
Qed.

Lemma rewrite_one (u fn pre post : string) :
  (exists r, u = String "h" r) ->
  Py.mem_char ":" (Py.html_escape u) = true ->
  h_free pre -> h_free post -> Py.mem_char ":" post = false ->
  Py.forallb_chars safe_char fn = true ->
  rewrite_text [(u, "assets/" +:+ fn)] (pre +:+ u +:+ post)
  = pre +:+ ("assets/" +:+ fn) +:+ post.
Proof.
  intros [r ->] Hcolon Hfree [Hpost _] Hpost' Hfn.
  pose proof (proj1 Hfree) as Hpre.
  assert (Htail : Py.mem_char ":" (("assets/" +:+ fn) +:+ post) = false).
  { rewrite !mem_char_app, Hpost', orb_false_r.
    rewrite (forallb_chars_mem safe_char ":" fn Hfn eq_refl). reflexivity. }
  unfold rewrite_text. cbn [apply_replacements].
  rewrite replace_single; [|done|by apply contains_first_char].
  destruct (html_escape_keeps_h r) as [r' Hr']. rewrite Hr' in Hcolon |- *.
  rewrite replace_absent; [|done|by apply (contains_split "h" ":")].
  unfold BROKEN_LOCAL_ASSET_RE_sub.
  rewrite sub_h_free_prefix by done. by rewrite sub_colon_free.
Qed.

Lemma sorted_set_singleton (u : string) : sorted_set [u] = [u].
Proof.
  apply Permutation_singleton_r. unfold sorted_set.
  by rewrite merge_sort_Permutation.
Qed.

Lemma child_is_no_grandchild (root : fspath) (name a b : string) :
  root ++ [a; b] <> root ++ [name].
Proof. intros E. apply (f_equal length) in E. rewrite !length_app in E. simpl in E. lia. Qed.

(** X15. A site with one page, holding one asset URL that stands between
    two stretches of text without the letter h (and without a colon after
    it), whose file is not yet in the assets directory and whose first
    request is answered with a body.  The run ends with exit code 0,
    reports one URL found, one asset downloaded and none failed; its first
    request is for that URL; the page is left with [assets/] and the
    file name in place of the URL and otherwise as it was; and the body -
    when it is not empty and is neither a stylesheet nor a script - is
    what the file holds at the end. *)
Theorem single_asset_is_localized (prog arg name pre u post fn data : string) (w : World) :
  stat env (resolve env arg) = Directory ->
  _iter_files (resolve env arg) [".html"] w = [resolve env arg ++ [name]] ->
  files w !! (resolve env arg ++ [name]) = Some (pre +:+ u +:+ post) ->
  _extract_urls_from_text (pre +:+ u +:+ post) = [u] ->
  h_free pre -> h_free post -> Py.mem_char ":" post = false ->
  _is_asset_url u = true ->
  _safe_filename_from_url u = Some fn ->
  exists_nonempty (resolve env arg ++ ["assets"; fn]) w = false ->
  urlopen env (length (requests w)) u = Body data ->
  exists report w' later,
    main env [prog; arg] w = Some (0%Z, Some report, w') /\
    found report = 1 /\ downloaded report = 1 /\ failed report = 0 /\
    requests w' = later ++ u :: requests w /\
    files w' !! (resolve env arg ++ [name]) = Some (pre +:+ ("assets/" +:+ fn) +:+ post) /\
    (data <> "" -> plain_file (resolve env arg ++ ["assets"; fn]) ->
     files w' !! (resolve env arg ++ ["assets"; fn]) = Some data).
Proof.
  intros Hdir Hlist Hpage Hextract Hpre Hpost Hcolon Hasset Hfn Hdest Hanswer.
  set (root := resolve env arg) in *.
  destruct (main_stages env prog arg w Hdir) as (s & Hs & Hf & Hmain).
  { fold root. by rewrite Hlist. }
  fold root in Hs, Hf. rewrite Hlist in Hs, Hf.
  destruct Hs as ((urls & Hg & Hau) & Hd1 & _ & _ & _ & _ & Hd3 & _ & _).
  (* step 1 *)
  cbn [gather_urls] in Hg. rewrite Hpage in Hg. cbn [mbind option_bind] in Hg.
  rewrite Hextract in Hg. injection Hg as <-.
  cbn [app] in Hau. rewrite filter_cons_True, filter_nil, sorted_set_singleton in Hau by done.
  (* step 2 *)
  rewrite Hau in Hd1. cbn [download_assets] in Hd1. rewrite Hfn in Hd1.
  cbn [mbind option_bind] in Hd1.
  rewrite (asset_destination u fn _ Hasset Hfn), <- app_assoc in Hd1. cbn [app] in Hd1.
  rewrite Hdest in Hd1. unfold _download in Hd1.
  change (seqZ 0 (DEFAULT_RETRIES + 1)) with [0; 1; 2]%Z in Hd1.
  cbn [download_attempts] in Hd1. rewrite Hanswer in Hd1.
  injection Hd1 as Hm1 Hnd Hnf Hw1. cbn [dict_set] in Hm1.
  (* step 3 *)
  assert (Hat1 : files (w1 s) !! (root ++ [name]) = Some (pre +:+ u +:+ post)).
  { rewrite <- Hw1, write_text_lookup, decide_False by apply child_is_no_grandchild.
    exact Hpage. }
  assert (Hat2 : files (w2 s) !! (root ++ [name])
                 = Some (pre +:+ ("assets/" +:+ fn) +:+ post)).
  { rewrite (updates_lookup _ _ _ _ _ _ (sf_html _ _ _ _ Hf) ltac:(by left) Hat1).
    f_equal. unfold html_rewritten, _relative_assets_prefix. rewrite relative_to_app.
    cbn [length]. change (String.eqb _ "assets/") with true. cbv iota.
    rewrite <- Hm1. cbn [html_targets map fst snd].
    assert (Hin : u ∈ _extract_urls_from_text (pre +:+ u +:+ post)).
    { rewrite Hextract. by left. }
    apply rewrite_one; [by apply (extracted_begins_h _ _ Hin)
                       |by apply (escaped_keeps_colon _ _ Hin)|done|done|done|].
    by apply (safe_filename_safe u). }
  (* step 4 *)
  destruct (download_discovered_effects env _ _ _ _ _ _
              (fun x Hx => proj1 (sf_discovered _ _ _ _ Hf x Hx)) Hd3) as [Hc3 Hr3].
  pose proof (sf_css _ _ _ _ Hf) as Hu4. pose proof (sf_js _ _ _ _ Hf) as Hu5.
  pose proof (sf_html _ _ _ _ Hf) as Hu2.
  assert (Hsheets : forall p, p ∈ css_files s -> Py.lower (path_suffix p) = ".css").
  { intros p Hp. rewrite (sf_css_files _ _ _ _ Hf) in Hp.
    apply elem_of_iter_files in Hp as (_ & _ & Hp). by apply list_elem_of_singleton in Hp. }
  assert (Hscripts : forall p, p ∈ js_files s -> Py.lower (path_suffix p) = ".js").
  { intros p Hp. rewrite (sf_js_files _ _ _ _ Hf) in Hp.
    apply elem_of_iter_files in Hp as (_ & _ & Hp). by apply list_elem_of_singleton in Hp. }
  assert (Hsuffix : Py.lower (path_suffix (root ++ [name])) = ".html").
  { assert (Hin : root ++ [name] ∈ _iter_files root [".html"] w) by (rewrite Hlist; by left).
    apply elem_of_iter_files in Hin as (_ & _ & Hin). by apply list_elem_of_singleton in Hin. }
  exists (report_of s), (w5 s).
  destruct Hr3 as (later & Hlater & _). exists later.
  split; [exact Hmain|]. cbn [report_of found downloaded failed].
  split; [by rewrite Hau|]. split; [done|]. split; [done|]. split; [|split].
  - destruct Hu2 as (_ & Hq2 & _). destruct Hu4 as (_ & Hq4 & _).
    destruct Hu5 as (_ & Hq5 & _).
    rewrite Hq5, Hq4, Hlater, Hq2, <- Hw1. reflexivity.
  - rewrite (updates_same_outside _ _ _ _ Hu5); cycle 1.
    { intros Hp. apply Hscripts in Hp. congruence. }
    rewrite (updates_same_outside _ _ _ _ Hu4); cycle 1.
    { intros Hp. apply Hsheets in Hp. congruence. }
    rewrite (Hc3 (root ++ [name])); [exact Hat2|].
    intros x E. rewrite <- app_assoc in E. symmetry in E.
    by apply child_is_no_grandchild in E.
  - intros Hdata Hplain. unfold plain_file in Hplain.
    rewrite (updates_same_outside _ _ _ _ Hu5); cycle 1.
    { intros Hp. apply Hscripts in Hp. apply Hplain. rewrite Hp.
      by apply (bool_decide_unpack _). }
    rewrite (updates_same_outside _ _ _ _ Hu4); cycle 1.
    { intros Hp. apply Hsheets in Hp. apply Hplain. rewrite Hp.
      by apply (bool_decide_unpack _). }
    apply (sf_keeps3 _ _ _ _ Hf); [|done].
    rewrite (updates_same_outside _ _ _ _ Hu2); cycle 1.
    { intros Hp. apply list_elem_of_singleton in Hp.
      by apply child_is_no_grandchild in Hp. }
    rewrite <- Hw1, write_text_lookup. by rewrite decide_True.
Qed.

End OnePage.

Lemma single_asset_is_localized_witness :
  exists report w' later,
    main logo_env ["prog"; "site"] logo_site = Some (0%Z, Some report, w') /\
    found report = 1 /\ downloaded report = 1 /\ failed report = 0 /\
    requests w' = later ++ "https://cdn.example.com/logo.png" :: requests logo_site /\
    files w' !! (resolve logo_env "site" ++ ["index.html"])
    = Some ("<img src='" +:+ ("assets/" +:+ "logo.png") +:+ "'>") /\
    ("PNG" <> "" -> plain_file (resolve logo_env "site" ++ ["assets"; "logo.png"]) ->
     files w' !! (resolve logo_env "site" ++ ["assets"; "logo.png"]) = Some "PNG").
Proof.
  apply (single_asset_is_localized logo_env "prog" "site" "index.html"
           "<img src='" "https://cdn.example.com/logo.png" "'>" "logo.png" "PNG" logo_site);
    by vm_compute.
Defined.

(** The inline style of the source comment:
    [url(https://videa-saversion.webflow.io/&quot;assets/foo.png&quot;)]. *)
Lemma broken_reference_collapses_witness :
  BROKEN_LOCAL_ASSET_RE_sub
    ("url(" +:+ "https://videa-saversion.webflow.io/" +:+ "&quot;" +:+ "assets/"
     +:+ "foo.png" +:+ "&quot;" +:+ ")")
  = "url(" +:+ "assets/" +:+ "foo.png" +:+ ")" /\
  rewrite_text []
    ("url(" +:+ "https://videa-saversion.webflow.io/" +:+ "&quot;" +:+ "assets/"
     +:+ "foo.png" +:+ "&quot;" +:+ ")")
  = "url(" +:+ "assets/" +:+ "foo.png" +:+ ")".
Proof.
  apply (broken_reference_collapses "url(" "https://videa-saversion.webflow.io/"
           "&quot;" "&quot;" "foo.png" ")").
  - by vm_compute.
  - by left.
  - by left.
  - by left.
  - done.
  - by vm_compute.
  - by vm_compute.
Defined.

(* ===================================================================== *)
(** * The requests and pauses of a whole run *)
(* ===================================================================== *)

Section Budget.
Context `{Library}.
Variable env : Env.






End Budget.

(* ===================================================================== *)
(** * A site without brand left in it *)
(* ===================================================================== *)

Section NothingToDo.
Variable apply_rewrites : string -> string.


End NothingToDo.



(* ===================================================================== *)
(** * The pages after the branding rewriter has been applied *)
(* ===================================================================== *)

Section AppliedPages.
Variable apply_rewrites : string -> string.
Variables (basename_map stem_map : list (string * string)).


End AppliedPages.






(* ===================================================================== *)
(** * A query string does not change the classification *)
(* ===================================================================== *)

Section QueryStrings.

Lemma find_char_cons (c d : ascii) (r : string) :
  Py.find_char c (String d r)
  = if Ascii.eqb c d then Some 0 else option_map S (Py.find_char c r).
Proof.
  unfold Py.find_char. cbn [Py.find Py.startswith]. rewrite andb_true_r.
  by destruct (Ascii.eqb c d).
Qed.

Lemma find_char_none (c : ascii) (s : string) :
  Py.mem_char c s = false -> Py.find_char c s = None.
Proof.
  induction s as [|d s IH]; [done|]. cbn [Py.mem_char]. intros Hs.
  apply orb_false_iff in Hs as [Hd Hs]. by rewrite find_char_cons, Hd, IH.
Qed.

Lemma find_char_app_stop (c : ascii) (a b : string) :
  Py.mem_char c a = false -> Py.find_char c (a +:+ String c b) = Some (String.length a).
Proof.
  induction a as [|d a IH]; intros Ha.
  - rewrite str_app_nil_l, find_char_cons. by rewrite Ascii.eqb_refl.
  - cbn [Py.mem_char] in Ha. apply orb_false_iff in Ha as [Hd Ha].
    rewrite str_app_cons, find_char_cons, Hd, IH by done. reflexivity.
Qed.

Lemma find_char_app_l (c : ascii) (a x : string) :
  forall i, Py.find_char c a = Some i ->
    Py.find_char c (a +:+ x) = Some i /\ i < String.length a.
Proof.
  induction a as [|d a IH]; intros i Hi; [done|].
  rewrite find_char_cons in Hi. rewrite str_app_cons, find_char_cons.
  destruct (Ascii.eqb c d).
  - injection Hi as <-. split; [done | simpl; lia].
  - destruct (Py.find_char c a) as [j|]; [|done]. injection Hi as <-.
    destruct (IH j eq_refl) as [-> Hj]. split; [done | simpl; lia].
Qed.

Lemma find_char_app_ge (c : ascii) (a x : string) :
  Py.mem_char c a = false ->
  forall j, Py.find_char c (a +:+ x) = Some j -> String.length a <= j.
Proof.
  induction a as [|d a IH]; intros Ha j Hj; [simpl; lia|].
  cbn [Py.mem_char] in Ha. apply orb_false_iff in Ha as [Hd Ha].
  rewrite str_app_cons, find_char_cons, Hd in Hj.
  destruct (Py.find_char c (a +:+ x)) as [k|] eqn:Hk; [|done]. injection Hj as <-.
  specialize (IH Ha k eq_refl). simpl. lia.
Qed.

Lemma take_app_le (n : nat) (a x : string) :
  n <= String.length a -> Py.take n (a +:+ x) = Py.take n a.
Proof.
  revert a. induction n as [|n IH]; intros a Hn; [by destruct a|].
  destruct a as [|c a]; [simpl in Hn; lia|]. rewrite str_app_cons. cbn [Py.take].
  rewrite IH; [done | simpl in Hn; lia].
Qed.

Lemma drop_app_le (n : nat) (a x : string) :
  n <= String.length a -> Py.drop n (a +:+ x) = Py.drop n a +:+ x.
Proof.
  revert a. induction n as [|n IH]; intros a Hn; [by destruct a|].
  destruct a as [|c a]; [simpl in Hn; lia|]. rewrite str_app_cons. cbn [Py.drop].
  rewrite IH; [done | simpl in Hn; lia].
Qed.

Lemma take_app_ge (n : nat) (a x : string) :
  String.length a <= n -> Py.take n (a +:+ x) = a +:+ Py.take (n - String.length a) x.
Proof.
  revert n. induction a as [|c a IH]; intros n Hn.
  - rewrite !str_app_nil_l. simpl. by rewrite Nat.sub_0_r.
  - destruct n as [|n]; [simpl in Hn; lia|]. rewrite !str_app_cons. cbn [Py.take].
    rewrite IH; [done | simpl in Hn; lia].
Qed.

Lemma lstrip_by_app_stop (p : ascii -> bool) (a b : string) (c : ascii) :
  p c = false ->
  Py.lstrip_by p (a +:+ String c b) = Py.lstrip_by p a +:+ String c b.
Proof.
  intros Hc. induction a as [|d a IH].
  - rewrite str_app_nil_l. cbn [Py.lstrip_by]. by rewrite Hc.
  - rewrite str_app_cons. cbn [Py.lstrip_by]. destruct (p d); [exact IH|].
    by rewrite str_app_cons.
Qed.

Lemma filter_chars_app (p : ascii -> bool) (a b : string) :
  Py.filter_chars p (a +:+ b) = Py.filter_chars p a +:+ Py.filter_chars p b.
Proof.
  induction a as [|d a IH]; [done|]. rewrite str_app_cons. cbn [Py.filter_chars].
  destruct (p d); [by rewrite IH, str_app_cons | exact IH].
Qed.

Lemma mem_char_lstrip (c : ascii) (p : ascii -> bool) (s : string) :
  Py.mem_char c s = false -> Py.mem_char c (Py.lstrip_by p s) = false.
Proof.
  induction s as [|d s IH]; [done|]. intros Hs. cbn [Py.lstrip_by].
  destruct (p d); [|done]. apply IH. cbn [Py.mem_char] in Hs.
  by apply orb_false_iff in Hs as [_ Hs].
Qed.

Lemma mem_char_filter (c : ascii) (p : ascii -> bool) (s : string) :
  Py.mem_char c s = false -> Py.mem_char c (Py.filter_chars p s) = false.
Proof.
  induction s as [|d s IH]; [done|]. cbn [Py.mem_char]. intros Hs.
  apply orb_false_iff in Hs as [Hd Hs]. cbn [Py.filter_chars].
  destruct (p d); [|by apply IH]. cbn [Py.mem_char]. by rewrite Hd, IH.
Qed.

Lemma span_until_app (stop : ascii -> bool) (a b : string) (c : ascii) :
  stop c = true ->
  Url.span_until stop (a +:+ String c b)
  = (fst (Url.span_until stop a), snd (Url.span_until stop a) +:+ String c b).
Proof.
  intros Hc. induction a as [|d a IH].
  - rewrite str_app_nil_l. cbn [Url.span_until]. by rewrite Hc.
  - rewrite str_app_cons. cbn [Url.span_until]. destruct (stop d).
    + reflexivity.
    + rewrite IH. by destruct (Url.span_until stop a).
Qed.

Lemma mem_char_span_rest (c : ascii) (stop : ascii -> bool) (s : string) :
  Py.mem_char c s = false -> Py.mem_char c (snd (Url.span_until stop s)) = false.
Proof.
  induction s as [|d s IH]; [done|]. intros Hs. cbn [Url.span_until].
  destruct (stop d); [done|]. cbn [Py.mem_char] in Hs.
  apply orb_false_iff in Hs as [_ Hs]. specialize (IH Hs).
  by destruct (Url.span_until stop s).
Qed.

Lemma startswith_slashes_app (r b : string) :
  Py.startswith "//" (r +:+ String "?" b) = Py.startswith "//" r.
Proof.
  destruct r as [|x [|y r]]; [reflexivity| |reflexivity].
  change (Py.startswith "//" (String x "" +:+ String "?" b))
    with (Ascii.eqb "/" x && false).
  reflexivity.
Qed.

Lemma split_scheme_app (a b : string) :
  Py.mem_char "?" a = false ->
  Url.split_scheme (a +:+ String "?" b)
  = (fst (Url.split_scheme a), snd (Url.split_scheme a) +:+ String "?" b) /\
  Py.mem_char "?" (snd (Url.split_scheme a)) = false /\
  (Py.mem_char "#" a = false -> Py.mem_char "#" (snd (Url.split_scheme a)) = false).
Proof.
  intros Ha. unfold Url.split_scheme.
  destruct (Py.find_char ":" a) as [i|] eqn:Hi.
  - destruct (find_char_app_l ":" a (String "?" b) i Hi) as [-> Hlt].
    destruct i as [|i].
    { destruct a; [done|]. rewrite str_app_cons. by split. }
    destruct a as [|c0 a]; [done|]. rewrite str_app_cons.
    rewrite <- (str_app_cons c0 a (String "?" b)).
    rewrite take_app_le by lia. rewrite drop_app_le by lia.
    destruct (_ && _); cbn [fst snd].
    + split; [done|]. split; [by apply mem_char_drop | intros H; by apply mem_char_drop].
    + by split.
  - assert (Hno : Py.mem_char ":" a = false).
    { destruct (Py.mem_char ":" a) eqn:E; [|done]. exfalso.
      clear -Hi E. induction a as [|d a IH]; [done|].
      rewrite find_char_cons in Hi. cbn [Py.mem_char] in E.
      destruct (Ascii.eqb ":" d); [done|]. cbn [orb] in E.
      destruct (Py.find_char ":" a); [done|]. by apply IH. }
    cbn [fst snd]. split; [|by split].
    destruct (Py.find_char ":" (a +:+ String "?" b)) as [j|] eqn:Hj; [|by destruct (a +:+ _)].
    pose proof (find_char_app_ge ":" a _ Hno j Hj) as Hge.
    destruct j as [|j]; [reflexivity|].
    assert (Hfind : forall (s x : string) k,
              Py.find_char ":" (s +:+ String "?" x) = Some k -> k <> String.length s).
    { induction s as [|d s IH]; intros x k Hk.
      - rewrite str_app_nil_l, find_char_cons in Hk. cbn in Hk.
        destruct (Py.find_char ":" x); [|done]. injection Hk as <-. simpl. lia.
      - rewrite str_app_cons, find_char_cons in Hk. destruct (Ascii.eqb ":" d).
        + injection Hk as <-. simpl. lia.
        + destruct (Py.find_char ":" (s +:+ String "?" x)) as [k'|] eqn:Hk'; [|done].
          injection Hk as <-. specialize (IH x k' Hk'). simpl. lia. }
    pose proof (Hfind a b (S j) Hj) as Hneq.
    assert (Hbad : Py.forallb_chars Url.scheme_char (Py.take (S j) (a +:+ String "?" b))
                   = false).
    { rewrite take_app_ge by lia.
      replace (S j - String.length a) with (S (S j - String.length a - 1)) by lia.
      cbn [Py.take]. rewrite forallb_chars_app. cbn [Py.forallb_chars].
      change (Url.scheme_char "?") with false. cbn [andb]. apply andb_false_r. }
    destruct a as [|c0 a]; [reflexivity|].
    rewrite str_app_cons in Hbad |- *. by rewrite Hbad, andb_false_r.
Qed.

End QueryStrings.

Section QueryIgnored.
Context `{Library}.

Lemma partition_absent (c : ascii) (s : string) :
  Py.mem_char c s = false -> Py.partition c s = (s, false, "").
Proof. intros Hs. unfold Py.partition. by rewrite find_char_none. Qed.

Lemma partition_app_stop (c : ascii) (a b : string) :
  Py.mem_char c a = false -> Py.partition c (a +:+ String c b) = (a, true, b).
Proof.
  intros Ha. unfold Py.partition. rewrite find_char_app_stop by done.
  rewrite str_take_app_length.
  assert (Hdrop : Py.drop (S (String.length a)) (a +:+ String c b) = b).
  { clear Ha. induction a as [|d a IH]; [done|]. rewrite str_app_cons. exact IH. }
  by rewrite Hdrop.
Qed.

(** What [urlsplit] makes of a URL with a query string put after it. *)
Lemma urlsplit_query (url q : string) :
  Py.mem_char "?" url = false -> Py.mem_char "#" url = false ->
  Py.mem_char "#" q = false ->
  match Url.urlsplit url with
  | Some (sch, netloc, path, _, _) =>
      exists qq, Url.urlsplit (url +:+ String "?" q) = Some (sch, netloc, path, qq, "")
  | None => Url.urlsplit (url +:+ String "?" q) = None
  end.
Proof.
  intros Hq Hf Hqf. unfold Url.urlsplit. cbv zeta.
  rewrite lstrip_by_app_stop by reflexivity. rewrite filter_chars_app.
  change (Py.filter_chars (fun c => negb (Url.unsafe_char c)) (String "?" q))
    with (String "?" (Py.filter_chars (fun c => negb (Url.unsafe_char c)) q)).
  set (u1 := Py.filter_chars _ (Py.lstrip_by _ url)).
  set (q1 := Py.filter_chars _ q).
  assert (Hu1q : Py.mem_char "?" u1 = false) by by apply mem_char_filter, mem_char_lstrip.
  assert (Hu1f : Py.mem_char "#" u1 = false) by by apply mem_char_filter, mem_char_lstrip.
  assert (Hq1f : Py.mem_char "#" q1 = false) by by apply mem_char_filter.
  destruct (split_scheme_app u1 q1 Hu1q) as (Hsplit & Hrq & Hrf). specialize (Hrf Hu1f).
  rewrite Hsplit. destruct (Url.split_scheme u1) as [sch r]. cbn [fst snd] in *.
  assert (Hafter : forall x, Py.mem_char "#" x = false ->
            Py.mem_char "#" (x +:+ String "?" q1) = false).
  { intros x Hx. rewrite mem_char_app, Hx. cbn [Py.mem_char orb]. by rewrite Hq1f. }
  rewrite startswith_slashes_app. destruct (Py.startswith "//" r) eqn:Hss.
  - unfold Url._splitnetloc.
    assert (Hlen : 2 <= String.length r).
    { apply startswith_spec in Hss as [t ->]. rewrite str_length_app. simpl. lia. }
    rewrite drop_app_le by done. rewrite span_until_app by reflexivity.
    pose proof (mem_char_span_rest "?" (fun c => Py.mem_char c "/?#") (Py.drop 2 r)
                  (mem_char_drop "?" 2 r Hrq)) as Hnq.
    pose proof (mem_char_span_rest "#" (fun c => Py.mem_char c "/?#") (Py.drop 2 r)
                  (mem_char_drop "#" 2 r Hrf)) as Hnf.
    destruct (Url.span_until _ (Py.drop 2 r)) as [netloc rest]. cbn [fst snd] in *.
    destruct (_ || _); [done|]. destruct (_ && _); [done|].
    rewrite (partition_absent "#" rest Hnf), (partition_absent "?" rest Hnq).
    rewrite (partition_absent "#" _ (Hafter rest Hnf)).
    rewrite (partition_app_stop "?" rest q1 Hnq). by exists q1.
  - rewrite (partition_absent "#" r Hrf), (partition_absent "?" r Hrq).
    rewrite (partition_absent "#" _ (Hafter r Hrf)).
    rewrite (partition_app_stop "?" r q1 Hrq). by exists q1.
Qed.

(** X19. A query string put after a URL does not change whether
    [_is_asset_url] accepts it: for a URL without question mark and
    number sign and a query without number sign, the URL with [?] and
    the query is classified as the URL alone. *)
Theorem query_string_is_ignored (url q : string) :
  Py.mem_char "?" url = false -> Py.mem_char "#" url = false ->
  Py.mem_char "#" q = false ->
  _is_asset_url (url +:+ "?" +:+ q) = _is_asset_url url.
Proof.
  intros Hq Hf Hqf. pose proof (urlsplit_query url q Hq Hf Hqf) as Hsplit.
  unfold _is_asset_url, Url.urlparse.
  change (url +:+ "?" +:+ q) with (url +:+ String "?" q).
  destruct (Url.urlsplit url) as [[[[[sch netloc] path] qq] frag]|].
  - destruct Hsplit as [qq' ->].
    destruct (bool_decide (sch ∈ Url.uses_params) && Py.mem_char ";" path).
    + by destruct (Url._splitparams path).
    + reflexivity.
  - by rewrite Hsplit.
Qed.

End QueryIgnored.

Lemma query_string_is_ignored_witness :
  _is_asset_url ("https://cdn.example.com/app.js" +:+ "?" +:+ "v=2")
  = _is_asset_url "https://cdn.example.com/app.js".
Proof.
  apply (query_string_is_ignored "https://cdn.example.com/app.js" "v=2"); by vm_compute.
Defined.
